(** * Resume builder backend: a shallow embedding of the generation pipeline

    The development follows the layout of the repository:
    - [Py]             the fragment of Python the program relies on
                       (values, dictionaries, exceptions, [str] methods);
    - [Agentstate]     [src/agentstate.py]: [ResumeMetadata], [AgentState];
    - [LatexHandler]   [src/latex_handler.py]: [escape_latex], the template
                       and [generate_latex];
    - [Main]           [src/main.py]: the schemas and the pipeline stages;
    - [OnlineCompiler] [src/online_compiler.py]: the two typesetting
                       backends, the fallback chain and the retry helper;
    followed by the properties of each, module by module, and then by
    - [Workflow]       [src/main.py]: the graph of [build_graph] and its
                       runs from the endpoint's initial state;
    - [Endpoints]      [src/main.py]: the two API endpoints;
    each with its properties.

    Python [str] values are modelled as [string], a sequence of 8-bit
    characters.  Every literal of the program is ASCII; a non-ASCII code
    point of an input is its UTF-8 byte sequence, which none of the
    single-character rules of [escape_latex] can split.  Iteration over a
    [str], a slice such as [text[:200]] and [len] go by code point: a
    byte of the form 10xxxxxx continues the code point of the byte before
    it. *)

From Stdlib Require Import ZArith Ascii.
From Stdlib.Strings Require Byte.
From stdpp Require Import gmap strings list pretty.


(* ===================================================================== *)
(** * The Python fragment                                                 *)
(* ===================================================================== *)

Module Py.

(** ** Exceptions and fallible computations *)

Inductive exn : Type :=
| KeyError (key : string)
| TypeError (msg : string)
| AttributeError (msg : string)
| ValidationError (model : string)
| UnboundLocalError (name : string)
| ServiceError (msg : string).

Inductive result (A : Type) : Type :=
| Ok (a : A)
| Raise (e : exn).
Global Arguments Ok {A} a.
Global Arguments Raise {A} e.

Global Instance result_ret : MRet result := fun _ a => Ok a.
Global Instance result_bind : MBind result := fun _ _ f m =>
  match m with
  | Ok a => f a
  | Raise e => Raise e
  end.
Global Instance result_fmap : FMap result := fun _ _ f m =>
  match m with
  | Ok a => Ok (f a)
  | Raise e => Raise e
  end.

Definition is_ok {A} (m : result A) : bool :=
  match m with Ok _ => true | Raise _ => false end.

(** [[f(x) for x in xs]] for a fallible [f]: the first exception wins. *)
Fixpoint traverse {A B} (f : A -> result B) (xs : list A) : result (list B) :=
  match xs with
  | [] => Ok []
  | x :: xs' => y ← f x; ys ← traverse f xs'; Ok (y :: ys)
  end.

(** ** Values

    The shapes that the program inspects with [isinstance], [.get],
    truthiness and iteration: [None], integers, strings, lists and
    dictionaries (the schemas of the program hold no other scalar).  A
    dictionary keeps its insertion order, which [items()] exposes, hence an
    association list; its keys are the hashable values of the fragment. *)

Inductive pykey : Type :=
| KNone
| KInt (z : Z)
| KStr (s : string).

#[warning="-register-all"]
Inductive pyval : Type :=
| VNone
| VInt (z : Z)
| VStr (s : string)
| VList (l : list pyval)
| VDict (d : list (pykey * pyval)).

Abbreviation dict := (list (pykey * pyval)).

Global Instance pykey_eq_dec : EqDecision pykey.
Proof. solve_decision. Defined.

Definition val_of_key (k : pykey) : pyval :=
  match k with
  | KNone => VNone
  | KInt z => VInt z
  | KStr s => VStr s
  end.

(** [hash(v)]: lists and dictionaries are unhashable. *)
Definition key_of_val (v : pyval) : result pykey :=
  match v with
  | VNone => Ok KNone
  | VInt z => Ok (KInt z)
  | VStr s => Ok (KStr s)
  | VList _ => Raise (TypeError "unhashable type: 'list'")
  | VDict _ => Raise (TypeError "unhashable type: 'dict'")
  end.

(** [type(v).__name__] *)
Definition type_name (v : pyval) : string :=
  match v with
  | VNone => "NoneType"
  | VInt _ => "int"
  | VStr _ => "str"
  | VList _ => "list"
  | VDict _ => "dict"
  end.

(** The message of the [AttributeError] for a missing attribute. *)
Definition no_attribute (type attribute : string) : exn :=
  AttributeError
    ("'" +:+ type +:+ "' object has no attribute '" +:+ attribute +:+ "'").

(** [bool(v)] *)
Definition truthy (v : pyval) : bool :=
  match v with
  | VNone => false
  | VInt z => negb (Z.eqb z 0)
  | VStr s => negb (String.eqb s "")
  | VList l => negb (Nat.eqb (length l) 0)
  | VDict d => negb (Nat.eqb (length d) 0)
  end.

(** ** Dictionaries *)

(** [d.get(k)] as an option, and [d.get(k, default)]. *)
Fixpoint dict_lookup (d : dict) (k : pykey) : option pyval :=
  match d with
  | [] => None
  | (k', v) :: d' => if decide (k' = k) then Some v else dict_lookup d' k
  end.

Definition dict_get (d : dict) (k : string) (default : pyval) : pyval :=
  match dict_lookup d (KStr k) with
  | Some v => v
  | None => default
  end.

(** [d[k]] *)
Definition dict_item (d : dict) (k : string) : result pyval :=
  match dict_lookup d (KStr k) with
  | Some v => Ok v
  | None => Raise (KeyError k)
  end.

(** [d[k] = v]: an existing key keeps its position, a new one goes last. *)
Fixpoint dict_set (d : dict) (k : pykey) (v : pyval) : dict :=
  match d with
  | [] => [(k, v)]
  | (k', v') :: d' =>
    if decide (k' = k) then (k', v) :: d' else (k', v') :: dict_set d' k v
  end.

(** [d.items()] is the association list itself. *)
Definition dict_items (d : dict) : list (pykey * pyval) := d.

(** ** Code points

    A continuation byte of UTF-8, 10xxxxxx, belongs to the code point
    that the nearest byte before it of another form starts. *)
Definition is_continuation (c : ascii) : bool :=
  match c with
  | Ascii _ _ _ _ _ _ b6 b7 => b7 && negb b6
  end.

(** The continuation bytes at the head of [s], and the code points of the
    rest. *)
Fixpoint code_points_after (s : string) : string * list string :=
  match s with
  | EmptyString => (EmptyString, [])
  | String c s' =>
    let '(continuation, points) := code_points_after s' in
    if is_continuation c then (String c continuation, points)
    else (EmptyString, String c continuation :: points)
  end.

(** The code points of a string, each as the string of its bytes. *)
Definition code_points (s : string) : list string :=
  match code_points_after s with
  | (EmptyString, points) => points
  | (stray, points) => stray :: points
  end.

(** ** Iteration: [for x in v] *)

(** The characters of a [str]: one string per code point. *)
Definition chars (s : string) : list pyval := VStr <$> code_points s.

Definition py_iter (v : pyval) : result (list pyval) :=
  match v with
  | VList l => Ok l
  | VStr s => Ok (chars s)
  | VDict d => Ok (map (fun kv => val_of_key kv.1) d)
  | VNone => Raise (TypeError "'NoneType' object is not iterable")
  | VInt _ => Raise (TypeError "'int' object is not iterable")
  end.

(** ** [str] methods *)

(** [s.startswith(p)] is [String.prefix p s]. *)

(** [p in s] *)
Fixpoint contains (p s : string) : bool :=
  String.prefix p s ||
  match s with
  | EmptyString => false
  | String _ s' => contains p s'
  end.

(** [s[:n]]: the first [n] code points, every one with the bytes that
    continue it. *)
Fixpoint str_take (n : nat) (s : string) : string :=
  match s with
  | EmptyString => EmptyString
  | String c s' =>
    if is_continuation c then String c (str_take n s')
    else
      match n with
      | O => EmptyString
      | S n' => String c (str_take n' s')
      end
  end.

(** [len(s)] *)
Definition str_len (s : string) : nat := length (code_points s).

(** [sep.join(xs)] *)
Fixpoint join (sep : string) (xs : list string) : string :=
  match xs with
  | [] => ""
  | [x] => x
  | x :: xs' => x +:+ sep +:+ join sep xs'
  end.

(** [s.replace(old, new)]: every non-overlapping occurrence of [old],
    scanning from the left.  [skip] counts the characters of a matched
    occurrence that are still to be dropped. *)
Fixpoint replace_from (old new : string) (skip : nat) (s : string) : string :=
  match s with
  | EmptyString => EmptyString
  | String c s' =>
    match skip with
    | S k => replace_from old new k s'
    | O =>
      if String.prefix old s
      then new +:+ replace_from old new (String.length old - 1) s'
      else String c (replace_from old new 0 s')
    end
  end.

(** With an empty [old], Python inserts [new] before every character
    (code point) and at the end. *)
Fixpoint replace_empty (new s : string) : string :=
  match s with
  | EmptyString => new
  | String c s' =>
    if is_continuation c then String c (replace_empty new s')
    else new +:+ String c (replace_empty new s')
  end.

Definition replace (s old new : string) : string :=
  match old with
  | EmptyString => replace_empty new s
  | _ => replace_from old new 0 s
  end.

(** Character-wise substitution, the shape a single-character [replace]
    takes. *)
Fixpoint subst_chars (f : ascii -> string) (s : string) : string :=
  match s with
  | EmptyString => EmptyString
  | String c s' => f c +:+ subst_chars f s'
  end.

(** No occurrence of [old] in [x +:+ y] that starts in [x] reaches into
    [y]: every non-empty suffix of [x] matches [old] against [x +:+ y]
    exactly when it does on its own. *)
Fixpoint safe (old x y : string) : Prop :=
  match x with
  | EmptyString => True
  | String _ x' =>
    String.prefix old (x +:+ y) = String.prefix old x /\ safe old x' y
  end.

(** A sufficient test on [x] alone: no non-empty suffix of [x] is a proper
    prefix of [old]. *)
Fixpoint safe_left (old x : string) : bool :=
  match x with
  | EmptyString => true
  | String _ x' =>
    (String.prefix old x || negb (String.prefix x old)) && safe_left old x'
  end.

(** [c in s] for a character. *)
Fixpoint has_char (c : ascii) (s : string) : bool :=
  match s with
  | EmptyString => false
  | String c' s' => bool_decide (c = c') || has_char c s'
  end.

(** A sufficient test on [y] alone: its first character, if any, does not
    occur in [old]. *)
Definition foreign_head (old y : string) : bool :=
  match y with
  | EmptyString => true
  | String c _ => negb (has_char c old)
  end.

(** The newline character. *)
Definition nl : string := String "010"%char EmptyString.

End Py.

Import Py.

(* ===================================================================== *)
(** * [src/agentstate.py]                                                 *)
(* ===================================================================== *)

Module Agentstate.

(** Pydantic's validation of a constructor argument against the declared
    type of its field.  No value of the fragment is coerced into another
    type. *)
Definition as_str (v : pyval) : option string :=
  match v with VStr s => Some s | _ => None end.

Definition as_optional {A} (f : pyval -> option A) (v : pyval)
  : option (option A) :=
  match v with
  | VNone => Some None
  | _ => Some <$> f v
  end.

Definition as_dict (v : pyval) : option dict :=
  match v with VDict d => Some d | _ => None end.

Definition as_list {A} (f : pyval -> option A) (v : pyval) : option (list A) :=
  match v with
  | VList l => mapM f l
  | _ => None
  end.

(** [class ResumeMetadata(BaseModel)] *)
Record ResumeMetadata : Type := {
  name : string;
  email : string;
  phone : option string;
  github : option string;
  linkedin : option string;
  experiences : list dict;
  education : list dict;
  projects : list dict;
  technical_skills : dict;
  soft_skills : list string;
  positions_of_responsibility : list dict;
  certifications : list dict;
  coding_stats : option dict;
}.

(** [ResumeMetadata(name=..., ...)]: every argument is validated, and a
    single [ValidationError] reports the failures. *)
Definition new_ResumeMetadata
    (name email phone github linkedin experiences education projects
     technical_skills soft_skills positions_of_responsibility certifications
     coding_stats : pyval) : result ResumeMetadata :=
  let validated :=
    name ← as_str name;
    email ← as_str email;
    phone ← as_optional as_str phone;
    github ← as_optional as_str github;
    linkedin ← as_optional as_str linkedin;
    experiences ← as_list as_dict experiences;
    education ← as_list as_dict education;
    projects ← as_list as_dict projects;
    technical_skills ← as_dict technical_skills;
    soft_skills ← as_list as_str soft_skills;
    positions_of_responsibility ← as_list as_dict positions_of_responsibility;
    certifications ← as_list as_dict certifications;
    coding_stats ← as_optional as_dict coding_stats;
    Some {| name := name; email := email; phone := phone; github := github;
            linkedin := linkedin; experiences := experiences;
            education := education; projects := projects;
            technical_skills := technical_skills; soft_skills := soft_skills;
            positions_of_responsibility := positions_of_responsibility;
            certifications := certifications; coding_stats := coding_stats |}
  in
  match validated with
  | Some m => Ok m
  | None => Raise (ValidationError "ResumeMetadata")
  end.

(** Messages of the conversation log. *)
Inductive message : Type :=
| SystemMessage (content : string)
| HumanMessage (content : string).

(** [class AgentState(TypedDict)]: at run time a plain dictionary from
    field names to values.  A slot holds data, the assembled record or the
    message list. *)
Inductive slot : Type :=
| SVal (v : pyval)
| SMeta (m : ResumeMetadata)
| SMessages (msgs : list message).

Abbreviation AgentState := (gmap string slot).

(** [state[k]] and [state.get(k)] *)
Definition state_item (state : AgentState) (k : string) : result slot :=
  match state !! k with
  | Some v => Ok v
  | None => Raise (KeyError k)
  end.

Definition state_get (state : AgentState) (k : string) : slot :=
  default (SVal VNone) (state !! k).

(** [type(x).__name__] of the content of a slot. *)
Definition slot_type_name (s : slot) : string :=
  match s with
  | SVal v => type_name v
  | SMeta _ => "ResumeMetadata"
  | SMessages _ => "list"
  end.

(** [bool(x)] of a slot: an object is true, a list is true when non-empty. *)
Definition slot_truthy (s : slot) : bool :=
  match s with
  | SVal v => truthy v
  | SMeta _ => true
  | SMessages msgs => negb (Nat.eqb (length msgs) 0)
  end.

(** What the interpreter and its standard library supply: the [repr] of a
    container or of an object, which depends on quoting rules and Unicode
    tables, and [json.dumps(v, indent=2)]. *)
Class Runtime : Type := {
  py_repr : pyval -> string;
  obj_repr : slot -> string;
  json_dumps : pyval -> result string;
}.

(** [str(v)] *)
Definition py_str `{Runtime} (v : pyval) : string :=
  match v with
  | VNone => "None"
  | VInt z => pretty z
  | VStr s => s
  | VList _ | VDict _ => py_repr v
  end.

(** [f"{x}"] for the content of a slot. *)
Definition slot_str `{Runtime} (s : slot) : string :=
  match s with
  | SVal v => py_str v
  | _ => obj_repr s
  end.

End Agentstate.

(* ===================================================================== *)
(** * [src/latex_handler.py]                                              *)
(* ===================================================================== *)

Module LatexHandler.
Import Agentstate.

(** The substitution table of [escape_latex], in source order. *)
Definition replacements : list (string * string) :=
  [ ("\", "\textbackslash{}");
    ("%", "\%");
    ("#", "\#");
    ("_", "\_");
    ("{", "\{");
    ("}", "\}");
    ("~", "\textasciitilde{}");
    ("^", "\textasciicircum{}") ].

(** The body of [escape_latex] once [text] is a non-empty [str]: the loop
    over [replacements], then the guarded ampersand rule. *)
Definition apply_replacements (text : string) : string :=
  foldl (fun text '(old, new) => replace text old new) text replacements.

Definition escape_text (text : string) : string :=
  let text := apply_replacements text in
  if negb (contains "\&" text) then replace text "&" "\&" else text.

Definition escape_latex `{Runtime} (text : pyval) : string :=
  if negb (truthy text) then ""
  else escape_text (py_str text).

(** [get_latex_template] *)
Definition get_latex_template : string :=
"%-------------------------
% Resume in Latex
%------------------------

\documentclass[letterpaper,11pt]{article}

\usepackage{latexsym}
\usepackage[empty]{fullpage}
\usepackage{titlesec}
\usepackage{marvosym}
\usepackage[usenames,dvipsnames]{color}
\usepackage{verbatim}
\usepackage{enumitem}
\usepackage[hidelinks]{hyperref}
\usepackage{fancyhdr}
\usepackage[english]{babel}
\usepackage{tabularx}
\usepackage{fontawesome5}
\usepackage{multicol}
\setlength{\multicolsep}{-3.0pt}
\setlength{\columnsep}{-1pt}
\input{glyphtounicode}

\pagestyle{fancy}
\fancyhf{}
\fancyfoot{}
\renewcommand{\headrulewidth}{0pt}
\renewcommand{\footrulewidth}{0pt}

% Adjust margins
\addtolength{\oddsidemargin}{-0.6in}
\addtolength{\evensidemargin}{-0.5in}
\addtolength{\textwidth}{1.19in}
\addtolength{\topmargin}{-.7in}
\addtolength{\textheight}{1.4in}

\urlstyle{same}

\raggedbottom
\raggedright
\setlength{\tabcolsep}{0in}

% Sections formatting
\titleformat{\section}{\vspace{-4pt}\scshape\raggedright\large\bfseries}{}{0em}{}[\color{black}\titlerule\vspace{-5pt}]

% Ensure that generate pdf is machine readable/ATS parsable
\pdfgentounicode=1

%-------------------------
% Custom commands
\newcommand{\resumeItem}[1]{
  \item\small{
    {#1 \vspace{-2pt}}
  }
}

\newcommand{\resumeSubheading}[4]{
  \vspace{-2pt}\item
    \begin{tabular*}{1.0\textwidth}[t]{l@{\extracolsep{\fill}}r}
      \textbf{#1} & \textbf{\small #2} \\
      \textit{\small#3} & \textit{\small #4} \\
    \end{tabular*}\vspace{-7pt}
}

\newcommand{\resumeProjectHeading}[2]{
    \item
    \begin{tabular*}{1.001\textwidth}{l@{\extracolsep{\fill}}r}
      \small#1 & \textbf{\small #2}\\
    \end{tabular*}\vspace{-7pt}
}

\newcommand{\resumeSubItem}[1]{\resumeItem{#1}\vspace{-4pt}}

\renewcommand\labelitemi{$\vcenter{\hbox{\tiny$\bullet$}}$}
\renewcommand\labelitemii{$\vcenter{\hbox{\tiny$\bullet$}}$}

\newcommand{\resumeSubHeadingListStart}{\begin{itemize}[leftmargin=0.0in, label={}]}
\newcommand{\resumeSubHeadingListEnd}{\end{itemize}}
\newcommand{\resumeItemListStart}{\begin{itemize}}
\newcommand{\resumeItemListEnd}{\end{itemize}\vspace{-5pt}}

%-------------------------------------------
%%%%%%  RESUME STARTS HERE  %%%%%%%%%%%%%%%%%%%%%%%%%%%%

\begin{document}

%----------HEADING----------
\begin{center}
    {\Huge \scshape {{NAME}}} \\ \vspace{2pt}
    \small \raisebox{-0.1\height}\faPhone\ {{PHONE}} ~ \href{mailto:{{EMAIL}}}{\raisebox{-0.2\height}\faEnvelope\ {{EMAIL}}} ~ 
    \href{https://{{LINKEDIN}}}{\raisebox{-0.2\height}\faLinkedin\ LinkedIn}
\end{center}

%-----------EXPERIENCE-----------
\section{Experience}
  \resumeSubHeadingListStart
{{EXPERIENCE}}  \resumeSubHeadingListEnd
\vspace{-16pt}

%-----------EDUCATION-----------
\section{Education}
  \resumeSubHeadingListStart
{{EDUCATION}}  \resumeSubHeadingListEnd

%-----------PROJECTS-----------
\section{Projects}
    \resumeSubHeadingListStart
{{PROJECTS}}    \resumeSubHeadingListEnd
\vspace{-16pt}

%-----------TECHNICAL SKILLS-----------
\section{Technical Skills}
 \begin{itemize}[leftmargin=0.15in, label={}]
    \item{
     {{TECHNICAL_SKILLS}}
    }
 \end{itemize}
 \vspace{-16pt}

%-----------INVOLVEMENT---------------
\section{Position of Responsibility}
    \resumeSubHeadingListStart
{{POSITIONS}}    \resumeSubHeadingListEnd

\end{document}
".


(** [x or default] on an optional string. *)
Definition or_default (x : option string) (default : string) : string :=
  match x with
  | Some s => if String.eqb s "" then default else s
  | None => default
  end.

(** A loop [for x in xs: acc += f(x)] starting from the empty string. *)
Definition accumulate {A} (f : A -> result string) (xs : list A)
  : result string :=
  foldl (fun acc x => a ← acc; s ← f x; Ok (a +:+ s)) (Ok "") xs.

Section Render.
Context `{Runtime}.

(** *** Experience *)
Definition experience_entry (exp : dict) : result string :=
  let company := escape_latex (dict_get exp "company" (VStr "Company")) in
  let duration := escape_latex (dict_get exp "duration" (VStr "Date")) in
  let role := escape_latex (dict_get exp "role" (VStr "Role")) in
  let head := "    \resumeSubheading{" +:+ company +:+ "}{" +:+ duration
              +:+ "}{" +:+ role +:+ "}{}\resumeItemListStart" +:+ nl in
  achievements ← py_iter (dict_get exp "achievements" (VList []));
  items ← accumulate
    (fun achievement =>
       Ok ("        \resumeItem{" +:+ escape_latex achievement +:+ "}" +:+ nl))
    achievements;
  Ok (head +:+ items +:+ "    \resumeItemListEnd" +:+ nl +:+ nl).

Definition experience_placeholder : string :=
  "    \resumeSubheading{Add Your Experience Here}{Jan 2024 - Present}{Role}{}\resumeItemListStart"
  +:+ nl +:+ "        \resumeItem{Description of your work experience}"
  +:+ nl +:+ "    \resumeItemListEnd" +:+ nl +:+ nl.

Definition experience_latex (metadata : ResumeMetadata) : result string :=
  match experiences metadata with
  | [] => Ok experience_placeholder
  | exps => accumulate experience_entry exps
  end.

(** *** Education *)
Definition education_entry (edu : dict) : result string :=
  let institution :=
    escape_latex (dict_get edu "institution" (VStr "Institution")) in
  let duration := escape_latex (dict_get edu "duration" (VStr "Date")) in
  let degree := escape_latex (dict_get edu "degree" (VStr "Degree")) in
  Ok ("    \resumeSubheading{" +:+ institution +:+ "}{" +:+ duration +:+ "}{"
      +:+ degree +:+ "}{}\vspace{-7pt}" +:+ nl).

Definition education_placeholder : string :=
  "    \resumeSubheading{Your University}{2020 - 2024}{Your Degree}{}\vspace{-7pt}"
  +:+ nl.

Definition education_latex (metadata : ResumeMetadata) : result string :=
  match education metadata with
  | [] => Ok education_placeholder
  | edus => accumulate education_entry edus
  end.

(** *** Projects: the source has no [else] branch here. *)
Definition project_entry (proj : dict) : result string :=
  let project_name := escape_latex (dict_get proj "name" (VStr "Project")) in
  technologies ← py_iter (dict_get proj "technologies" (VList []));
  let tech_stack :=
    join ", " (map (fun t => escape_latex (VStr (py_str t))) technologies) in
  let date := escape_latex (dict_get proj "date" (VStr "Date")) in
  let head := "    \resumeProjectHeading{\textbf{" +:+ project_name
              +:+ "} $|$ " +:+ tech_stack +:+ "}{" +:+ date
              +:+ "}\resumeItemListStart" +:+ nl in
  achievements ← py_iter (dict_get proj "achievements" (VList []));
  items ← accumulate
    (fun achievement =>
       Ok ("      \resumeItem{" +:+ escape_latex achievement +:+ "}" +:+ nl))
    achievements;
  Ok (head +:+ items +:+ "    \resumeItemListEnd" +:+ nl).

Definition projects_latex (metadata : ResumeMetadata) : result string :=
  match projects metadata with
  | [] => Ok ""
  | projs => accumulate project_entry projs
  end.

(** *** Technical skills *)
Definition skills_line (item : pykey * pyval) : result (list string) :=
  let '(category, skills) := item in
  if truthy skills then
    ss ← py_iter skills;
    let skills_str :=
      join ", " (map (fun s => escape_latex (VStr (py_str s))) ss) in
    Ok ["\textbf{" +:+ escape_latex (val_of_key category) +:+ "}: "
        +:+ skills_str]
  else Ok [].

Definition skills_placeholder : string :=
  "\textbf{Languages}: Python, Java, C++ \\" +:+ nl
  +:+ "     \textbf{Technologies}: React, Node.js, Docker".

Definition technical_skills_latex (metadata : ResumeMetadata)
  : result string :=
  match technical_skills metadata with
  | [] => Ok skills_placeholder
  | skills =>
    skills_list ← traverse skills_line (dict_items skills);
    Ok (join (" \\" +:+ nl +:+ "     ") (concat skills_list))
  end.

(** *** Positions of responsibility *)
Definition por_entry (por : dict) : result string :=
  let organization :=
    escape_latex (dict_get por "organization" (VStr "Organization")) in
  let duration := escape_latex (dict_get por "duration" (VStr "Date")) in
  let role := escape_latex (dict_get por "role" (VStr "Role")) in
  let location := escape_latex (dict_get por "location" (VStr "")) in
  let description := escape_latex (dict_get por "description" (VStr "")) in
  Ok ("        \resumeSubheading{" +:+ organization +:+ "}{" +:+ duration
      +:+ "}{" +:+ role +:+ "}{" +:+ location +:+ "}\resumeItemListStart"
      +:+ nl
      +:+ "            \resumeItem{" +:+ description +:+ "}" +:+ nl
      +:+ "        \resumeItemListEnd" +:+ nl +:+ nl).

Definition por_placeholder : string :=
  "        \resumeSubheading{Organization Name}{2022 - 2024}{Your Role}{}\resumeItemListStart"
  +:+ nl +:+ "            \resumeItem{Description of your responsibilities}"
  +:+ nl +:+ "        \resumeItemListEnd" +:+ nl +:+ nl.

Definition por_latex (metadata : ResumeMetadata) : result string :=
  match positions_of_responsibility metadata with
  | [] => Ok por_placeholder
  | pors => accumulate por_entry pors
  end.

(** *** The document *)
Definition render (metadata : ResumeMetadata) : result string :=
  let latex_code := get_latex_template in
  let latex_code :=
    replace latex_code "{{NAME}}" (escape_latex (VStr (name metadata))) in
  let latex_code :=
    replace latex_code "{{EMAIL}}" (escape_latex (VStr (email metadata))) in
  let latex_code :=
    replace latex_code "{{PHONE}}"
      (escape_latex (VStr (or_default (phone metadata) "+91 1234567890"))) in
  let latex_code :=
    replace latex_code "{{LINKEDIN}}"
      (escape_latex
         (VStr (or_default (linkedin metadata) "linkedin.com/in/yourprofile")))
  in
  experience ← experience_latex metadata;
  let latex_code := replace latex_code "{{EXPERIENCE}}" experience in
  education ← education_latex metadata;
  let latex_code := replace latex_code "{{EDUCATION}}" education in
  projects ← projects_latex metadata;
  let latex_code := replace latex_code "{{PROJECTS}}" projects in
  skills ← technical_skills_latex metadata;
  let latex_code := replace latex_code "{{TECHNICAL_SKILLS}}" skills in
  por ← por_latex metadata;
  Ok (replace latex_code "{{POSITIONS}}" por).

(** [metadata = state['resume_metadata']] followed by attribute access. *)
Definition the_metadata (state : AgentState) : result ResumeMetadata :=
  s ← state_item state "resume_metadata";
  match s with
  | SMeta m => Ok m
  | _ => Raise (no_attribute (slot_type_name s) "name")
  end.

Definition generate_latex (state : AgentState) : result AgentState :=
  metadata ← the_metadata state;
  latex_code ← render metadata;
  Ok (<["messages" := SMessages [HumanMessage "Generated LaTeX code"]]>
        (<["latex_code" := SVal (VStr latex_code)]> state)).

End Render.

End LatexHandler.

(* ===================================================================== *)
(** * [src/main.py]                                                       *)
(* ===================================================================== *)

Module Main.
Import Agentstate.

(** ** Pydantic schemas for structured output

    [model_dump] lists the fields in declaration order. *)

Definition dump_optional_str (x : option string) : pyval :=
  match x with
  | Some s => VStr s
  | None => VNone
  end.

Definition dump_strs (xs : list string) : pyval := VList (VStr <$> xs).

Module WorkExperience.
Record t : Type := {
  company : string;
  role : string;
  duration : string;
  achievements : list string;
}.
Definition model_dump (x : t) : dict :=
  [ (KStr "company", VStr (company x));
    (KStr "role", VStr (role x));
    (KStr "duration", VStr (duration x));
    (KStr "achievements", dump_strs (achievements x)) ].
End WorkExperience.

Module Education.
Record t : Type := {
  institution : string;
  degree : string;
  duration : string;
}.
Definition model_dump (x : t) : dict :=
  [ (KStr "institution", VStr (institution x));
    (KStr "degree", VStr (degree x));
    (KStr "duration", VStr (duration x)) ].
End Education.

Module Project.
Record t : Type := {
  name : string;
  technologies : list string;
  date : string;
  achievements : list string;
}.
Definition model_dump (x : t) : dict :=
  [ (KStr "name", VStr (name x));
    (KStr "technologies", dump_strs (technologies x));
    (KStr "date", VStr (date x));
    (KStr "achievements", dump_strs (achievements x)) ].
End Project.

Module PositionOfResponsibility.
Record t : Type := {
  organization : string;
  role : string;
  duration : string;
  location : option string;
  description : string;
}.
Definition model_dump (x : t) : dict :=
  [ (KStr "organization", VStr (organization x));
    (KStr "role", VStr (role x));
    (KStr "duration", VStr (duration x));
    (KStr "location", dump_optional_str (location x));
    (KStr "description", VStr (description x)) ].
End PositionOfResponsibility.

Module Certification.
Record t : Type := {
  name : string;
  issuer : option string;
  date : option string;
}.
Definition model_dump (x : t) : dict :=
  [ (KStr "name", VStr (name x));
    (KStr "issuer", dump_optional_str (issuer x));
    (KStr "date", dump_optional_str (date x)) ].
End Certification.

Module CodingStats.
Record t : Type := {
  platform : string;
  description : string;
}.
Definition model_dump (x : t) : dict :=
  [ (KStr "platform", VStr (platform x));
    (KStr "description", VStr (description x)) ].
End CodingStats.

Definition dump_models {A} (model_dump : A -> dict) (xs : list A) : pyval :=
VList ((fun x => VDict (model_dump x)) <$> xs).

Module ExtractedResumeInfo.
Record t : Type := {
  name : string;
  email : string;
  phone : option string;
  github : option string;
  linkedin : option string;
  experiences : list WorkExperience.t;
  education : list Education.t;
  projects : list Project.t;
  technical_skills : dict;
  soft_skills : list string;
  positions_of_responsibility : list PositionOfResponsibility.t;
  certifications : list Certification.t;
  coding_stats : option (list CodingStats.t);
}.
Definition model_dump (x : t) : dict :=
  [ (KStr "name", VStr (name x));
    (KStr "email", VStr (email x));
    (KStr "phone", dump_optional_str (phone x));
    (KStr "github", dump_optional_str (github x));
    (KStr "linkedin", dump_optional_str (linkedin x));
    (KStr "experiences",
     dump_models WorkExperience.model_dump (experiences x));
    (KStr "education", dump_models Education.model_dump (education x));
    (KStr "projects", dump_models Project.model_dump (projects x));
    (KStr "technical_skills", VDict (technical_skills x));
    (KStr "soft_skills", dump_strs (soft_skills x));
    (KStr "positions_of_responsibility",
     dump_models PositionOfResponsibility.model_dump
       (positions_of_responsibility x));
    (KStr "certifications",
     dump_models Certification.model_dump (certifications x));
    (KStr "coding_stats",
     match coding_stats x with
     | Some cs => dump_models CodingStats.model_dump cs
     | None => VNone
     end) ].
End ExtractedResumeInfo.

(** The schema carries no length constraint: ["Exactly 3 generated
  projects"] is the field's description, sent to the model as text. *)
Module GeneratedProjects.
Record t : Type := { projects : list Project.t }.
End GeneratedProjects.

Module TechnicalSkills.
Record t : Type := { skills : dict }.
End TechnicalSkills.

(** ** Structured-output LLM bindings

    Each binding either returns an instance of its schema or raises. *)
Class ReasoningService : Type := {
  extractor_llm : list message -> result ExtractedResumeInfo.t;
  project_llm : list message -> result GeneratedProjects.t;
  skills_llm : list message -> result TechnicalSkills.t;
}.

(** [v.get(k, default)] on a value and on a slot: only a dictionary has
    the method. *)
Definition val_get (v : pyval) (k : string) (default : pyval)
  : result pyval :=
  match v with
  | VDict d => Ok (dict_get d k default)
  | _ => Raise (no_attribute (type_name v) "get")
  end.

Definition slot_get (s : slot) (k : string) (default : pyval)
  : result pyval :=
  match s with
  | SVal v => val_get v k default
  | _ => Raise (no_attribute (slot_type_name s) "get")
  end.

Section Stages.
Context `{Runtime} `{ReasoningService}.

(** ** Node 1: Extract information from existing resume *)
Definition extract_resume_info (state : AgentState) : result AgentState :=
  resume_text ← state_item state "resume_text";
  let messages :=
    [ SystemMessage
        ("You are an expert at extracting structured information from resumes. "
         +:+ "Extract ALL information present in the resume text. "
         +:+ "If a field is absent, use an empty list or null as appropriate. "
         +:+ "Never fabricate information that is not in the resume.");
      HumanMessage ("Resume text:" +:+ nl +:+ nl +:+ slot_str resume_text) ]
  in
  extracted ← extractor_llm messages;
  Ok (<["messages" :=
          SMessages [HumanMessage "Extracted information from resume"]]>
        (<["extracted_info" :=
             SVal (VDict (ExtractedResumeInfo.model_dump extracted))]> state)).

(** ** Node 2: Generate relevant projects *)
Definition generate_projects (state : AgentState) : result AgentState :=
  extracted ← state_item state "extracted_info";
  experiences ← slot_get extracted "experiences" (VList []);
  experience_summary ← json_dumps experiences;
  job_description ← state_item state "job_description";
  let messages :=
    [ SystemMessage
        ("You are an expert at creating compelling project descriptions for resumes. "
         +:+ "Generate exactly 3 technical projects that align with the job description and "
         +:+ "the candidate's existing experience level. "
         +:+ "Each project must have 2-3 achievement bullet points with specific metrics and numbers. "
         +:+ "Keep the technologies list to at most 3 items per project. "
         +:+ "Make the projects realistic and impressive.");
      HumanMessage
        ("Job Description:" +:+ nl +:+ slot_str job_description +:+ nl +:+ nl
         +:+ "Candidate's existing experience:" +:+ nl +:+ experience_summary
         +:+ nl +:+ nl +:+ "Generate 3 relevant projects.") ]
  in
  result ← project_llm messages;
  let projects := GeneratedProjects.projects result in
  Ok (<["messages" :=
          SMessages [HumanMessage ("Generated " +:+ pretty (length projects)
                                   +:+ " relevant projects")]]>
        (<["generated_projects" :=
             SVal (dump_models Project.model_dump projects)]> state)).

(** ** Node 3: Generate relevant technical skills *)
Definition generate_skills (state : AgentState) : result AgentState :=
  job_description ← state_item state "job_description";
  let messages :=
    [ SystemMessage
        ("You are an expert at identifying key technical skills for job applications. "
         +:+ "Based on the job description, return a comprehensive set of technical skills "
         +:+ "grouped into categories such as 'Languages/Frameworks', 'Tools', and 'Concepts'. "
         +:+ "Limit each category to at most 7 items. "
         +:+ "Only include skills that are genuinely relevant to the role.");
      HumanMessage ("Job Description:" +:+ nl +:+ slot_str job_description) ]
  in
  result ← skills_llm messages;
  Ok (<["messages" :=
          SMessages [HumanMessage "Generated relevant technical skills"]]>
        (<["generated_skills" :=
             SVal (VDict (TechnicalSkills.skills result))]> state)).

End Stages.

(** ** Node 4: Assemble resume metadata *)

(** The list comprehensions: each entry is rebuilt key by key. *)
Definition format_experience (exp : pyval) : result pyval :=
  company ← val_get exp "company" (VStr "");
  role ← val_get exp "role" (VStr "");
  duration ← val_get exp "duration" (VStr "");
  achievements ← val_get exp "achievements" (VList []);
  Ok (VDict [ (KStr "company", company); (KStr "role", role);
              (KStr "duration", duration);
              (KStr "achievements", achievements) ]).

Definition format_por (por : pyval) : result pyval :=
  organization ← val_get por "organization" (VStr "");
  role ← val_get por "role" (VStr "");
  duration ← val_get por "duration" (VStr "");
  location ← val_get por "location" (VStr "");
  description ← val_get por "description" (VStr "");
  Ok (VDict [ (KStr "organization", organization); (KStr "role", role);
              (KStr "duration", duration); (KStr "location", location);
              (KStr "description", description) ]).

Definition format_certification (cert : pyval) : result pyval :=
  name ← val_get cert "name" (VStr "");
  issuer ← val_get cert "issuer" (VStr "");
  date ← val_get cert "date" (VStr "");
  Ok (VDict [ (KStr "name", name); (KStr "issuer", issuer);
              (KStr "date", date) ]).

Definition format_project (proj : pyval) : result pyval :=
  name ← val_get proj "name" (VStr "");
  technologies ← val_get proj "technologies" (VList []);
  date ← val_get proj "date" (VStr "");
  achievements ← val_get proj "achievements" (VList []);
  Ok (VDict [ (KStr "name", name); (KStr "technologies", technologies);
              (KStr "date", date); (KStr "achievements", achievements) ]).

(** [for proj in s] on a slot, for the comprehension that calls
    [proj.get].  Iterating the record yields (field, value) tuples and
    iterating a message list yields messages, none of which has a [get]
    method: the comprehension raises on the first element. *)
Definition slot_iter (s : slot) : result (list pyval) :=
  match s with
  | SVal v => py_iter v
  | SMeta _ => Raise (no_attribute "tuple" "get")
  | SMessages [] => Ok []
  | SMessages (SystemMessage _ :: _) =>
    Raise (no_attribute "SystemMessage" "get")
  | SMessages (HumanMessage _ :: _) =>
    Raise (no_attribute "HumanMessage" "get")
  end.

(** [raw_projects]: generated projects when truthy, else the extracted
    ones. *)
Definition raw_projects (state : AgentState) (extracted : slot)
  : result (list pyval) :=
  if slot_truthy (state_get state "generated_projects")
  then s ← state_item state "generated_projects"; slot_iter s
  else ps ← slot_get extracted "projects" (VList []); py_iter ps.

(** The dictionary comprehension over [raw_coding]: key, then value, then
    insertion (which hashes the key). *)
Fixpoint coding_comprehension (items : list pyval) (acc : dict)
  : result dict :=
  match items with
  | [] => Ok acc
  | VDict item :: rest =>
    platform ← dict_item item "platform";
    description ← dict_item item "description";
    key ← key_of_val platform;
    coding_comprehension rest (dict_set acc key description)
  | _ :: rest => coding_comprehension rest acc
  end.

(** [coding_stats] from [raw_coding]. *)
Definition normalize_coding_stats (raw_coding : pyval) : result pyval :=
  match raw_coding with
  | VList items => VDict <$> coding_comprehension items []
  | VDict d => Ok (VDict d)
  | _ => Ok VNone
  end.

(** [state.get("generated_skills") or extracted.get("technical_skills", {})] *)
Definition skills_argument (state : AgentState) (extracted : slot)
  : result pyval :=
  let generated := state_get state "generated_skills" in
  if slot_truthy generated then
    match generated with
    | SVal v => Ok v
    | _ => Raise (ValidationError "ResumeMetadata")
    end
  else slot_get extracted "technical_skills" (VDict []).

Definition create_metadata (state : AgentState) : result AgentState :=
  extracted ← state_item state "extracted_info";
  experiences ← slot_get extracted "experiences" (VList []);
  experiences ← py_iter experiences;
  formatted_experiences ← traverse format_experience experiences;
  pors ← slot_get extracted "positions_of_responsibility" (VList []);
  pors ← py_iter pors;
  formatted_por ← traverse format_por pors;
  certifications ← slot_get extracted "certifications" (VList []);
  certifications ← py_iter certifications;
  formatted_certifications ← traverse format_certification certifications;
  projects ← raw_projects state extracted;
  formatted_projects ← traverse format_project projects;
  raw_coding ← slot_get extracted "coding_stats" VNone;
  coding_stats ← normalize_coding_stats raw_coding;
  name ← slot_get extracted "name" (VStr "John Doe");
  email ← slot_get extracted "email" (VStr "john@example.com");
  phone ← slot_get extracted "phone" VNone;
  github ← slot_get extracted "github" VNone;
  linkedin ← slot_get extracted "linkedin" VNone;
  education ← slot_get extracted "education" (VList []);
  technical_skills ← skills_argument state extracted;
  soft_skills ← slot_get extracted "soft_skills" (VList []);
  metadata ← new_ResumeMetadata name email phone github linkedin
    (VList formatted_experiences) education (VList formatted_projects)
    technical_skills soft_skills (VList formatted_por)
    (VList formatted_certifications) coding_stats;
  Ok (<["messages" := SMessages [HumanMessage "Created resume metadata"]]>
        (<["resume_metadata" := SMeta metadata]> state)).

End Main.

(* ===================================================================== *)
(** * [src/online_compiler.py]                                            *)
(* ===================================================================== *)

Module OnlineCompiler.

Abbreviation bytes := (list Byte.byte).

Global Instance byte_eq_dec : EqDecision Byte.byte := Byte.byte_eq_dec.

(** ** The network and the clock

    What [requests.post] and [requests.get] can do: return a response or
    raise.  [requests.exceptions.Timeout] is a [RequestException]; the
    constructors below are disjoint, in the order the handlers test them. *)
Inductive http_outcome : Type :=
| Response (status_code : Z) (content : bytes) (text : string)
| Timeout (msg : string)
| RequestException (msg : string)
| OtherException (msg : string).

Inductive http_method : Type := POST | GET.

Record request : Type := {
  method : http_method;
  url : string;
  compiler : string;
  content : string;
  timeout : Z;
}.

(** The world threaded through the module: how the network answers the
    [n]-th request, the requests sent so far and the [time.sleep] calls
    made so far (latest first). *)
Record world : Type := {
  net : nat -> request -> http_outcome;
  sent : list request;
  slept : list Z;
}.

Definition io (A : Type) : Type := world -> A * world.

Global Instance io_ret : MRet io := fun _ a w => (a, w).
Global Instance io_bind : MBind io := fun _ _ f m w =>
  let '(a, w') := m w in f a w'.

Definition send (r : request) : io http_outcome := fun w =>
  (net w (length (sent w)) r,
   {| net := net w; sent := sent w ++ [r]; slept := slept w |}).

Definition sleep (seconds : Z) : io unit := fun w =>
  (tt, {| net := net w; sent := sent w; slept := seconds :: slept w |}).

(** [(success, pdf_bytes, error_message)] *)
Abbreviation compile_result := (bool * option bytes * string)%type.

(** [b'%PDF'] *)
Definition pdf_magic : bytes := [Byte.x25; Byte.x50; Byte.x44; Byte.x46].

Definition is_pdf (content : bytes) : bool :=
  bool_decide (take 4 content = pdf_magic).

(** [status_code in [200, 201]] *)
Definition status_ok (status_code : Z) : bool :=
  Z.eqb status_code 200 || Z.eqb status_code 201.

(** [text[:n] if text else fallback] *)
Definition text_or (n : nat) (text fallback : string) : string :=
  if String.eqb text "" then fallback else str_take n text.

(** ** PRIMARY: latex.ytotech.com with JSON POST *)
Definition _compile_with_ytotech_json (latex_code : string) (timeout : Z)
  : io (result compile_result) :=
  outcome ← send {| method := POST;
                    url := "https://latex.ytotech.com/builds/sync";
                    compiler := "pdflatex";
                    content := latex_code;
                    timeout := timeout |};
  mret (Ok
    match outcome with
    | Response status_code content text =>
      if status_ok status_code then
        if is_pdf content then (true, Some content, "")
        else (false, None,
              "Got non-PDF response: "
              +:+ text_or 200 text "Invalid response format")
      else (false, None,
            "HTTP " +:+ pretty status_code +:+ ": "
            +:+ text_or 300 text "Unknown error")
    | Timeout _ => (false, None, "Request timeout (>45s)")
    | RequestException e => (false, None, "Network error: " +:+ str_take 100 e)
    | OtherException e => (false, None, "Error: " +:+ str_take 100 e)
    end).

(** ** FALLBACK 1: latex.ytotech.com with GET *)
Definition _compile_with_ytotech_get (latex_code : string) (timeout : Z)
  : io (result compile_result) :=
  outcome ← send {| method := GET;
                    url := "https://latex.ytotech.com/builds/sync";
                    compiler := "pdflatex";
                    content := latex_code;
                    timeout := timeout |};
  mret (Ok
    match outcome with
    | Response status_code content text =>
      if status_ok status_code then
        if is_pdf content then (true, Some content, "")
        else (false, None, "Got non-PDF response")
      else (false, None,
            "HTTP " +:+ pretty status_code +:+ ": "
            +:+ text_or 200 text "Unknown error")
    | Timeout e | RequestException e | OtherException e =>
      (false, None, "Error: " +:+ str_take 100 e)
    end).

(** ** The fallback chain *)

Abbreviation service :=
  (string -> Z -> io (result compile_result)).

Definition services : list (string * service) :=
  [ ("YtoTech JSON POST", _compile_with_ytotech_json);
    ("YtoTech GET", _compile_with_ytotech_get) ].

(** [str(e)] of an exception escaping a service. *)
Definition exn_str (e : exn) : string :=
  match e with
  | KeyError k => "'" +:+ k +:+ "'"
  | TypeError m | AttributeError m | ValidationError m
  | UnboundLocalError m | ServiceError m => m
  end.

(** The [for] loop of [compile_latex_online] over the remaining services,
    with the [errors] collected so far. *)
Fixpoint try_services (remaining : list (string * service))
    (latex_code : string) (timeout : Z) (errors : list string)
  : io compile_result :=
  match remaining with
  | [] =>
    let combined_errors := join "; " errors in
    mret (false, None,
          "All compilation services failed: " +:+ combined_errors)
  | (service_name, service_func) :: rest =>
    r ← service_func latex_code timeout;
    match r with
    | Ok (success, pdf_bytes, error) =>
      if success : bool then mret (true, pdf_bytes, "")
      else try_services rest latex_code timeout
             (errors ++ [service_name +:+ ": " +:+ error])
    | Raise e =>
      let error_msg := str_take 100 (exn_str e) in
      try_services rest latex_code timeout
        (errors ++ [service_name +:+ ": " +:+ error_msg])
    end
  end.

Definition compile_latex_online (latex_code : string) (timeout : Z)
  : io compile_result :=
  try_services services latex_code timeout [].

(** ** The retry helper, as defined first (source lines 151-178) *)
Module First.

(** The loop [for attempt in range(max_retries)] with [todo] iterations
    left; [error] is the local variable, unbound before the first
    iteration. *)
Fixpoint retry_loop (todo : nat) (attempt max_retries : Z)
    (latex_code : string) (timeout : Z) (error : option string)
  : io (result compile_result) :=
  match todo with
  | O =>
    match error with
    | Some error =>
      mret (Ok (false, None,
                "Compilation failed after " +:+ pretty max_retries
                +:+ " attempts: " +:+ error))
    | None => mret (Raise (UnboundLocalError "error"))
    end
  | S todo' =>
    '(success, pdf_bytes, error) ← compile_latex_online latex_code timeout;
    if success : bool then mret (Ok (true, pdf_bytes, ""))
    else
      _ ← (if Z.ltb attempt (max_retries - 1)
           then sleep (2 * (attempt + 1))
           else mret tt);
      retry_loop todo' (attempt + 1) max_retries latex_code timeout
        (Some error)
  end%Z.

Definition compile_latex_with_retry (latex_code : string)
    (max_retries : Z) (timeout : Z) : io (result compile_result) :=
  retry_loop (Z.to_nat max_retries) 0 max_retries latex_code timeout None.

End First.

(** ** The retry helper, as defined again (source lines 181-208); this is
  the binding the module exports. *)
Module Second.

Fixpoint retry_loop (todo : nat) (attempt max_retries : Z)
    (latex_code : string) (timeout : Z) (error : option string)
  : io (result compile_result) :=
  match todo with
  | O =>
    match error with
    | Some error =>
      mret (Ok (false, None,
                "Compilation failed after " +:+ pretty max_retries
                +:+ " attempts: " +:+ error))
    | None => mret (Raise (UnboundLocalError "error"))
    end
  | S todo' =>
    '(success, pdf_bytes, error) ← compile_latex_online latex_code timeout;
    if success : bool then mret (Ok (true, pdf_bytes, ""))
    else
      _ ← (if Z.ltb attempt (max_retries - 1)
           then sleep (2 * (attempt + 1))
           else mret tt);
      retry_loop todo' (attempt + 1) max_retries latex_code timeout
        (Some error)
  end%Z.

Definition compile_latex_with_retry (latex_code : string)
    (max_retries : Z) (timeout : Z) : io (result compile_result) :=
  retry_loop (Z.to_nat max_retries) 0 max_retries latex_code timeout None.

End Second.

End OnlineCompiler.

(* ===================================================================== *)
(** * Properties of the string operations                                 *)
(* ===================================================================== *)

Module PyFacts.

Lemma app_nil_l (s : string) : "" +:+ s = s.
Proof. reflexivity. Qed.

Lemma app_cons (c : ascii) (s t : string) :
  String c s +:+ t = String c (s +:+ t).
Proof. reflexivity. Qed.

Lemma app_nil_r (s : string) : s +:+ "" = s.
Proof. induction s as [|c s IH]; [done|]. by rewrite app_cons, IH. Qed.

Lemma app_assoc (s t u : string) : (s +:+ t) +:+ u = s +:+ t +:+ u.
Proof. induction s as [|c s IH]; [done|]. by rewrite !app_cons, IH. Qed.

Lemma subst_chars_app (f : ascii -> string) (s t : string) :
  subst_chars f (s +:+ t) = subst_chars f s +:+ subst_chars f t.
Proof.
  induction s as [|c s IH]; [done|].
  rewrite app_cons. simpl. by rewrite IH, app_assoc.
Qed.

Lemma subst_chars_compose (f g : ascii -> string) (s : string) :
  subst_chars g (subst_chars f s) = subst_chars (fun c => subst_chars g (f c)) s.
Proof.
  induction s as [|c s IH]; [done|].
  simpl. by rewrite subst_chars_app, IH.
Qed.

(** A single-character [replace] rewrites the string character by
    character. *)
Lemma replace_single (c : ascii) (new s : string) :
  replace s (String c "") new
  = subst_chars (fun x => if decide (c = x) then new else String x "") s.
Proof.
  unfold replace. induction s as [|x s IH]; [done|].
  cbn [replace_from subst_chars String.prefix String.length].
  destruct (ascii_dec c x) as [->|Hne].
  - rewrite decide_True by done.
    replace (String.prefix "" s) with true by (by destruct s).
    simpl. by rewrite IH.
  - rewrite decide_False by done. by rewrite IH.
Qed.

Lemma replace_single_app (c : ascii) (new s t : string) :
  replace (s +:+ t) (String c "") new
  = replace s (String c "") new +:+ replace t (String c "") new.
Proof. by rewrite !replace_single, subst_chars_app. Qed.

(** ** Prefixes and occurrences *)

Lemma prefix_cons (a b : ascii) (old s : string) :
  String.prefix (String a old) (String b s)
  = bool_decide (a = b) && String.prefix old s.
Proof.
  simpl. destruct (ascii_dec a b) as [->|Hne].
  - by rewrite bool_decide_eq_true_2.
  - by rewrite bool_decide_eq_false_2.
Qed.

Lemma prefix_nil (s : string) : String.prefix "" s = true.
Proof. by destruct s. Qed.

Lemma prefix_length (old s : string) :
  String.prefix old s = true -> String.length old <= String.length s.
Proof.
  revert s. induction old as [|a old IH]; intros [|b s] Hp; simpl; try lia.
  - done.
  - rewrite prefix_cons in Hp. apply andb_true_iff in Hp as [_ Hp].
    apply IH in Hp. lia.
Qed.

Lemma prefix_app_r (old x y : string) :
  String.prefix old x = true -> String.prefix old (x +:+ y) = true.
Proof.
  revert x. induction old as [|a old IH]; intros [|b x] Hp; try done.
  - apply prefix_nil.
  - rewrite app_cons, prefix_cons. rewrite prefix_cons in Hp.
    apply andb_true_iff in Hp as [-> Hp]. by rewrite IH.
Qed.

(** A match against [x +:+ y] either lies in [x] or runs over all of [x]. *)
Lemma prefix_app_inv (old x y : string) :
  String.prefix old (x +:+ y) = true ->
  String.prefix old x = true \/ String.prefix x old = true.
Proof.
  revert x. induction old as [|a old IH]; intros [|b x] Hp.
  - by left.
  - by left.
  - by right.
  - rewrite app_cons, prefix_cons in Hp.
    apply andb_true_iff in Hp as [Hab Hp].
    rewrite !prefix_cons, Hab. simpl.
    apply bool_decide_eq_true_1 in Hab as ->.
    rewrite bool_decide_eq_true_2 by done. simpl. by apply IH.
Qed.

Lemma safe_left_safe (old x y : string) :
  safe_left old x = true -> safe old x y.
Proof.
  induction x as [|c x IH]; [done|].
  cbn [safe_left safe]. intros [Hc Hx]%andb_true_iff. split; [|by apply IH].
  destruct (String.prefix old (String c x)) eqn:Hp.
  - by apply prefix_app_r.
  - simpl in Hc. apply negb_true_iff in Hc.
    destruct (String.prefix old (String c x +:+ y)) eqn:Hq; [|done].
    apply prefix_app_inv in Hq as [Hq|Hq]; congruence.
Qed.

(** A match that reaches into [y] contains the first character of [y]. *)
Lemma prefix_app_head (old x y : string) :
  String.prefix old (x +:+ y) = true ->
  String.prefix old x = true \/ foreign_head old y = false.
Proof.
  revert x. induction old as [|a old IH]; intros x Hp.
  - left. apply prefix_nil.
  - destruct x as [|b x].
    + right. rewrite app_nil_l in Hp. destruct y as [|c y]; [done|].
      rewrite prefix_cons in Hp. apply andb_true_iff in Hp as [Hac _].
      apply bool_decide_eq_true_1 in Hac as ->.
      simpl. by rewrite bool_decide_eq_true_2.
    + rewrite app_cons, prefix_cons in Hp.
      apply andb_true_iff in Hp as [Hab Hp].
      rewrite prefix_cons, Hab. simpl.
      destruct (IH _ Hp) as [Hx|Hy]; [by left|right].
      destruct y as [|c y]; [done|]. simpl in *.
      apply negb_false_iff in Hy. rewrite Hy. by rewrite orb_true_r.
Qed.

Lemma foreign_head_safe (old x y : string) :
  foreign_head old y = true -> safe old x y.
Proof.
  intros Hy. induction x as [|c x IH]; [done|].
  cbn [safe]. split; [|done].
  destruct (String.prefix old (String c x)) eqn:Hp.
  - by apply prefix_app_r.
  - destruct (String.prefix old (String c x +:+ y)) eqn:Hq; [|done].
    apply prefix_app_head in Hq as [Hq|Hq]; congruence.
Qed.

(** ** [replace] over a concatenation *)

Lemma replace_from_short (old new : string) (k : nat) (x : string) :
  String.length x <= k -> replace_from old new k x = "".
Proof.
  revert k. induction x as [|c x IH]; intros k Hk; [done|].
  simpl in Hk. destruct k as [|k]; [lia|]. simpl. apply IH. lia.
Qed.

Lemma replace_from_app (old new : string) (x y : string) (k : nat) :
  k <= String.length x -> safe old x y ->
  replace_from old new k (x +:+ y)
  = replace_from old new k x +:+ replace_from old new 0 y.
Proof.
  revert k. induction x as [|c x IH]; intros k Hk Hsafe.
  - simpl in Hk. by replace k with 0 by lia.
  - destruct Hsafe as [Hhead Hsafe]. simpl in Hk.
    rewrite app_cons. destruct k as [|k].
    + cbn [replace_from]. rewrite <- app_cons, Hhead.
      destruct (String.prefix old (String c x)) eqn:Hp.
      * apply prefix_length in Hp. simpl in Hp.
        rewrite IH by (done || lia). by rewrite app_assoc.
      * by rewrite IH by (done || lia).
    + cbn [replace_from]. apply IH; [lia | done].
Qed.

Lemma replace_app (old new x y : string) :
  old ≠ "" -> safe old x y ->
  replace (x +:+ y) old new = replace x old new +:+ replace y old new.
Proof.
  intros Hold Hsafe. unfold replace. destruct old as [|a old]; [done|].
  apply replace_from_app; [lia | done].
Qed.

Lemma replace_self (old new : string) :
  old ≠ "" -> replace old old new = new.
Proof.
  intros Hold. unfold replace. destruct old as [|a old]; [done|].
  cbn [replace_from].
  replace (String.prefix (String a old) (String a old)) with true.
  - rewrite replace_from_short by (simpl; lia). apply app_nil_r.
  - symmetry. rewrite <- (app_nil_r (String a old)) at 2.
    apply prefix_app_r. clear. induction (String a old) as [|b s IH]; [done|].
    rewrite prefix_cons, IH. by rewrite bool_decide_eq_true_2.
Qed.

Lemma replace_absent (old new x : string) :
  old ≠ "" -> contains old x = false -> replace x old new = x.
Proof.
  intros Hold. unfold replace. destruct old as [|a old]; [done|]. clear Hold.
  induction x as [|c x IH]; [done|].
  cbn [contains replace_from]. intros [Hp Hx]%orb_false_iff.
  rewrite Hp. by rewrite IH.
Qed.

(** ** Occurrences in a concatenation *)

Lemma contains_app_l (p x y : string) :
  contains p x = true -> contains p (x +:+ y) = true.
Proof.
  induction x as [|c x IH].
  - destruct p; [|done]. intros _. by destruct y.
  - cbn [contains]. intros [Hp|Hx]%orb_true_iff.
    + rewrite app_cons. cbn [contains]. rewrite <- app_cons.
      by rewrite prefix_app_r.
    + rewrite app_cons. cbn [contains]. rewrite IH by done.
      apply orb_true_r.
Qed.

Lemma contains_app_r (p x y : string) :
  contains p y = true -> contains p (x +:+ y) = true.
Proof.
  intros Hy. induction x as [|c x IH]; [done|].
  rewrite app_cons. cbn [contains]. rewrite IH. apply orb_true_r.
Qed.

(** ** Text without a doubled opening brace

    Every placeholder of the template starts with two opening braces. *)

Lemma no_open2_app (a b : string) :
  contains "{{" a = false -> contains "{{" b = false ->
  String.prefix "{" b = false -> contains "{{" (a +:+ b) = false.
Proof.
  intros Ha Hb Hhead. induction a as [|c a IH]; [done|].
  cbn [contains] in Ha. apply orb_false_iff in Ha as [Hp Ha].
  rewrite app_cons. cbn [contains]. rewrite IH by done.
  rewrite orb_false_r. rewrite prefix_cons in *.
  destruct (bool_decide ("{"%char = c)); [|done]. simpl in *.
  destruct a as [|c' a]; [by rewrite app_nil_l|].
  rewrite app_cons. rewrite !prefix_cons in *.
  by rewrite !prefix_nil in *.
Qed.

Lemma no_open_app (a b : string) :
  String.prefix "{" a = false -> String.prefix "{" b = false ->
  String.prefix "{" (a +:+ b) = false.
Proof.
  destruct a as [|c a]; [intros _ Hb; exact Hb|].
  intros Ha _. rewrite app_cons, prefix_cons in *.
  rewrite prefix_nil in *. by rewrite andb_true_r in *.
Qed.

Lemma no_open2_absent (rest x : string) :
  contains "{{" x = false ->
  contains (String "{" (String "{" rest)) x = false.
Proof.
  induction x as [|c x IH]; [done|].
  cbn [contains]. intros [Hp Hx]%orb_false_iff.
  rewrite IH by done. rewrite orb_false_r.
  rewrite prefix_cons in *. destruct (bool_decide ("{"%char = c)); [|done].
  simpl in *. destruct x as [|c' x]; [done|].
  rewrite prefix_cons in *. rewrite prefix_nil in Hp.
  by destruct (bool_decide ("{"%char = c')).
Qed.

Lemma no_open2_safe (rest x y : string) :
  contains "{{" x = false -> String.prefix "{" y = false ->
  safe (String "{" (String "{" rest)) x y.
Proof.
  intros Hx Hy. induction x as [|c x IH]; [done|].
  cbn [contains] in Hx. apply orb_false_iff in Hx as [Hp Hx].
  cbn [safe]. split; [|by apply IH].
  rewrite app_cons, !prefix_cons in *.
  destruct (bool_decide ("{"%char = c)); [|done]. simpl in *.
  destruct x as [|c' x].
  - rewrite app_nil_l. destruct y as [|d y]; [done|].
    rewrite prefix_cons in *. rewrite prefix_nil in Hy.
    by destruct (bool_decide ("{"%char = d)).
  - rewrite app_cons, !prefix_cons in *. rewrite prefix_nil in Hp.
    by destruct (bool_decide ("{"%char = c')).
Qed.

End PyFacts.

(* ===================================================================== *)
(** * Properties of [escape_latex]                                        *)
(* ===================================================================== *)

Module EscapeFacts.
Import PyFacts Agentstate LatexHandler.

(** The loop over [replacements] distributes over concatenation, since
    every [old] is a single character. *)
Lemma apply_replacements_app (s t : string) :
  apply_replacements (s +:+ t) = apply_replacements s +:+ apply_replacements t.
Proof.
  unfold apply_replacements, replacements. cbn [foldl].
  by rewrite !replace_single_app.
Qed.

Lemma apply_replacements_cons (c : ascii) (s : string) :
  apply_replacements (String c s)
  = apply_replacements (String c "") +:+ apply_replacements s.
Proof. by rewrite <- apply_replacements_app. Qed.

(** What the loop makes of one character never lets the test
    ['\\&' in text] succeed across it. *)
Lemma contains_after_char (c : ascii) (rest : string) :
  contains "\&" (apply_replacements (String c "") +:+ rest)
  = contains "\&" rest.
Proof.
  destruct c as [[] [] [] [] [] [] [] []]; vm_compute; reflexivity.
Qed.

(** After the loop the text holds no backslash followed by an ampersand,
    whatever the input was. *)
Lemma no_escaped_ampersand_after_loop (s : string) :
  contains "\&" (apply_replacements s) = false.
Proof.
  induction s as [|c s IH]; [done|].
  by rewrite apply_replacements_cons, contains_after_char.
Qed.

(** Hence the guard of the ampersand rule always holds. *)
Lemma escape_text_unfold (s : string) :
  escape_text s = replace (apply_replacements s) "&" "\&".
Proof.
  unfold escape_text. by rewrite no_escaped_ampersand_after_loop.
Qed.

Lemma escape_text_app (s t : string) :
  escape_text (s +:+ t) = escape_text s +:+ escape_text t.
Proof.
  by rewrite !escape_text_unfold, apply_replacements_app, replace_single_app.
Qed.

Lemma escape_latex_str `{Runtime} (s : string) :
  escape_latex (VStr s) = escape_text s.
Proof.
  unfold escape_latex. simpl.
  destruct (String.eqb_spec s "") as [->|Hne]; done.
Qed.

Lemma escape_latex_app `{Runtime} (s t : string) :
  escape_latex (VStr (s +:+ t))
  = escape_latex (VStr s) +:+ escape_latex (VStr t).
Proof. by rewrite !escape_latex_str, escape_text_app. Qed.

(** What [escape_text] returns never starts with an opening brace and
    never holds two opening braces in a row. *)
Lemma escape_char_shape (c : ascii) :
  contains "{{" (escape_text (String c "")) = false
  /\ String.prefix "{" (escape_text (String c "")) = false.
Proof. destruct c as [[] [] [] [] [] [] [] []]; by vm_compute. Qed.

Lemma escape_text_shape (s : string) :
  contains "{{" (escape_text s) = false
  /\ String.prefix "{" (escape_text s) = false.
Proof.
  induction s as [|c s [IH1 IH2]]; [done|].
  change (String c s) with (String c "" +:+ s). rewrite escape_text_app.
  destruct (escape_char_shape c) as [Hc1 Hc2].
  split; [by apply no_open2_app | by apply no_open_app].
Qed.

(** The rules on each special character.  The tokens for the tilde and
    the caret, substituted after the brace rules have run, keep their
    braces; the token for the backslash does not. *)
Lemma escape_table :
  escape_text <$> ["\"; "%"; "#"; "_"; "{"; "}"; "~"; "^"; "&"]
  = [ "\textbackslash\{\}"; "\%"; "\#"; "\_"; "\{"; "\}";
      "\textasciitilde{}"; "\textasciicircum{}"; "\&" ].
Proof. reflexivity. Qed.

(** C1.  Wherever a backslash stands in the input, [escape_latex] first
    puts the literal-backslash token for it and then rewrites the braces of
    that token into escaped braces: the token does not survive the brace
    rules. *)
Theorem escape_latex_backslash_token_rewritten `{Runtime} (s t : string) :
  escape_latex (VStr (s +:+ "\" +:+ t))
  = escape_latex (VStr s) +:+ "\textbackslash\{\}" +:+ escape_latex (VStr t)
  /\ contains "\textbackslash{}" (escape_latex (VStr "\")) = false.
Proof.
  split.
  - by rewrite !escape_latex_app.
  - by vm_compute.
Qed.

(** C6.  The guard of the ampersand rule is evaluated after the loop has
    rewritten every backslash, so it never sees a pre-escaped ampersand:
    an input [s\&t] has its ampersand escaped again, behind the rewritten
    backslash. *)
Theorem escape_latex_ampersand_escaped_again `{Runtime} (s t : string) :
  escape_latex (VStr (s +:+ "\&" +:+ t))
  = escape_latex (VStr s) +:+ "\textbackslash\{\}\&" +:+ escape_latex (VStr t).
Proof. by rewrite !escape_latex_app. Qed.

End EscapeFacts.

(* ===================================================================== *)
(** * Properties of [generate_latex]                                      *)
(* ===================================================================== *)

Module RenderFacts.
Import Agentstate LatexHandler.

(** A runtime for evaluating examples; no example below prints a
    container or an object. *)
Definition example_runtime : Runtime :=
  {| py_repr := fun _ => "<repr>";
     obj_repr := fun _ => "<object>";
     json_dumps := fun _ => Ok "[]" |}.

(** A record whose four repeating sections are empty. *)
Definition empty_sections (name email : string) (phone github linkedin : option string)
    (technical_skills : dict) (soft_skills : list string)
    (certifications : list dict) (coding_stats : option dict)
  : ResumeMetadata :=
  {| name := name; email := email; phone := phone; github := github;
     linkedin := linkedin; experiences := []; education := [];
     projects := []; technical_skills := technical_skills;
     soft_skills := soft_skills; positions_of_responsibility := [];
     certifications := certifications; coding_stats := coding_stats |}.

Definition bare_record : ResumeMetadata :=
  empty_sections "Jane Doe" "jane@example.com" None None None [] [] [] None.

(** The projects section of the template once [{{PROJECTS}}] has been
    replaced by the empty string: the list opens and closes at once. *)
Definition empty_projects_section : string :=
  "\section{Projects}" +:+ nl
  +:+ "    \resumeSubHeadingListStart" +:+ nl
  +:+ "    \resumeSubHeadingListEnd" +:+ nl.


(** ** The template in pieces

    The text of the template between its placeholders, in order. *)
Definition seg0 : string :=
  Eval vm_compute in String.substring 0 2303 get_latex_template.
Definition seg1 : string :=
  Eval vm_compute in String.substring 2311 61 get_latex_template.
Definition seg2 : string :=
  Eval vm_compute in String.substring 2381 16 get_latex_template.
Definition seg3 : string :=
  Eval vm_compute in String.substring 2406 37 get_latex_template.
Definition seg4 : string :=
  Eval vm_compute in String.substring 2452 23 get_latex_template.
Definition seg5 : string :=
  Eval vm_compute in String.substring 2487 145 get_latex_template.
Definition seg6 : string :=
  Eval vm_compute in String.substring 2646 125 get_latex_template.
Definition seg7 : string :=
  Eval vm_compute in String.substring 2784 110 get_latex_template.
Definition seg8 : string :=
  Eval vm_compute in String.substring 2906 174 get_latex_template.
Definition seg9 : string :=
  Eval vm_compute in String.substring 3100 146 get_latex_template.
Definition seg10 : string :=
  Eval vm_compute in String.substring 3259 45 get_latex_template.

Lemma template_pieces :
  get_latex_template
  = seg0 +:+ "{{NAME}}" +:+ seg1 +:+ "{{PHONE}}" +:+ seg2 +:+ "{{EMAIL}}"
    +:+ seg3 +:+ "{{EMAIL}}" +:+ seg4 +:+ "{{LINKEDIN}}" +:+ seg5
    +:+ "{{EXPERIENCE}}" +:+ seg6 +:+ "{{EDUCATION}}" +:+ seg7
    +:+ "{{PROJECTS}}" +:+ seg8 +:+ "{{TECHNICAL_SKILLS}}" +:+ seg9
    +:+ "{{POSITIONS}}" +:+ seg10.
Proof. vm_compute. reflexivity. Qed.

(** Splits a [replace] over a concatenation piece by piece, then settles
    each piece: the placeholder itself, a piece without the placeholder,
    or escaped text. *)
Ltac solve_safe :=
  first
    [ apply PyFacts.safe_left_safe; vm_compute; reflexivity
    | apply PyFacts.no_open2_safe; [assumption | vm_compute; reflexivity]
    | apply PyFacts.foreign_head_safe; vm_compute; reflexivity ].

Ltac solve_absent :=
  first
    [ vm_compute; reflexivity
    | apply PyFacts.no_open2_absent; assumption
    | discriminate ].

Ltac fill_in old new :=
  repeat (rewrite (PyFacts.replace_app old new)
            by (first [solve_safe | discriminate]));
  repeat first
    [ rewrite (PyFacts.replace_self old new) by discriminate
    | match goal with
      | |- context [replace ?x old new] =>
        rewrite (PyFacts.replace_absent old new x) by solve_absent
      end ].

(** The nine substitutions of [generate_latex] on the template, for
    escaped contact fields [n], [e], [p], [l] and any section fragments:
    each placeholder receives its text, and a fragment is itself subject
    to the substitutions made after it. *)
Lemma fill_template (n e p l X E J S P : string) :
  contains "{{" n = false -> String.prefix "{" n = false ->
  contains "{{" e = false -> String.prefix "{" e = false ->
  contains "{{" p = false -> String.prefix "{" p = false ->
  contains "{{" l = false -> String.prefix "{" l = false ->
  replace
    (replace
       (replace
          (replace
             (replace
                (replace
                   (replace
                      (replace
                         (replace get_latex_template "{{NAME}}" n)
                         "{{EMAIL}}" e)
                      "{{PHONE}}" p)
                   "{{LINKEDIN}}" l)
                "{{EXPERIENCE}}" X)
             "{{EDUCATION}}" E)
          "{{PROJECTS}}" J)
       "{{TECHNICAL_SKILLS}}" S)
    "{{POSITIONS}}" P
  = seg0 +:+ n +:+ seg1 +:+ p +:+ seg2 +:+ e +:+ seg3 +:+ e +:+ seg4 +:+ l
    +:+ seg5
    +:+ replace
          (replace
             (replace (replace X "{{EDUCATION}}" E) "{{PROJECTS}}" J)
             "{{TECHNICAL_SKILLS}}" S)
          "{{POSITIONS}}" P
    +:+ seg6
    +:+ replace (replace (replace E "{{PROJECTS}}" J) "{{TECHNICAL_SKILLS}}" S)
          "{{POSITIONS}}" P
    +:+ seg7
    +:+ replace (replace J "{{TECHNICAL_SKILLS}}" S) "{{POSITIONS}}" P
    +:+ seg8
    +:+ replace S "{{POSITIONS}}" P
    +:+ seg9 +:+ P +:+ seg10.
Proof.
  intros Hn Hn' He He' Hp Hp' Hl Hl'.
  rewrite template_pieces.
  fill_in "{{NAME}}" n.
  fill_in "{{EMAIL}}" e.
  fill_in "{{PHONE}}" p.
  fill_in "{{LINKEDIN}}" l.
  fill_in "{{EXPERIENCE}}" X.
  fill_in "{{EDUCATION}}" E.
  fill_in "{{PROJECTS}}" J.
  fill_in "{{TECHNICAL_SKILLS}}" S.
  fill_in "{{POSITIONS}}" P.
  reflexivity.
Qed.

(** The document of any record, in closed form: the pieces of the
    template around the escaped contact fields and the five section
    fragments. *)
Lemma render_closed_form `{Runtime} (metadata : ResumeMetadata) :
  render metadata
  = (X ← experience_latex metadata;
     E ← education_latex metadata;
     J ← projects_latex metadata;
     S ← technical_skills_latex metadata;
     P ← por_latex metadata;
     Ok (seg0 +:+ escape_latex (VStr (name metadata))
         +:+ seg1
         +:+ escape_latex (VStr (or_default (phone metadata) "+91 1234567890"))
         +:+ seg2 +:+ escape_latex (VStr (email metadata))
         +:+ seg3 +:+ escape_latex (VStr (email metadata))
         +:+ seg4
         +:+ escape_latex
               (VStr (or_default (linkedin metadata)
                        "linkedin.com/in/yourprofile"))
         +:+ seg5
         +:+ replace
               (replace
                  (replace (replace X "{{EDUCATION}}" E) "{{PROJECTS}}" J)
                  "{{TECHNICAL_SKILLS}}" S)
               "{{POSITIONS}}" P
         +:+ seg6
         +:+ replace
               (replace (replace E "{{PROJECTS}}" J) "{{TECHNICAL_SKILLS}}" S)
               "{{POSITIONS}}" P
         +:+ seg7
         +:+ replace (replace J "{{TECHNICAL_SKILLS}}" S) "{{POSITIONS}}" P
         +:+ seg8
         +:+ replace S "{{POSITIONS}}" P
         +:+ seg9 +:+ P +:+ seg10)).
Proof.
  unfold render.
  destruct (experience_latex metadata) as [X|]; [|done].
  destruct (education_latex metadata) as [E|]; [|done].
  destruct (projects_latex metadata) as [J|]; [|done].
  destruct (technical_skills_latex metadata) as [S|]; [|done].
  destruct (por_latex metadata) as [P|]; [|done].
  cbn [mbind result_bind]. f_equal.
  apply fill_template;
    rewrite EscapeFacts.escape_latex_str; apply EscapeFacts.escape_text_shape.
Qed.

(** The stage renders the record of the state into ["latex_code"]. *)
Lemma generate_latex_render `{Runtime} (state : AgentState)
    (metadata : ResumeMetadata) :
  state !! "resume_metadata" = Some (SMeta metadata) ->
  generate_latex state
  = (latex_code ← render metadata;
     Ok (<["messages" := SMessages [HumanMessage "Generated LaTeX code"]]>
           (<["latex_code" := SVal (VStr latex_code)]> state))).
Proof.
  intros Hmeta. unfold generate_latex, the_metadata, state_item.
  by rewrite Hmeta.
Qed.

(** Finds a fragment in a concatenation of pieces: in one piece, or
    across two neighbouring ones. *)
Ltac find_fragment :=
  first
    [ apply PyFacts.contains_app_l; vm_compute; reflexivity
    | rewrite <- PyFacts.app_assoc; apply PyFacts.contains_app_l;
      vm_compute; reflexivity
    | apply PyFacts.contains_app_r; find_fragment ].


(** C2.  For a record whose experiences, education, projects and positions
    are all empty, the rendering produces a document (whenever the
    technical-skills fragment can be rendered, and fails as that fragment
    does otherwise) that holds the placeholder fragments of the
    experience, education and positions sections; the projects fragment is
    the empty string, so the projects section of the document is an empty
    block. *)
Theorem empty_sections_render `{Runtime} (name email : string)
    (phone github linkedin : option string) (technical_skills : dict)
    (soft_skills : list string) (certifications : list dict)
    (coding_stats : option dict) :
  let metadata :=
    empty_sections name email phone github linkedin technical_skills
      soft_skills certifications coding_stats in
  projects_latex metadata = Ok ""
  /\ match technical_skills_latex metadata with
     | Ok _ =>
       exists document : string,
         render metadata = Ok document
         /\ contains "Add Your Experience Here" document = true
         /\ contains experience_placeholder document = true
         /\ contains education_placeholder document = true
         /\ contains por_placeholder document = true
         /\ contains empty_projects_section document = true
     | Raise e => render metadata = Raise e
     end.
Proof.
  intros metadata. split; [done|].
  rewrite render_closed_form.
  change (experience_latex metadata) with (Ok experience_placeholder).
  change (education_latex metadata) with (Ok education_placeholder).
  change (projects_latex metadata) with (Ok "").
  change (por_latex metadata) with (Ok por_placeholder).
  destruct (technical_skills_latex metadata) as [S|e]; [|done].
  cbn [mbind result_bind].
  repeat match goal with
  | |- context [replace ?x ?old ?new] =>
    rewrite (PyFacts.replace_absent old new x)
      by (first [vm_compute; reflexivity | discriminate])
  end.
  rewrite PyFacts.app_nil_l.
  eexists. split; [reflexivity|].
  repeat split; find_fragment.
Qed.

(** The document of a bare record, evaluated. *)
Lemma bare_record_document :
  exists document : string,
    @render example_runtime bare_record = Ok document
    /\ contains experience_placeholder document = true
    /\ contains education_placeholder document = true
    /\ contains por_placeholder document = true
    /\ contains empty_projects_section document = true
    /\ contains "\resumeProjectHeading{" document = false.
Proof.
  eexists. split; [vm_compute; reflexivity|].
  repeat split; vm_compute; reflexivity.
Qed.

End RenderFacts.

(* ===================================================================== *)
(** * Properties of the pipeline stages                                   *)
(* ===================================================================== *)

Module StageFacts.
Import Agentstate LatexHandler Main.

(** The five nodes of the graph, in execution order. *)
Inductive stage : Type :=
| Extraction
| ProjectGeneration
| SkillsGeneration
| Assembly
| Rendering.

Definition run_stage `{Runtime} `{ReasoningService} (st : stage)
  : AgentState -> result AgentState :=
  match st with
  | Extraction => extract_resume_info
  | ProjectGeneration => generate_projects
  | SkillsGeneration => generate_skills
  | Assembly => create_metadata
  | Rendering => generate_latex
  end.

(** The field a stage writes besides ["messages"]. *)
Definition output_field (st : stage) : string :=
  match st with
  | Extraction => "extracted_info"
  | ProjectGeneration => "generated_projects"
  | SkillsGeneration => "generated_skills"
  | Assembly => "resume_metadata"
  | Rendering => "latex_code"
  end.

(** Inversion of a monadic bind that returned. *)
Lemma bind_ok {A B} (m : result A) (f : A -> result B) (b : B) :
  m ≫= f = Ok b -> exists a, m = Ok a /\ f a = Ok b.
Proof. destruct m as [a|e]; [by exists a | done]. Qed.

Ltac invert_binds :=
  repeat match goal with
  | H : _ ≫= _ = Ok _ |- _ =>
    let a := fresh "a" in
    let Ha := fresh "Ha" in
    apply bind_ok in H as (a & Ha & H)
  | H : Ok _ = Ok _ |- _ => injection H as H
  end.

(** Every stage returns [{**state, field: ..., "messages": [...]}]. *)
Lemma stage_returns_update `{Runtime} `{ReasoningService}
    (st : stage) (state state' : AgentState) :
  run_stage st state = Ok state' ->
  exists (v : slot) (msg : message),
    state' = <["messages" := SMessages [msg]]> (<[output_field st := v]> state).
Proof.
  destruct st; simpl;
    [unfold extract_resume_info | unfold generate_projects
    | unfold generate_skills | unfold create_metadata
    | unfold generate_latex];
    intros Hrun; invert_binds; subst; eauto.
Qed.


(** C8.  Whatever a stage returns agrees with its input on every field
    other than the stage's own output field and ["messages"]; the output
    field is populated and ["messages"] carries the stage's one message. *)
Theorem stages_additive `{Runtime} `{ReasoningService}
    (st : stage) (state state' : AgentState) :
  run_stage st state = Ok state' ->
  (forall k : string,
      k ≠ output_field st -> k ≠ "messages" -> state' !! k = state !! k)
  /\ is_Some (state' !! output_field st)
  /\ exists msg : message, state' !! "messages" = Some (SMessages [msg]).
Proof.
  intros (v & msg & ->)%stage_returns_update.
  split; [|split].
  - intros k Hk Hmsg. by rewrite !lookup_insert_ne.
  - rewrite lookup_insert_ne by (by destruct st).
    rewrite lookup_insert_eq. by eexists.
  - exists msg. by rewrite lookup_insert_eq.
Qed.

(** ** A run of the graph on an example *)

Definition example_extracted : ExtractedResumeInfo.t :=
  {| ExtractedResumeInfo.name := "Jane Doe";
     ExtractedResumeInfo.email := "jane@example.com";
     ExtractedResumeInfo.phone := None;
     ExtractedResumeInfo.github := None;
     ExtractedResumeInfo.linkedin := Some "linkedin.com/in/jane";
     ExtractedResumeInfo.experiences :=
       [ {| WorkExperience.company := "ACME";
            WorkExperience.role := "Engineer";
            WorkExperience.duration := "2022 - 2024";
            WorkExperience.achievements := ["Cut latency by 40%"] |} ];
     ExtractedResumeInfo.education := [];
     ExtractedResumeInfo.projects :=
       [ {| Project.name := "Old project";
            Project.technologies := ["C"];
            Project.date := "May 2021";
            Project.achievements := ["Shipped"] |} ];
     ExtractedResumeInfo.technical_skills := [(KStr "Languages", VList [VStr "C"])];
     ExtractedResumeInfo.soft_skills := ["Writing"];
     ExtractedResumeInfo.positions_of_responsibility := [];
     ExtractedResumeInfo.certifications := [];
     ExtractedResumeInfo.coding_stats :=
       Some [ {| CodingStats.platform := "LeetCode";
                 CodingStats.description := "500 problems" |} ] |}.

Definition example_project : Project.t :=
  {| Project.name := "Resume ranker";
     Project.technologies := ["Python"; "FastAPI"];
     Project.date := "December 2024";
     Project.achievements := ["Ranked 10k resumes"; "Cut cost by 30%"] |}.

Definition example_service : ReasoningService :=
  {| extractor_llm := fun _ => Ok example_extracted;
     project_llm := fun _ =>
       Ok {| GeneratedProjects.projects := [example_project] |};
     skills_llm := fun _ =>
       Ok {| TechnicalSkills.skills := [(KStr "Tools", VList [VStr "Git"])] |} |}.

(** The state that reaches the assembly stage in a run on the example:
    the endpoint's initial state with the outputs of the first three
    stages. *)
Definition example_generated : pyval :=
  dump_models Project.model_dump [example_project].

Definition example_state : AgentState :=
  {[ "resume_text" := SVal (VStr "Jane Doe, engineer at ACME");
     "job_description" := SVal (VStr "Python developer");
     "extracted_info" :=
       SVal (VDict (ExtractedResumeInfo.model_dump example_extracted));
     "generated_projects" := SVal example_generated;
     "generated_skills" := SVal (VDict [(KStr "Tools", VList [VStr "Git"])]);
     "resume_metadata" := SVal VNone;
     "latex_code" := SVal VNone;
     "messages" := SMessages [] ]}.

(** The record the assembly stage builds from it. *)
Definition example_metadata : ResumeMetadata :=
  {| name := "Jane Doe";
     email := "jane@example.com";
     phone := None;
     github := None;
     linkedin := Some "linkedin.com/in/jane";
     experiences :=
       [ [ (KStr "company", VStr "ACME"); (KStr "role", VStr "Engineer");
           (KStr "duration", VStr "2022 - 2024");
           (KStr "achievements", VList [VStr "Cut latency by 40%"]) ] ];
     education := [];
     projects := [Project.model_dump example_project];
     technical_skills := [(KStr "Tools", VList [VStr "Git"])];
     soft_skills := ["Writing"];
     positions_of_responsibility := [];
     certifications := [];
     coding_stats := Some [(KStr "LeetCode", VStr "500 problems")] |}.

Definition example_assembled : AgentState :=
  <["messages" := SMessages [HumanMessage "Created resume metadata"]]>
    (<["resume_metadata" := SMeta example_metadata]> example_state).

(** Evaluates the lookups of a closed state, leaving the state itself
    folded. *)
Ltac eval_lookups :=
  repeat match goal with
  | |- context [@lookup string slot _ _ ?k ?m] =>
    let v := eval vm_compute in (m !! k) in
    replace (m !! k) with v by (vm_compute; reflexivity)
  end.

Ltac run_on state :=
  unfold create_metadata, raw_projects, skills_argument, generate_projects,
    generate_latex, the_metadata, state_item, state_get;
  eval_lookups; generalize state; intros ?; reflexivity.

Lemma example_assembly : create_metadata example_state = Ok example_assembled.
Proof. unfold example_assembled. run_on example_state. Qed.

Lemma stages_additive_witness :
  @run_stage RenderFacts.example_runtime example_service Assembly example_state
  = Ok example_assembled
  /\ example_assembled !! "generated_projects"
     = example_state !! "generated_projects"
  /\ is_Some (example_assembled !! "resume_metadata").
Proof.
  pose proof example_assembly as Hrun.
  split; [exact Hrun|].
  destruct (@stages_additive RenderFacts.example_runtime example_service
              Assembly _ _ Hrun) as (Hframe & Hout & _).
  split; [apply Hframe; discriminate | exact Hout].
Defined.

End StageFacts.

(* ===================================================================== *)
(** * Properties of the assembly stage                                    *)
(* ===================================================================== *)

Module AssemblyFacts.
Import Agentstate Main StageFacts.

(** ** Validation *)

Lemma mapM_as_dict (l : list pyval) (ds : list dict) :
  mapM as_dict l = Some ds <-> l = VDict <$> ds.
Proof.
  rewrite mapM_Some. split.
  - induction 1 as [|v d l ds Hv _ IH]; [done|].
    destruct v; simplify_eq/=. by f_equal.
  - intros ->. induction ds; constructor; done.
Qed.

Lemma as_optional_dict (v : pyval) (o : option dict) :
  as_optional as_dict v = Some o ->
  v = match o with Some d => VDict d | None => VNone end.
Proof. destruct v; intros; simplify_eq/=; done. Qed.

(** What a successful construction says about the projects and the coding
    stats of the record. *)
Lemma new_ResumeMetadata_inv
    (a1 a2 a3 a4 a5 a6 a7 a8 a9 a10 a11 a12 a13 : pyval) (m : ResumeMetadata) :
  new_ResumeMetadata a1 a2 a3 a4 a5 a6 a7 a8 a9 a10 a11 a12 a13 = Ok m ->
  a8 = VList (VDict <$> projects m)
  /\ a13 = match coding_stats m with Some d => VDict d | None => VNone end.
Proof.
  unfold new_ResumeMetadata. intros Hm.
  destruct (as_str a1) as [x1|]; simpl in Hm; [|done].
  destruct (as_str a2) as [x2|]; simpl in Hm; [|done].
  destruct (as_optional as_str a3) as [x3|]; simpl in Hm; [|done].
  destruct (as_optional as_str a4) as [x4|]; simpl in Hm; [|done].
  destruct (as_optional as_str a5) as [x5|]; simpl in Hm; [|done].
  destruct (as_list as_dict a6) as [x6|]; simpl in Hm; [|done].
  destruct (as_list as_dict a7) as [x7|]; simpl in Hm; [|done].
  destruct (as_list as_dict a8) as [x8|] eqn:H8; simpl in Hm; [|done].
  destruct (as_dict a9) as [x9|]; simpl in Hm; [|done].
  destruct (as_list as_str a10) as [x10|]; simpl in Hm; [|done].
  destruct (as_list as_dict a11) as [x11|]; simpl in Hm; [|done].
  destruct (as_list as_dict a12) as [x12|]; simpl in Hm; [|done].
  destruct (as_optional as_dict a13) as [x13|] eqn:H13; simpl in Hm; [|done].
  injection Hm as <-. simpl. split.
  - destruct a8; try done. simpl in H8. by apply mapM_as_dict in H8 as ->.
  - by apply as_optional_dict.
Qed.

(** ** The shape of a successful assembly *)

Lemma create_metadata_inv (state state' : AgentState) :
  create_metadata state = Ok state' ->
  exists (extracted : dict) (meta : ResumeMetadata) (raw : list pyval),
    state !! "extracted_info" = Some (SVal (VDict extracted))
    /\ state' = <["messages" := SMessages [HumanMessage "Created resume metadata"]]>
                  (<["resume_metadata" := SMeta meta]> state)
    /\ raw_projects state (SVal (VDict extracted)) = Ok raw
    /\ traverse format_project raw = Ok (VDict <$> projects meta)
    /\ normalize_coding_stats (dict_get extracted "coding_stats" VNone)
       = Ok (match coding_stats meta with Some d => VDict d | None => VNone end).
Proof.
  unfold create_metadata, state_item. intros Hrun.
  destruct (state !! "extracted_info") as [ext|] eqn:Hext; [|done].
  simpl in Hrun.
  apply bind_ok in Hrun as (exps & Hexps & Hrun).
  destruct ext as [[| | |?|extracted]| |]; try done.
  apply bind_ok in Hrun as (exps' & _ & Hrun).
  apply bind_ok in Hrun as (fexps & _ & Hrun).
  apply bind_ok in Hrun as (pors & _ & Hrun).
  apply bind_ok in Hrun as (pors' & _ & Hrun).
  apply bind_ok in Hrun as (fpors & _ & Hrun).
  apply bind_ok in Hrun as (certs & _ & Hrun).
  apply bind_ok in Hrun as (certs' & _ & Hrun).
  apply bind_ok in Hrun as (fcerts & _ & Hrun).
  apply bind_ok in Hrun as (raw & Hraw & Hrun).
  apply bind_ok in Hrun as (fprojs & Hfprojs & Hrun).
  apply bind_ok in Hrun as (raw_coding & Hraw_coding & Hrun).
  apply bind_ok in Hrun as (coding & Hcoding & Hrun).
  apply bind_ok in Hrun as (name & _ & Hrun).
  apply bind_ok in Hrun as (email & _ & Hrun).
  apply bind_ok in Hrun as (phone & _ & Hrun).
  apply bind_ok in Hrun as (github & _ & Hrun).
  apply bind_ok in Hrun as (linkedin & _ & Hrun).
  apply bind_ok in Hrun as (education & _ & Hrun).
  apply bind_ok in Hrun as (skills & _ & Hrun).
  apply bind_ok in Hrun as (soft & _ & Hrun).
  apply bind_ok in Hrun as (meta & Hmeta & Hrun).
  apply new_ResumeMetadata_inv in Hmeta as [Hprojects Hcoding'].
  injection Hprojects as ->. injection Hrun as <-.
  simpl in Hraw_coding. injection Hraw_coding as <-.
  exists extracted, meta, raw. by rewrite <- Hcoding'.
Qed.

(** ** Projects *)

Lemma format_project_dump (p : Project.t) :
  format_project (VDict (Project.model_dump p))
  = Ok (VDict (Project.model_dump p)).
Proof. by destruct p. Qed.

Lemma traverse_format_project_dump (ps : list Project.t) :
  traverse format_project ((fun p => VDict (Project.model_dump p)) <$> ps)
  = Ok ((fun p => VDict (Project.model_dump p)) <$> ps).
Proof.
  induction ps as [|p ps IH]; [done|].
  rewrite fmap_cons. cbn [traverse].
  by rewrite format_project_dump, IH.
Qed.

Lemma fmap_VDict_inj (l k : list dict) : VDict <$> l = VDict <$> k -> l = k.
Proof.
  revert k. induction l as [|d l IH]; intros [|d' k] Heq; simplify_eq/=;
    [done|]. f_equal. by apply IH.
Qed.

(** The generated-projects field holds nothing to prefer: it is missing,
    [None] or an empty list. *)
Definition generated_absent (state : AgentState) : Prop :=
  state !! "generated_projects" = None
  \/ state !! "generated_projects" = Some (SVal VNone)
  \/ state !! "generated_projects" = Some (SVal (VList [])).

(** A generated project that lacks three of the four keys. *)
Definition sparse_generated : list pyval :=
  [VDict [(KStr "name", VStr "Resume ranker")]].

Definition sparse_state : AgentState :=
  <["generated_projects" := SVal (VList sparse_generated)]> example_state.

Definition sparse_metadata : ResumeMetadata :=
  {| name := name example_metadata;
     email := email example_metadata;
     phone := phone example_metadata;
     github := github example_metadata;
     linkedin := linkedin example_metadata;
     experiences := experiences example_metadata;
     education := education example_metadata;
     projects :=
       [ [ (KStr "name", VStr "Resume ranker");
           (KStr "technologies", VList []);
           (KStr "date", VStr "");
           (KStr "achievements", VList []) ] ];
     technical_skills := technical_skills example_metadata;
     soft_skills := soft_skills example_metadata;
     positions_of_responsibility := positions_of_responsibility example_metadata;
     certifications := certifications example_metadata;
     coding_stats := coding_stats example_metadata |}.

Definition sparse_assembled : AgentState :=
  <["messages" := SMessages [HumanMessage "Created resume metadata"]]>
    (<["resume_metadata" := SMeta sparse_metadata]> sparse_state).

Lemma sparse_assembly : create_metadata sparse_state = Ok sparse_assembled.
Proof. unfold sparse_assembled. run_on sparse_state. Qed.

(** The state of the example without generated projects. *)
Definition fallback_state : AgentState :=
  <["generated_projects" := SVal (VList [])]> example_state.

Definition fallback_metadata : ResumeMetadata :=
  {| name := name example_metadata;
     email := email example_metadata;
     phone := phone example_metadata;
     github := github example_metadata;
     linkedin := linkedin example_metadata;
     experiences := experiences example_metadata;
     education := education example_metadata;
     projects :=
       Project.model_dump <$> ExtractedResumeInfo.projects example_extracted;
     technical_skills := technical_skills example_metadata;
     soft_skills := soft_skills example_metadata;
     positions_of_responsibility := positions_of_responsibility example_metadata;
     certifications := certifications example_metadata;
     coding_stats := coding_stats example_metadata |}.

Definition fallback_assembled : AgentState :=
  <["messages" := SMessages [HumanMessage "Created resume metadata"]]>
    (<["resume_metadata" := SMeta fallback_metadata]> fallback_state).

Lemma fallback_assembly :
  create_metadata fallback_state = Ok fallback_assembled.
Proof. unfold fallback_assembled. run_on fallback_state. Qed.

(** ** Coding stats *)

(** The mapping built from platform/description records: a later record
    of a platform overwrites the description of an earlier one. *)
Definition platform_map (records : list CodingStats.t) : dict :=
  foldl (fun acc r => dict_set acc (KStr (CodingStats.platform r))
                        (VStr (CodingStats.description r)))
        [] records.

(** An item the comprehension accepts: not a dictionary (skipped), or a
    dictionary with both keys and a hashable platform. *)
Definition item_ok (item : pyval) : bool :=
  match item with
  | VDict d =>
    match dict_lookup d (KStr "platform"), dict_lookup d (KStr "description") with
    | Some platform, Some _ => is_ok (key_of_val platform)
    | _, _ => false
    end
  | _ => true
  end.

Lemma coding_comprehension_dump (records : list CodingStats.t) (acc : dict) :
  coding_comprehension
    ((fun r => VDict (CodingStats.model_dump r)) <$> records) acc
  = Ok (foldl (fun acc r => dict_set acc (KStr (CodingStats.platform r))
                              (VStr (CodingStats.description r)))
              acc records).
Proof.
  revert acc. induction records as [|[platform description] rs IH];
    intros acc; [done|].
  rewrite fmap_cons. cbn [coding_comprehension foldl].
  change (dict_item _ "platform") with (Ok (VStr platform)).
  change (dict_item _ "description") with (Ok (VStr description)).
  simpl. apply IH.
Qed.

(** What an item of the list contributes: the key and the value of its
    entry for a mapping with both keys and a hashable platform, nothing
    for any other item. *)
Definition item_entry (item : pyval) : option (pykey * pyval) :=
  match item with
  | VDict d =>
    match dict_lookup d (KStr "platform"), dict_lookup d (KStr "description")
    with
    | Some platform, Some description =>
      match key_of_val platform with
      | Ok key => Some (key, description)
      | Raise _ => None
      end
    | _, _ => None
    end
  | _ => None
  end.

(** The entries written one after the other, a later entry of the same key
    overwriting the value of an earlier one. *)
Definition write_entries (entries : list (pykey * pyval)) (acc : dict)
  : dict :=
  foldl (fun acc entry => dict_set acc entry.1 entry.2) acc entries.

Definition is_mapping (v : pyval) : bool :=
  match v with
  | VDict _ => true
  | _ => false
  end.

Lemma coding_comprehension_closed (items : list pyval) (acc : dict) :
  forallb item_ok items = true ->
  coding_comprehension items acc
  = Ok (write_entries (omap item_entry items) acc).
Proof.
  revert acc. induction items as [|item items IH]; intros acc Hok; [done|].
  cbn [forallb] in Hok. apply andb_true_iff in Hok as [Hitem Hok].
  destruct item as [| | | |d]; try (by apply IH).
  cbn [coding_comprehension]. unfold item_ok in Hitem. unfold dict_item.
  cbn [omap list_omap item_entry].
  destruct (dict_lookup d (KStr "platform")) as [platform|]; [|done].
  destruct (dict_lookup d (KStr "description")) as [description|]; [|done].
  cbn [mbind result_bind].
  destruct (key_of_val platform) as [key|]; [|done].
  cbn [mbind result_bind]. by rewrite IH.
Qed.

Lemma coding_comprehension_skips (items : list pyval) (acc : dict) :
  coding_comprehension items acc
  = coding_comprehension (List.filter is_mapping items) acc.
Proof.
  revert acc. induction items as [|item items IH]; intros acc; [done|].
  destruct item as [| | | |d]; cbn [List.filter is_mapping];
    try (by apply IH).
  cbn [coding_comprehension].
  destruct (dict_item d "platform") as [platform|]; [|done].
  destruct (dict_item d "description") as [description|]; [|done].
  cbn [mbind result_bind].
  destruct (key_of_val platform) as [key|]; [|done].
  cbn [mbind result_bind]. apply IH.
Qed.

Lemma coding_comprehension_ok (items : list pyval) (acc : dict) :
  is_ok (coding_comprehension items acc) = forallb item_ok items.
Proof.
  revert acc. induction items as [|item items IH]; intros acc; [done|].
  destruct item as [| | | |d]; simpl; try apply IH.
  unfold dict_item.
  destruct (dict_lookup d (KStr "platform")) as [platform|]; [|done].
  destruct (dict_lookup d (KStr "description")) as [description|]; [|done].
  simpl. destruct (key_of_val platform) as [key|]; [|done].
  simpl. apply IH.
Qed.

(** An extraction whose only coding-stats record has no description. *)
Definition incomplete_state : AgentState :=
  {[ "extracted_info" :=
       SVal (VDict [ (KStr "name", VStr "Jane Doe");
                     (KStr "email", VStr "jane@example.com");
                     (KStr "coding_stats",
                      VList [VDict [(KStr "platform", VStr "LeetCode")]]) ]);
     "generated_projects" := SVal VNone;
     "generated_skills" := SVal VNone ]}.

(** C5, as stated, fails: a list whose record lacks a key makes the
    assembly stage raise, and a list without records normalizes to the
    empty mapping rather than to [None]. *)
Lemma coding_stats_counterexample :
  create_metadata incomplete_state = Raise (KeyError "description")
  /\ normalize_coding_stats (VList [VStr "LeetCode: 500 problems"])
     = Ok (VDict []).
Proof. split; [|done]. run_on incomplete_state. Qed.

(** C5, amended.  A list of platform/description records normalizes to
    the mapping from platform to description; a mapping passes through
    unchanged; a value that is neither a list nor a mapping normalizes to
    [None].  A list is taken item by item: items that are not mappings are
    skipped, whatever the others are, so that a list without mappings
    gives the empty mapping; the normalization fails exactly when some
    mapping item lacks ["platform"] or ["description"] or has an
    unhashable platform, and otherwise the result holds one entry per
    mapping item, written in order.  When the assembly returns, the
    record's coding stats are the normalization of the extracted value. *)
Theorem coding_stats_normalization :
  (forall records : list CodingStats.t,
      normalize_coding_stats (dump_models CodingStats.model_dump records)
      = Ok (VDict (platform_map records)))
  /\ normalize_coding_stats
       (VList [VDict [ (KStr "platform", VStr "LeetCode");
                       (KStr "description", VStr "500 problems") ]])
     = Ok (VDict [(KStr "LeetCode", VStr "500 problems")])
  /\ (forall d : dict, normalize_coding_stats (VDict d) = Ok (VDict d))
  /\ (forall (z : Z) (s : string),
         normalize_coding_stats VNone = Ok VNone
         /\ normalize_coding_stats (VInt z) = Ok VNone
         /\ normalize_coding_stats (VStr s) = Ok VNone)
  /\ (forall items : list pyval,
         normalize_coding_stats (VList items)
         = normalize_coding_stats (VList (List.filter is_mapping items)))
  /\ (forall items : list pyval,
         forallb (fun item => negb (is_mapping item)) items = true ->
         normalize_coding_stats (VList items) = Ok (VDict []))
  /\ (forall items : list pyval,
         is_ok (normalize_coding_stats (VList items)) = forallb item_ok items)
  /\ (forall items : list pyval,
         forallb item_ok items = true ->
         normalize_coding_stats (VList items)
         = Ok (VDict (write_entries (omap item_entry items) [])))
  /\ (forall state state' : AgentState,
         create_metadata state = Ok state' ->
         exists (extracted : dict) (meta : ResumeMetadata),
           state !! "extracted_info" = Some (SVal (VDict extracted))
           /\ state' !! "resume_metadata" = Some (SMeta meta)
           /\ normalize_coding_stats (dict_get extracted "coding_stats" VNone)
              = Ok (match coding_stats meta with
                    | Some d => VDict d
                    | None => VNone
                    end)).
Proof.
  split; [|split; [|split; [|split; [|split; [|split; [|split; [|split]]]]]]];
    try done.
  - intros records. unfold normalize_coding_stats, dump_models, platform_map.
    by rewrite coding_comprehension_dump.
  - intros items. unfold normalize_coding_stats.
    by rewrite coding_comprehension_skips.
  - intros items Hnone. unfold normalize_coding_stats.
    rewrite coding_comprehension_skips.
    assert (List.filter is_mapping items = []) as ->; [|done].
    induction items as [|item items IH]; [done|].
    cbn [forallb] in Hnone. apply andb_true_iff in Hnone as [Hitem Hnone].
    cbn [List.filter]. apply negb_true_iff in Hitem. rewrite Hitem.
    by apply IH.
  - intros items. simpl. rewrite <- (coding_comprehension_ok items []).
    by destruct (coding_comprehension items []).
  - intros items Hok. unfold normalize_coding_stats.
    by rewrite coding_comprehension_closed.
  - intros state state'
      (extracted & meta & raw & Hext & -> & _ & _ & Hcoding)%create_metadata_inv.
    exists extracted, meta. split; [done|]. split; [|done].
    rewrite lookup_insert_ne by done. by rewrite lookup_insert_eq.
Qed.

Lemma coding_stats_normalization_witness :
  create_metadata example_state = Ok example_assembled
  /\ coding_stats example_metadata
     = Some [(KStr "LeetCode", VStr "500 problems")]
  /\ normalize_coding_stats
       (VList [VInt 7;
               VDict [ (KStr "platform", VStr "LeetCode");
                       (KStr "description", VStr "500 problems") ];
               VStr "Codeforces: expert"])
     = Ok (VDict [(KStr "LeetCode", VStr "500 problems")]).
Proof.
  destruct coding_stats_normalization
    as (_ & _ & _ & _ & _ & _ & _ & Hclosed & Hlink).
  split; [exact example_assembly|]. split.
  - destruct (Hlink _ _ example_assembly)
      as (extracted & meta & Hext & Hmeta & Hnorm).
    vm_compute in Hext. injection Hext as <-.
    assert (meta = example_metadata) as ->.
    { vm_compute in Hmeta. by injection Hmeta as <-. }
    reflexivity.
  - apply Hclosed. reflexivity.
Defined.

End AssemblyFacts.

(* ===================================================================== *)
(** * Properties of the projects generation stage                         *)
(* ===================================================================== *)

Module GenerationFacts.
Import Agentstate Main StageFacts.

(** The lengths of the technologies and achievements lists of an entry
    of the generated-projects field. *)
Definition entry_sizes (entry : pyval) : option (nat * nat) :=
  match entry with
  | VDict d =>
    match dict_lookup d (KStr "technologies"),
          dict_lookup d (KStr "achievements") with
    | Some (VList technologies), Some (VList achievements) =>
      Some (length technologies, length achievements)
    | _, _ => None
    end
  | _ => None
  end.

(** At most three technologies, two or three achievements. *)
Definition within_caps (sizes : nat * nat) : bool :=
  (sizes.1 <=? 3)%nat && ((sizes.2 =? 2)%nat || (sizes.2 =? 3)%nat).

Definition project_sizes (p : Project.t) : nat * nat :=
  (length (Project.technologies p), length (Project.achievements p)).

(** What the prompt asks of the reasoning service. *)
Definition response_as_asked (response : GeneratedProjects.t) : bool :=
  (length (GeneratedProjects.projects response) =? 3)%nat
  && forallb (fun p => within_caps (project_sizes p))
       (GeneratedProjects.projects response).

(** What C7 says of the stage's output. *)
Definition output_as_claimed (entries : list pyval) : bool :=
  (length entries =? 3)%nat
  && forallb (fun e => from_option within_caps false (entry_sizes e)) entries.

Lemma entry_sizes_dump (p : Project.t) :
  entry_sizes (VDict (Project.model_dump p)) = Some (project_sizes p).
Proof.
  destruct p as [name technologies date achievements].
  unfold project_sizes, dump_strs. simpl. by rewrite !length_fmap.
Qed.

Lemma output_as_claimed_dump (response : GeneratedProjects.t) :
  output_as_claimed
    ((fun p => VDict (Project.model_dump p))
       <$> GeneratedProjects.projects response)
  = response_as_asked response.
Proof.
  unfold output_as_claimed, response_as_asked.
  rewrite length_fmap. f_equal.
  induction (GeneratedProjects.projects response) as [|p ps IH]; [done|].
  rewrite fmap_cons. cbn [forallb]. by rewrite entry_sizes_dump, IH.
Qed.

(** A schema-conformant response with one project, four technologies and
    one achievement. *)
Definition lone_project : Project.t :=
  {| Project.name := "Resume ranker";
     Project.technologies := ["Python"; "FastAPI"; "Docker"; "AWS"];
     Project.date := "December 2024";
     Project.achievements := ["Ranked 10k resumes"] |}.

Definition lone_service : ReasoningService :=
  {| extractor_llm := fun _ => Ok example_extracted;
     project_llm := fun _ =>
       Ok {| GeneratedProjects.projects := [lone_project] |};
     skills_llm := fun _ => Ok {| TechnicalSkills.skills := [] |} |}.

Definition lone_entries : list pyval :=
  [ VDict [ (KStr "name", VStr "Resume ranker");
            (KStr "technologies",
             VList [VStr "Python"; VStr "FastAPI"; VStr "Docker"; VStr "AWS"]);
            (KStr "date", VStr "December 2024");
            (KStr "achievements", VList [VStr "Ranked 10k resumes"]) ] ].

Definition lone_generated : AgentState :=
  <["messages" := SMessages [HumanMessage "Generated 1 relevant projects"]]>
    (<["generated_projects" := SVal (VList lone_entries)]> example_state).

Lemma lone_generation :
  @generate_projects RenderFacts.example_runtime lone_service example_state
  = Ok lone_generated.
Proof. unfold lone_generated. run_on example_state. Qed.

(** C7, as stated, fails: the stage passes on a one-project response. *)
Lemma generate_projects_counterexample :
  @generate_projects RenderFacts.example_runtime lone_service example_state
  = Ok lone_generated
  /\ lone_generated !! "generated_projects" = Some (SVal (VList lone_entries))
  /\ length lone_entries = 1%nat
  /\ (entry_sizes <$> lone_entries) = [Some (4, 1)%nat]
  /\ output_as_claimed lone_entries = false.
Proof.
  split; [exact lone_generation|]. split; [by vm_compute|]. done.
Qed.

(** A response of three projects within the caps. *)
Definition three_service : ReasoningService :=
  {| extractor_llm := fun _ => Ok example_extracted;
     project_llm := fun _ =>
       Ok {| GeneratedProjects.projects :=
               [example_project; example_project; example_project] |};
     skills_llm := fun _ => Ok {| TechnicalSkills.skills := [] |} |}.

Definition three_generated : AgentState :=
  <["messages" := SMessages [HumanMessage "Generated 3 relevant projects"]]>
    (<["generated_projects" :=
         SVal (dump_models Project.model_dump
                 [example_project; example_project; example_project])]>
       example_state).

Lemma three_generation :
  @generate_projects RenderFacts.example_runtime three_service example_state
  = Ok three_generated.
Proof. unfold three_generated. run_on example_state. Qed.

(** C7, amended.  When the stage returns, the reasoning service returned
    a response, and the generated-projects field holds one entry per
    project of that response, in order, each the dump of its project; the
    entries are exactly 3 with at most 3 technologies and 2 or 3
    achievements each precisely when the response was. *)
Theorem generate_projects_mirrors_response `{Runtime} `{ReasoningService}
    (state state' : AgentState) :
  generate_projects state = Ok state' ->
  exists (messages : list message) (response : GeneratedProjects.t)
         (entries : list pyval),
    project_llm messages = Ok response
    /\ state' !! "generated_projects" = Some (SVal (VList entries))
    /\ entries = (fun p => VDict (Project.model_dump p))
                   <$> GeneratedProjects.projects response
    /\ length entries = length (GeneratedProjects.projects response)
    /\ entry_sizes <$> entries
       = (fun p => Some (project_sizes p))
           <$> GeneratedProjects.projects response
    /\ output_as_claimed entries = response_as_asked response.
Proof.
  unfold generate_projects. intros Hrun.
  apply bind_ok in Hrun as (extracted & _ & Hrun).
  apply bind_ok in Hrun as (experiences & _ & Hrun).
  apply bind_ok in Hrun as (summary & _ & Hrun).
  apply bind_ok in Hrun as (job & _ & Hrun).
  apply bind_ok in Hrun as (response & Hresponse & Hrun).
  injection Hrun as <-.
  eexists _, response, _. split; [exact Hresponse|].
  split.
  { rewrite lookup_insert_ne by done. by rewrite lookup_insert_eq. }
  split; [done|]. split; [by rewrite length_fmap|].
  split; [|apply output_as_claimed_dump].
  rewrite <- list_fmap_compose. apply list_fmap_ext.
  intros _ p _. apply entry_sizes_dump.
Qed.

Lemma generate_projects_mirrors_response_witness :
  @generate_projects RenderFacts.example_runtime three_service example_state
  = Ok three_generated
  /\ exists entries : list pyval,
       three_generated !! "generated_projects" = Some (SVal (VList entries))
       /\ output_as_claimed entries = true.
Proof.
  split; [exact three_generation|].
  destruct (@generate_projects_mirrors_response RenderFacts.example_runtime
              three_service _ _ three_generation)
    as (messages & response & entries & Hresponse & Hfield & _ & _ & _ & Hcaps).
  exists entries. split; [exact Hfield|].
  rewrite Hcaps. simpl in Hresponse. by injection Hresponse as <-.
Defined.

End GenerationFacts.

(* ===================================================================== *)
(** * Properties of the typesetting fallback chain                        *)
(* ===================================================================== *)

Module CompilerFacts.
Import PyFacts OnlineCompiler.

(** The two requests of the chain. *)
Definition post_request (latex_code : string) (timeout : Z) : request :=
  {| method := POST; url := "https://latex.ytotech.com/builds/sync";
     compiler := "pdflatex"; content := latex_code; timeout := timeout |}.

Definition get_request (latex_code : string) (timeout : Z) : request :=
  {| method := GET; url := "https://latex.ytotech.com/builds/sync";
     compiler := "pdflatex"; content := latex_code; timeout := timeout |}.

(** The world after one more request. *)
Definition after (w : world) (rs : list request) : world :=
  {| net := net w; sent := sent w ++ rs; slept := slept w |}.

(** The document an outcome delivers, if any: a response with status 200
    or 201 whose body starts with the PDF magic header. *)
Definition delivers_pdf (o : http_outcome) : option bytes :=
  match o with
  | Response status_code content _ =>
    if status_ok status_code && is_pdf content then Some content else None
  | _ => None
  end.

(** The error message of each backend for an outcome that delivers no
    document. *)
Definition json_error (o : http_outcome) : string :=
  match o with
  | Response status_code _ text =>
    if status_ok status_code
    then "Got non-PDF response: " +:+ text_or 200 text "Invalid response format"
    else "HTTP " +:+ pretty status_code +:+ ": "
         +:+ text_or 300 text "Unknown error"
  | Timeout _ => "Request timeout (>45s)"
  | RequestException e => "Network error: " +:+ str_take 100 e
  | OtherException e => "Error: " +:+ str_take 100 e
  end.

Definition get_error (o : http_outcome) : string :=
  match o with
  | Response status_code _ text =>
    if status_ok status_code then "Got non-PDF response"
    else "HTTP " +:+ pretty status_code +:+ ": "
         +:+ text_or 200 text "Unknown error"
  | Timeout e | RequestException e | OtherException e =>
    "Error: " +:+ str_take 100 e
  end.

(** A status in the 2xx class. *)
Definition is_2xx (status_code : Z) : bool :=
  (200 <=? status_code)%Z && (status_code <? 300)%Z.

(** ** The backends *)

Lemma json_backend (latex_code : string) (timeout : Z) (w : world) :
  _compile_with_ytotech_json latex_code timeout w
  = (Ok match delivers_pdf (net w (length (sent w))
                              (post_request latex_code timeout)) with
        | Some content => (true, Some content, "")
        | None => (false, None,
                   json_error (net w (length (sent w))
                                 (post_request latex_code timeout)))
        end,
     after w [post_request latex_code timeout]).
Proof.
  unfold _compile_with_ytotech_json, send, mbind, io_bind, mret, io_ret, after.
  fold (post_request latex_code timeout).
  f_equal. f_equal.
  destruct (net w _ _) as [status_code body text| | |]; simpl; try done.
  destruct (status_ok status_code), (is_pdf body); done.
Qed.

Lemma get_backend (latex_code : string) (timeout : Z) (w : world) :
  _compile_with_ytotech_get latex_code timeout w
  = (Ok match delivers_pdf (net w (length (sent w))
                              (get_request latex_code timeout)) with
        | Some content => (true, Some content, "")
        | None => (false, None,
                   get_error (net w (length (sent w))
                                (get_request latex_code timeout)))
        end,
     after w [get_request latex_code timeout]).
Proof.
  unfold _compile_with_ytotech_get, send, mbind, io_bind, mret, io_ret, after.
  fold (get_request latex_code timeout).
  f_equal. f_equal.
  destruct (net w _ _) as [status_code body text| | |]; simpl; try done.
  destruct (status_ok status_code), (is_pdf body); done.
Qed.

Lemma after_after (w : world) (rs rs' : list request) :
  after (after w rs) rs' = after w (rs ++ rs').
Proof. unfold after. simpl. by rewrite <- (assoc_L (++)). Qed.

(** ** The chain in closed form *)

Lemma compile_latex_online_unfold (latex_code : string) (timeout : Z)
    (w : world) :
  let o1 := net w (length (sent w)) (post_request latex_code timeout) in
  let o2 := net w (S (length (sent w))) (get_request latex_code timeout) in
  compile_latex_online latex_code timeout w
  = match delivers_pdf o1 with
    | Some content =>
      ((true, Some content, ""), after w [post_request latex_code timeout])
    | None =>
      match delivers_pdf o2 with
      | Some content =>
        ((true, Some content, ""),
         after w [post_request latex_code timeout;
                  get_request latex_code timeout])
      | None =>
        ((false, None,
          "All compilation services failed: "
          +:+ "YtoTech JSON POST: " +:+ json_error o1
          +:+ "; " +:+ "YtoTech GET: " +:+ get_error o2),
         after w [post_request latex_code timeout;
                  get_request latex_code timeout])
      end
    end.
Proof.
  intros o1 o2. unfold compile_latex_online, services.
  cbn [try_services]. unfold mbind at 1, io_bind at 1.
  rewrite json_backend. fold o1.
  destruct (delivers_pdf o1) as [content|]; [done|].
  cbn [app]. unfold mbind at 1, io_bind at 1.
  rewrite get_backend. cbn [after sent net slept].
  rewrite length_app, Nat.add_1_r. fold o2.
  rewrite after_after. cbn [app].
  destruct (delivers_pdf o2) as [content|]; reflexivity.
Qed.

(** A backend fails exactly when the outcome delivers no document, and
    its message is then the one tabulated above. *)
Lemma json_backend_fails (latex_code : string) (timeout : Z) (w : world)
    (b : option bytes) (e : string) :
  (_compile_with_ytotech_json latex_code timeout w).1 = Ok (false, b, e) ->
  delivers_pdf (net w (length (sent w)) (post_request latex_code timeout))
  = None
  /\ b = None
  /\ e = json_error (net w (length (sent w)) (post_request latex_code timeout)).
Proof.
  rewrite json_backend. simpl.
  destruct (delivers_pdf _); intros; by simplify_eq.
Qed.

Lemma get_backend_fails (latex_code : string) (timeout : Z) (w : world)
    (b : option bytes) (e : string) :
  (_compile_with_ytotech_get latex_code timeout w).1 = Ok (false, b, e) ->
  delivers_pdf (net w (length (sent w)) (get_request latex_code timeout))
  = None
  /\ b = None
  /\ e = get_error (net w (length (sent w)) (get_request latex_code timeout)).
Proof.
  rewrite get_backend. simpl.
  destruct (delivers_pdf _); intros; by simplify_eq.
Qed.

(** ** Example worlds *)

(** [b'%PDF-1.5'] *)
Definition pdf_body : bytes :=
  [Byte.x25; Byte.x50; Byte.x44; Byte.x46; Byte.x2d; Byte.x31; Byte.x2e;
   Byte.x35].

(** The POST endpoint answers 500; the GET endpoint answers with the given
    status and a PDF body. *)
Definition world_with_get_status (status_code : Z) : world :=
  {| net := fun _ r =>
       match method r with
       | POST => Response 500 [] "Internal Server Error"
       | GET => Response status_code pdf_body "%PDF-1.5"
       end;
     sent := [];
     slept := [] |}.

(** Both endpoints fail. *)
Definition failing_world : world :=
  {| net := fun _ r =>
       match method r with
       | POST => Timeout "read timed out"
       | GET => Response 503 [] ""
       end;
     sent := [];
     slept := [] |}.

(** C3, as stated, fails: after a failed first backend, a second backend
    answering 202 with a PDF body is not a success. *)
Lemma accepted_status_counterexample :
  (_compile_with_ytotech_json "\documentclass{article}" 45
     (world_with_get_status 202)).1
  = Ok (false, None, "HTTP 500: Internal Server Error")
  /\ net (world_with_get_status 202) 1
       (get_request "\documentclass{article}" 45)
     = Response 202 pdf_body "%PDF-1.5"
  /\ is_2xx 202 = true
  /\ take 4 pdf_body = pdf_magic
  /\ (compile_latex_online "\documentclass{article}" 45
        (world_with_get_status 202)).1
     = (false, None,
        "All compilation services failed: YtoTech JSON POST: HTTP 500: Internal Server Error; YtoTech GET: HTTP 202: %PDF-1.5").
Proof. repeat split; vm_compute; reflexivity. Qed.

(** C3, amended.  The chain tries the POST backend, then the GET backend,
    and stops at the first success.  If the first backend fails and the
    second receives a response with status 200 or 201 whose body begins
    with the PDF magic header, the result is success with that body and an
    empty error string, and the first failure is not surfaced.  If both
    fail, the result is failure, without bytes, and the error string holds
    both backends' messages, each after its backend's name, joined by
    ["; "]. *)
Theorem fallback_chain (latex_code : string) (timeout : Z) (w : world) :
  (forall content : bytes,
      (_compile_with_ytotech_json latex_code timeout w).1
      = Ok (true, Some content, "") ->
      compile_latex_online latex_code timeout w
      = ((true, Some content, ""), after w [post_request latex_code timeout]))
  /\ (forall (b1 : option bytes) (e1 : string) (status_code : Z)
             (content : bytes) (text : string),
         (_compile_with_ytotech_json latex_code timeout w).1
         = Ok (false, b1, e1) ->
         net w (S (length (sent w))) (get_request latex_code timeout)
         = Response status_code content text ->
         status_code = 200%Z \/ status_code = 201%Z ->
         take 4 content = pdf_magic ->
         compile_latex_online latex_code timeout w
         = ((true, Some content, ""),
            after w [post_request latex_code timeout;
                     get_request latex_code timeout]))
  /\ (forall (b1 b2 : option bytes) (e1 e2 : string),
         (_compile_with_ytotech_json latex_code timeout w).1
         = Ok (false, b1, e1) ->
         (_compile_with_ytotech_get latex_code timeout
            (after w [post_request latex_code timeout])).1
         = Ok (false, b2, e2) ->
         compile_latex_online latex_code timeout w
         = ((false, None,
             "All compilation services failed: "
             +:+ "YtoTech JSON POST: " +:+ e1 +:+ "; "
             +:+ "YtoTech GET: " +:+ e2),
            after w [post_request latex_code timeout;
                     get_request latex_code timeout])).
Proof.
  pose proof (compile_latex_online_unfold latex_code timeout w) as Hchain.
  cbv zeta in Hchain. split; [|split].
  - intros content Hjson. rewrite json_backend in Hjson. simpl in Hjson.
    rewrite Hchain.
    destruct (delivers_pdf _) as [c|]; by simplify_eq.
  - intros b1 e1 status_code content text
      (Hnone & _ & _)%json_backend_fails Hget Hstatus Hmagic.
    rewrite Hchain, Hnone, Hget. simpl.
    assert (status_ok status_code = true) as ->
      by (by destruct Hstatus as [-> | ->]).
    unfold is_pdf. by rewrite bool_decide_eq_true_2.
  - intros b1 b2 e1 e2 (Hnone1 & _ & ->)%json_backend_fails
      (Hnone2 & _ & ->)%get_backend_fails.
    simpl in Hnone2. rewrite length_app, Nat.add_1_r in Hnone2.
    rewrite Hchain, Hnone1, Hnone2. simpl.
    by rewrite length_app, Nat.add_1_r.
Qed.

Lemma fallback_chain_witness :
  compile_latex_online "\documentclass{article}" 45 (world_with_get_status 200)
  = ((true, Some pdf_body, ""),
     after (world_with_get_status 200)
       [post_request "\documentclass{article}" 45;
        get_request "\documentclass{article}" 45])
  /\ (compile_latex_online "\documentclass{article}" 45 failing_world).1
     = (false, None,
        "All compilation services failed: YtoTech JSON POST: Request timeout (>45s); YtoTech GET: HTTP 503: Unknown error").
Proof.
  destruct (fallback_chain "\documentclass{article}" 45
              (world_with_get_status 200)) as (_ & Hsecond & _).
  destruct (fallback_chain "\documentclass{article}" 45 failing_world)
    as (_ & _ & Hnone).
  split.
  - apply (Hsecond None "HTTP 500: Internal Server Error" 200%Z pdf_body
             "%PDF-1.5"); [by vm_compute | by vm_compute | by left | by vm_compute].
  - rewrite (Hnone None None "Request timeout (>45s)"
               "HTTP 503: Unknown error"); [by vm_compute | by vm_compute | by vm_compute].
Defined.

(** C10.  The chain's result is never mixed.  On success the error string
    is empty and the bytes are present, and they are the bytes of the
    backend that succeeded: the body of the response to the POST request
    when the first backend succeeds, and otherwise, the first backend
    having failed, the body of the response to the GET request.  On
    failure both backends have failed, there are no bytes and the error
    string is not empty. *)
Theorem compile_latex_online_consistent (latex_code : string) (timeout : Z)
    (w : world) :
  let o1 := net w (length (sent w)) (post_request latex_code timeout) in
  let o2 := net w (S (length (sent w))) (get_request latex_code timeout) in
  let first := (_compile_with_ytotech_json latex_code timeout w).1 in
  let second :=
    (_compile_with_ytotech_get latex_code timeout
       (after w [post_request latex_code timeout])).1 in
  match (compile_latex_online latex_code timeout w).1 with
  | (true, pdf_bytes, error) =>
    error = ""
    /\ exists content : bytes,
         pdf_bytes = Some content
         /\ (first = Ok (true, Some content, "")
             /\ delivers_pdf o1 = Some content
             \/ first = Ok (false, None, json_error o1)
                /\ second = Ok (true, Some content, "")
                /\ delivers_pdf o2 = Some content)
  | (false, pdf_bytes, error) =>
    pdf_bytes = None /\ error ≠ ""
    /\ first = Ok (false, None, json_error o1)
    /\ second = Ok (false, None, get_error o2)
  end.
Proof.
  intros o1 o2 first second.
  pose proof (compile_latex_online_unfold latex_code timeout w) as Hchain.
  cbv zeta in Hchain. rewrite Hchain. clear Hchain.
  assert (first
          = Ok match delivers_pdf o1 with
               | Some content => (true, Some content, "")
               | None => (false, None, json_error o1)
               end) as Hfirst.
  { unfold first. by rewrite json_backend. }
  assert (second
          = Ok match delivers_pdf o2 with
               | Some content => (true, Some content, "")
               | None => (false, None, get_error o2)
               end) as Hsecond.
  { unfold second. rewrite get_backend. unfold after. cbn [net sent fst].
    rewrite length_app. cbn [length]. by rewrite Nat.add_1_r. }
  fold o1 o2. rewrite Hfirst, Hsecond.
  destruct (delivers_pdf o1) as [c1|]; cbn [fst].
  { split; [done|]. exists c1. split; [done|]. by left. }
  destruct (delivers_pdf o2) as [c2|]; cbn [fst].
  { split; [done|]. exists c2. split; [done|]. by right. }
  split; [done|]. split; [discriminate|done].
Qed.

(** ** The retry helper *)

Lemma retry_loop_same (todo : nat) (attempt max_retries : Z)
    (latex_code : string) (timeout : Z) (error : option string) (w : world) :
  First.retry_loop todo attempt max_retries latex_code timeout error w
  = Second.retry_loop todo attempt max_retries latex_code timeout error w.
Proof.
  revert attempt error w.
  induction todo as [|todo IH]; intros attempt error w; [done|].
  cbn [First.retry_loop Second.retry_loop].
  unfold mbind, io_bind.
  destruct (compile_latex_online latex_code timeout w)
    as [[[success pdf_bytes] err] w1].
  destruct success; [done|].
  destruct (if (attempt <? max_retries - 1)%Z then _ else _) as [[] w2].
  apply IH.
Qed.

(** C9.  The two definitions of [compile_latex_with_retry] agree on every
    latex source, retry count, timeout and world: same result, same
    requests sent, same sleeps. *)
Theorem compile_latex_with_retry_same (latex_code : string)
    (max_retries timeout : Z) (w : world) :
  First.compile_latex_with_retry latex_code max_retries timeout w
  = Second.compile_latex_with_retry latex_code max_retries timeout w.
Proof. apply retry_loop_same. Qed.

(** The helper on an example: two attempts against endpoints that keep
    failing send four requests, sleep once for two seconds and report the
    last attempt's error. *)
Lemma retry_example :
  Second.compile_latex_with_retry "\documentclass{article}" 2 45 failing_world
  = (Ok (false, None,
         "Compilation failed after 2 attempts: All compilation services failed: YtoTech JSON POST: Request timeout (>45s); YtoTech GET: HTTP 503: Unknown error"),
     {| net := net failing_world;
        sent := [post_request "\documentclass{article}" 45;
                 get_request "\documentclass{article}" 45;
                 post_request "\documentclass{article}" 45;
                 get_request "\documentclass{article}" 45];
        slept := [2%Z] |}).
Proof. vm_compute. reflexivity. Qed.

(** Without any attempt the local variable [error] is never bound. *)
Lemma retry_without_attempts (latex_code : string) (timeout : Z) (w : world) :
  Second.compile_latex_with_retry latex_code 0 timeout w
  = (Raise (UnboundLocalError "error"), w).
Proof. reflexivity. Qed.

End CompilerFacts.


(* ===================================================================== *)
(** * Further properties of [escape_latex]                                *)
(* ===================================================================== *)

Module EscapeTable.
Import PyFacts Agentstate LatexHandler EscapeFacts.

(** What [escape_latex] makes of one character. *)
Definition escape_char (c : ascii) : string :=
  if Ascii.eqb c "\" then "\textbackslash\{\}"
  else if Ascii.eqb c "%" then "\%"
  else if Ascii.eqb c "#" then "\#"
  else if Ascii.eqb c "_" then "\_"
  else if Ascii.eqb c "{" then "\{"
  else if Ascii.eqb c "}" then "\}"
  else if Ascii.eqb c "~" then "\textasciitilde{}"
  else if Ascii.eqb c "^" then "\textasciicircum{}"
  else if Ascii.eqb c "&" then "\&"
  else String c "".

(** The characters with a rule. *)
Definition is_special (c : ascii) : bool :=
  has_char c "\%#_{}~^&".

Fixpoint plain (s : string) : bool :=
  match s with
  | EmptyString => true
  | String c s' => negb (is_special c) && plain s'
  end.

(** An occurrence of [c] that no backslash immediately precedes;
    [escaped] tells whether the previous character was a backslash. *)
Fixpoint bare_from (escaped : bool) (c : ascii) (s : string) : bool :=
  match s with
  | EmptyString => false
  | String x s' =>
    (Ascii.eqb x c && negb escaped) || bare_from (Ascii.eqb x "\") c s'
  end.

Definition bare (c : ascii) (s : string) : bool := bare_from false c s.

Lemma escape_text_char (c : ascii) :
  escape_text (String c "") = escape_char c.
Proof. destruct c as [[] [] [] [] [] [] [] []]; reflexivity. Qed.

Lemma escape_text_cons (c : ascii) (s : string) :
  escape_text (String c s) = escape_char c +:+ escape_text s.
Proof.
  change (String c s) with (String c "" +:+ s).
  by rewrite escape_text_app, escape_text_char.
Qed.

Lemma escape_char_plain (c : ascii) :
  is_special c = false -> escape_char c = String c "".
Proof.
  destruct c as [[] [] [] [] [] [] [] []]; intros Hc;
    first [reflexivity | discriminate Hc].
Qed.

(** X1.  [escape_latex] works character by character: the result for a
    text is the concatenation, in order, of the results for its
    characters, each special character giving its fixed replacement and
    every other character itself. *)
Theorem escape_latex_characterwise `{Runtime} (s : string) :
  escape_latex (VStr s) = subst_chars escape_char s.
Proof.
  rewrite escape_latex_str.
  induction s as [|c s IH]; [done|].
  rewrite escape_text_cons, IH. done.
Qed.

(** X2.  A text without any of the nine special characters is returned
    unchanged. *)
Theorem escape_latex_plain `{Runtime} (s : string) :
  plain s = true -> escape_latex (VStr s) = s.
Proof.
  rewrite escape_latex_str.
  induction s as [|c s IH]; [done|].
  cbn [plain]. intros [Hc Hs]%andb_true_iff. apply negb_true_iff in Hc.
  rewrite escape_text_cons, escape_char_plain, IH by done. done.
Qed.

Lemma escape_latex_plain_witness :
  plain "Jane Doe, B.Sc. (2020-2024)" = true
  /\ @escape_latex RenderFacts.example_runtime
       (VStr "Jane Doe, B.Sc. (2020-2024)")
     = "Jane Doe, B.Sc. (2020-2024)".
Proof.
  split; [reflexivity|].
  apply (@escape_latex_plain RenderFacts.example_runtime). reflexivity.
Defined.

Lemma bare_after_char (c x : ascii) (escaped : bool) (rest : string) :
  c ∈ ["%"; "#"; "_"; "&"]%char ->
  bare_from escaped c (escape_char x +:+ rest) = bare_from false c rest.
Proof.
  intros Hc. repeat (apply elem_of_cons in Hc as [->|Hc]);
    [..|by apply elem_of_nil in Hc];
    destruct x as [[] [] [] [] [] [] [] []], escaped; reflexivity.
Qed.

Lemma has_char_after_char (c x : ascii) (rest : string) :
  c ∈ ["~"; "^"]%char ->
  has_char c (escape_char x +:+ rest) = has_char c rest.
Proof.
  intros Hc. repeat (apply elem_of_cons in Hc as [->|Hc]);
    [..|by apply elem_of_nil in Hc];
    destruct x as [[] [] [] [] [] [] [] []]; reflexivity.
Qed.

(** X3.  In what [escape_latex] returns, every percent sign, hash,
    underscore and ampersand stands right after a backslash, and there is
    no tilde and no caret at all. *)
Theorem escape_latex_output_escaped `{Runtime} (s : string) :
  Forall (fun c => bare c (escape_latex (VStr s)) = false)
    ["%"; "#"; "_"; "&"]%char
  /\ Forall (fun c => has_char c (escape_latex (VStr s)) = false)
       ["~"; "^"]%char.
Proof.
  rewrite escape_latex_str. split.
  - apply Forall_forall. intros c Hc. unfold bare.
    induction s as [|x s IH]; [done|].
    by rewrite escape_text_cons, bare_after_char.
  - apply Forall_forall. intros c Hc.
    induction s as [|x s IH]; [done|].
    by rewrite escape_text_cons, has_char_after_char.
Qed.

(** Two replacements that start two equal texts are the replacement of
    one and the same character: no replacement is the beginning of
    another. *)
Lemma escape_char_inj_app (c d : ascii) (A B : string) :
  escape_char c +:+ A = escape_char d +:+ B -> c = d /\ A = B.
Proof.
  unfold escape_char.
  repeat match goal with
  | |- context [Ascii.eqb ?x ?y] =>
    let H := fresh "H" in
    destruct (Ascii.eqb x y) eqn:H;
    [apply Ascii.eqb_eq in H; subst x | apply Ascii.eqb_neq in H]
  end;
  intros Heq; vm_compute in Heq; try discriminate Heq;
  injection Heq; intros; subst; try done.
Qed.

Lemma escape_char_nonempty (c : ascii) (A : string) :
  escape_char c +:+ A ≠ "".
Proof.
  destruct c as [[] [] [] [] [] [] [] []]; intros Heq; vm_compute in Heq;
    discriminate Heq.
Qed.

(** X4.  [escape_latex] loses nothing: two different texts never give the
    same result. *)
Theorem escape_latex_injective `{Runtime} (s t : string) :
  escape_latex (VStr s) = escape_latex (VStr t) -> s = t.
Proof.
  rewrite !escape_latex_str. revert t.
  induction s as [|c s IH]; intros [|d t] Heq; [done|..].
  - rewrite escape_text_cons in Heq. symmetry in Heq.
    by apply escape_char_nonempty in Heq.
  - rewrite escape_text_cons in Heq. by apply escape_char_nonempty in Heq.
  - rewrite !escape_text_cons in Heq.
    apply escape_char_inj_app in Heq as [-> Heq]. f_equal. by apply IH.
Qed.

Lemma escape_latex_injective_witness :
  "50%" = "50%"
  /\ @escape_latex RenderFacts.example_runtime (VStr "50%")
     ≠ @escape_latex RenderFacts.example_runtime (VStr "50\%").
Proof.
  split.
  - apply (@escape_latex_injective RenderFacts.example_runtime "50%" "50%").
    reflexivity.
  - intros Heq.
    apply (@escape_latex_injective RenderFacts.example_runtime) in Heq.
    discriminate Heq.
Defined.

End EscapeTable.


(* ===================================================================== *)
(** * Further properties of [generate_latex]                              *)
(* ===================================================================== *)

Module RenderMore.
Import PyFacts Agentstate LatexHandler EscapeFacts RenderFacts.

(** Text that holds no doubled opening brace and does not start with an
    opening brace: nothing in it can be, or complete, a placeholder. *)
Definition clean (s : string) : Prop :=
  contains "{{" s = false /\ String.prefix "{" s = false.



(** ** Loops *)

Lemma accumulate_from {A} (f : A -> result string) (xs : list A)
    (acc : result string) :
  foldl (fun acc x => a ← acc; s ← f x; Ok (a +:+ s)) acc xs
  = (a ← acc; r ← accumulate f xs; Ok (a +:+ r)).
Proof.
  unfold accumulate. revert acc.
  induction xs as [|x xs IH]; intros acc.
  - destruct acc as [a|e]; [|done]. simpl. by rewrite app_nil_r.
  - cbn [foldl]. rewrite IH. rewrite (IH (_ ≫= _)).
    destruct acc as [a|e]; [|done]. simpl.
    destruct (f x) as [s|e]; [|done]. simpl.
    destruct (foldl _ _ xs) as [r|e]; [|done]. simpl.
    by rewrite app_assoc.
Qed.

Lemma accumulate_cons {A} (f : A -> result string) (x : A) (xs : list A) :
  accumulate f (x :: xs) = (s ← f x; r ← accumulate f xs; Ok (s +:+ r)).
Proof.
  unfold accumulate at 1. cbn [foldl]. rewrite accumulate_from.
  destruct (f x) as [s|e]; done.
Qed.



(** ** Clean text *)

Lemma clean_nil : clean "".
Proof. done. Qed.

Lemma clean_app (a b : string) : clean a -> clean b -> clean (a +:+ b).
Proof.
  intros [Ha Ha'] [Hb Hb']. split;
    [by apply no_open2_app | by apply no_open_app].
Qed.

Lemma clean_escape_latex `{Runtime} (v : pyval) : clean (escape_latex v).
Proof.
  unfold escape_latex. destruct (negb (truthy v)); [done|].
  apply escape_text_shape.
Qed.

Lemma clean_join (sep : string) (xs : list string) :
  clean sep -> Forall clean xs -> clean (join sep xs).
Proof.
  intros Hsep. induction 1 as [|x xs Hx Hxs IH]; [done|].
  destruct xs as [|y ys]; [done|].
  change (join sep (x :: y :: ys)) with (x +:+ sep +:+ join sep (y :: ys)).
  by repeat apply clean_app.
Qed.

Lemma clean_accumulate {A} (f : A -> result string) (xs : list A) (s : string) :
  (forall x r, f x = Ok r -> clean r) -> accumulate f xs = Ok s -> clean s.
Proof.
  intros Hf. revert s. induction xs as [|x xs IH]; intros s.
  - intros [= <-]. done.
  - rewrite accumulate_cons.
    destruct (f x) as [r|e] eqn:Hr; [|done]. simpl.
    destruct (accumulate f xs) as [r'|e]; [|done]. simpl.
    intros [= <-]. apply clean_app; eauto.
Qed.

(** Pieces are literal text, escaped text or texts already known clean. *)
Ltac clean_pieces :=
  repeat match goal with
  | |- clean (_ +:+ _) => apply clean_app
  | |- clean (escape_latex _) => apply clean_escape_latex
  | |- clean _ => first [assumption | split; vm_compute; reflexivity]
  end.

Section Fragments.
Context `{Runtime}.

Lemma clean_items (indent : string) (xs : list pyval) (s : string) :
  clean indent ->
  accumulate
    (fun a => Ok (indent +:+ escape_latex a +:+ "}" +:+ nl)) xs = Ok s ->
  clean s.
Proof.
  intros Hi. apply clean_accumulate. intros x r [= <-]. clean_pieces.
Qed.

Lemma clean_experience (metadata : ResumeMetadata) (s : string) :
  experience_latex metadata = Ok s -> clean s.
Proof.
  unfold experience_latex. destruct (experiences metadata) as [|e es].
  { intros [= <-]. clean_pieces. }
  apply clean_accumulate. intros exp r. unfold experience_entry.
  destruct (py_iter _) as [achievements|]; [|done]. simpl.
  destruct (accumulate _ achievements) as [items|] eqn:Hitems; [|done].
  apply clean_items in Hitems; [|clean_pieces].
  simpl. intros [= <-]. clean_pieces.
Qed.

Lemma clean_education (metadata : ResumeMetadata) (s : string) :
  education_latex metadata = Ok s -> clean s.
Proof.
  unfold education_latex. destruct (education metadata) as [|e es].
  { intros [= <-]. clean_pieces. }
  apply clean_accumulate. intros edu r. unfold education_entry.
  intros [= <-]. clean_pieces.
Qed.

Lemma clean_projects (metadata : ResumeMetadata) (s : string) :
  projects_latex metadata = Ok s -> clean s.
Proof.
  unfold projects_latex. destruct (projects metadata) as [|p ps].
  { intros [= <-]. done. }
  apply clean_accumulate. intros proj r. unfold project_entry.
  destruct (py_iter (dict_get proj "technologies" _)) as [technologies|];
    [|done]. simpl.
  destruct (py_iter _) as [achievements|]; [|done]. simpl.
  destruct (accumulate _ achievements) as [items|] eqn:Hitems; [|done].
  apply clean_items in Hitems; [|clean_pieces].
  simpl. intros [= <-].
  assert (clean (join ", " (map (fun t => escape_latex (VStr (py_str t)))
                              technologies))).
  { apply clean_join; [clean_pieces|].
    apply Forall_forall. intros x (t & <- & _)%list_elem_of_In%in_map_iff.
    apply clean_escape_latex. }
  clean_pieces.
Qed.

Lemma clean_skills_line (item : pykey * pyval) (lines : list string) :
  skills_line item = Ok lines -> Forall clean lines.
Proof.
  destruct item as [category skills]. unfold skills_line.
  destruct (truthy skills); [|by intros [= <-]].
  destruct (py_iter skills) as [ss|]; [|done]. simpl. intros [= <-].
  constructor; [|done].
  assert (clean (join ", " (map (fun s => escape_latex (VStr (py_str s))) ss))).
  { apply clean_join; [clean_pieces|].
    apply Forall_forall. intros x (t & <- & _)%list_elem_of_In%in_map_iff.
    apply clean_escape_latex. }
  clean_pieces.
Qed.

Lemma clean_traverse_lines (items : list (pykey * pyval))
    (lines : list (list string)) :
  traverse skills_line items = Ok lines -> Forall clean (concat lines).
Proof.
  revert lines. induction items as [|item items IH]; intros lines.
  - intros [= <-]. constructor.
  - cbn [traverse].
    destruct (skills_line item) as [l|] eqn:Hl; [|done]. simpl.
    destruct (traverse skills_line items) as [ls|]; [|done]. simpl.
    intros [= <-]. cbn [concat]. apply Forall_app. split.
    + by apply clean_skills_line in Hl.
    + by apply IH.
Qed.

Lemma clean_skills (metadata : ResumeMetadata) (s : string) :
  technical_skills_latex metadata = Ok s -> clean s.
Proof.
  unfold technical_skills_latex.
  destruct (technical_skills metadata) as [|item items].
  { intros [= <-]. clean_pieces. }
  unfold dict_items.
  destruct (traverse skills_line (item :: items)) as [lines|] eqn:Hlines;
    [|done].
  simpl. intros [= <-]. apply clean_join; [clean_pieces|].
  by apply clean_traverse_lines in Hlines.
Qed.

Lemma clean_por (metadata : ResumeMetadata) (s : string) :
  por_latex metadata = Ok s -> clean s.
Proof.
  unfold por_latex.
  destruct (positions_of_responsibility metadata) as [|p ps].
  { intros [= <-]. clean_pieces. }
  apply clean_accumulate. intros por r. unfold por_entry.
  intros [= <-]. clean_pieces.
Qed.

Lemma clean_replace (s old' new : string) :
  clean s -> replace s (String "{" (String "{" old')) new = s.
Proof.
  intros [Hs _]. apply replace_absent; [done|]. by apply no_open2_absent.
Qed.

(** ** When the rendering returns *)









Lemma render_fragments (metadata : ResumeMetadata) (document : string) :
  render metadata = Ok document ->
  exists X E J S P : string,
    (experience_latex metadata = Ok X
     /\ education_latex metadata = Ok E
     /\ projects_latex metadata = Ok J
     /\ technical_skills_latex metadata = Ok S
     /\ por_latex metadata = Ok P)
    /\ (clean X /\ clean E /\ clean J /\ clean S /\ clean P)
    /\ document
       = seg0 +:+ escape_latex (VStr (name metadata))
         +:+ seg1
         +:+ escape_latex (VStr (or_default (phone metadata) "+91 1234567890"))
         +:+ seg2 +:+ escape_latex (VStr (email metadata))
         +:+ seg3 +:+ escape_latex (VStr (email metadata))
         +:+ seg4
         +:+ escape_latex
               (VStr (or_default (linkedin metadata)
                        "linkedin.com/in/yourprofile"))
         +:+ seg5 +:+ X +:+ seg6 +:+ E +:+ seg7 +:+ J +:+ seg8 +:+ S
         +:+ seg9 +:+ P +:+ seg10.
Proof.
  rewrite render_closed_form.
  destruct (experience_latex metadata) as [X|] eqn:HX; [|done].
  destruct (education_latex metadata) as [E|] eqn:HE; [|done].
  destruct (projects_latex metadata) as [J|] eqn:HJ; [|done].
  destruct (technical_skills_latex metadata) as [S|] eqn:HS; [|done].
  destruct (por_latex metadata) as [P|] eqn:HP; [|done].
  apply clean_experience in HX. apply clean_education in HE.
  apply clean_projects in HJ. apply clean_skills in HS.
  apply clean_por in HP.
  unfold mbind, result_bind. cbv beta iota.
  rewrite !(clean_replace X), !(clean_replace E), !(clean_replace J),
    !(clean_replace S) by assumption.
  intros [= <-].
  exists X, E, J, S, P.
  split; [by repeat split|]. split; [|done].
  by repeat (split; [assumption|]).
Qed.

End Fragments.

(** X6.  A document that [render] returns is the template with each
    placeholder replaced by its own fragment and nothing else changed: the
    later replacements do not reach into the fragments put in by the
    earlier ones. *)
Theorem render_document `{Runtime} (metadata : ResumeMetadata)
    (document : string) :
  render metadata = Ok document ->
  exists X E J S P : string,
    experience_latex metadata = Ok X
    /\ education_latex metadata = Ok E
    /\ projects_latex metadata = Ok J
    /\ technical_skills_latex metadata = Ok S
    /\ por_latex metadata = Ok P
    /\ document
       = seg0 +:+ escape_latex (VStr (name metadata))
         +:+ seg1
         +:+ escape_latex (VStr (or_default (phone metadata) "+91 1234567890"))
         +:+ seg2 +:+ escape_latex (VStr (email metadata))
         +:+ seg3 +:+ escape_latex (VStr (email metadata))
         +:+ seg4
         +:+ escape_latex
               (VStr (or_default (linkedin metadata)
                        "linkedin.com/in/yourprofile"))
         +:+ seg5 +:+ X +:+ seg6 +:+ E +:+ seg7 +:+ J +:+ seg8 +:+ S
         +:+ seg9 +:+ P +:+ seg10.
Proof.
  intros Hdoc.
  destruct (render_fragments _ _ Hdoc)
    as (X & E & J & S & P & (HX & HE & HJ & HS & HP) & _ & Hd).
  by exists X, E, J, S, P.
Qed.

Lemma render_document_witness :
  exists document : string,
    @render example_runtime bare_record = Ok document
    /\ document
       = seg0 +:+ "Jane Doe" +:+ seg1 +:+ "+91 1234567890" +:+ seg2
         +:+ "jane@example.com" +:+ seg3 +:+ "jane@example.com" +:+ seg4
         +:+ "linkedin.com/in/yourprofile" +:+ seg5
         +:+ experience_placeholder +:+ seg6 +:+ education_placeholder
         +:+ seg7 +:+ "" +:+ seg8 +:+ skills_placeholder +:+ seg9
         +:+ por_placeholder +:+ seg10.
Proof.
  eexists. split; [vm_compute; reflexivity|].
  match goal with
  | |- ?d = _ =>
    destruct (@render_document example_runtime bare_record d)
      as (X & E & J & S & P & HX & HE & HJ & HS & HP & Hd);
      [vm_compute; reflexivity|]
  end.
  injection HX as <-. injection HE as <-. injection HJ as <-.
  injection HS as <-. injection HP as <-. exact Hd.
Defined.

(** X7.  A rendered document holds no doubled opening brace: every
    placeholder of the template has been replaced, and no text of the
    record has brought one in. *)
Theorem render_no_placeholder `{Runtime} (metadata : ResumeMetadata)
    (document : string) :
  render metadata = Ok document -> contains "{{" document = false.
Proof.
  intros Hdoc.
  destruct (render_fragments _ _ Hdoc)
    as (X & E & J & S & P & _ & (HX & HE & HJ & HS & HP) & ->).
  cut (clean
         (seg0 +:+ escape_latex (VStr (name metadata))
          +:+ seg1
          +:+ escape_latex
                (VStr (or_default (phone metadata) "+91 1234567890"))
          +:+ seg2 +:+ escape_latex (VStr (email metadata))
          +:+ seg3 +:+ escape_latex (VStr (email metadata))
          +:+ seg4
          +:+ escape_latex
                (VStr (or_default (linkedin metadata)
                         "linkedin.com/in/yourprofile"))
          +:+ seg5 +:+ X +:+ seg6 +:+ E +:+ seg7 +:+ J +:+ seg8 +:+ S
          +:+ seg9 +:+ P +:+ seg10)); [by intros [? _]|].
  clean_pieces.
Qed.

Lemma render_no_placeholder_witness :
  exists document : string,
    @render example_runtime bare_record = Ok document
    /\ contains "{{" document = false.
Proof.
  eexists. split; [vm_compute; reflexivity|].
  apply (@render_no_placeholder example_runtime bare_record).
  vm_compute; reflexivity.
Defined.

(** X8.  A skills dictionary that is not empty but whose every category has
    a falsy value (an empty list, [None], an empty string) renders as the
    empty string: the placeholder line is used only for an empty or missing
    dictionary. *)
Theorem skills_all_empty_block `{Runtime} (metadata : ResumeMetadata) :
  technical_skills metadata <> [] ->
  Forall (fun item => truthy item.2 = false) (technical_skills metadata) ->
  technical_skills_latex metadata = Ok "".
Proof.
  intros Hne Hall. unfold technical_skills_latex.
  destruct (technical_skills metadata) as [|item items]; [done|].
  clear Hne. unfold dict_items.
  assert (traverse skills_line (item :: items)
          = Ok (map (fun _ => []) (item :: items))) as ->.
  { induction Hall as [|[category skills] rest Hfalsy _ IH]; [done|].
    simpl in Hfalsy. cbn [traverse map].
    assert (skills_line (category, skills) = Ok []) as ->.
    { unfold skills_line. by rewrite Hfalsy. }
    cbn [mbind result_bind]. by rewrite IH. }
  cbn [mbind result_bind]. f_equal.
  assert (concat (map (fun _ : pykey * pyval => @nil string) (item :: items))
          = []) as ->; [|done].
  generalize (item :: items). intros l.
  induction l as [|x l IH]; [done|]. cbn [map concat]. by rewrite IH.
Qed.

Definition hollow_skills_record : ResumeMetadata :=
  empty_sections "Jane Doe" "jane@example.com" None None None
    [(KStr "Languages", VList []); (KStr "Tools", VNone)] [] [] None.

Lemma skills_all_empty_block_witness :
  @technical_skills_latex example_runtime hollow_skills_record = Ok "".
Proof.
  apply (@skills_all_empty_block example_runtime hollow_skills_record).
  - discriminate.
  - repeat constructor.
Defined.


(** X20.  The document depends on nine fields of the record only: two
    records that agree on the name, e-mail, phone, LinkedIn link,
    experiences, education, projects, technical skills and positions
    render alike.  The GitHub link, the soft skills, the certifications
    and the coding statistics that the assembly stores never reach the
    document. *)
Theorem render_reads `{Runtime} (m m' : ResumeMetadata) :
  name m = name m' -> email m = email m' -> phone m = phone m' ->
  linkedin m = linkedin m' -> experiences m = experiences m' ->
  education m = education m' -> projects m = projects m' ->
  technical_skills m = technical_skills m' ->
  positions_of_responsibility m = positions_of_responsibility m' ->
  render m = render m'.
Proof.
  destruct m, m'. simpl. intros -> -> -> -> -> -> -> -> ->.
  reflexivity.
Qed.

Definition decorated_record : ResumeMetadata :=
  empty_sections "Jane Doe" "jane@example.com" None
    (Some "github.com/jane") None [] ["Writing"]
    [[(KStr "name", VStr "AWS SAA"); (KStr "issuer", VStr "Amazon");
      (KStr "date", VStr "2024")]]
    (Some [(KStr "LeetCode", VStr "500 problems")]).

Lemma render_reads_witness :
  @render example_runtime bare_record
  = @render example_runtime decorated_record.
Proof.
  apply (@render_reads example_runtime bare_record decorated_record);
    reflexivity.
Defined.

End RenderMore.

(* ===================================================================== *)
(** * The assembled record, field by field                                *)
(* ===================================================================== *)

Module AssemblyMore.
Import Agentstate Main StageFacts AssemblyFacts.

(** ** Validation, read backwards *)

Lemma as_str_inv (v : pyval) (s : string) : as_str v = Some s -> v = VStr s.
Proof. destruct v; intros; simplify_eq/=; done. Qed.

Lemma as_optional_str_inv (v : pyval) (o : option string) :
  as_optional as_str v = Some o -> v = dump_optional_str o.
Proof. destruct v; intros; simplify_eq/=; done. Qed.

Lemma mapM_as_str (l : list pyval) (ss : list string) :
  mapM as_str l = Some ss <-> l = VStr <$> ss.
Proof.
  rewrite mapM_Some. split.
  - induction 1 as [|v s l ss Hv _ IH]; [done|].
    apply as_str_inv in Hv as ->. simpl. by f_equal.
  - intros ->. induction ss; constructor; done.
Qed.

Lemma as_list_dict_inv (v : pyval) (ds : list dict) :
  as_list as_dict v = Some ds -> v = VList (VDict <$> ds).
Proof.
  destruct v; try done. simpl. by intros ->%mapM_as_dict.
Qed.

Lemma as_list_str_inv (v : pyval) (ss : list string) :
  as_list as_str v = Some ss -> v = dump_strs ss.
Proof.
  destruct v; try done. simpl. by intros ->%mapM_as_str.
Qed.

Lemma as_dict_inv (v : pyval) (d : dict) : as_dict v = Some d -> v = VDict d.
Proof. destruct v; intros; simplify_eq/=; done. Qed.

(** The arguments of a construction that returned are the fields of the
    record: validation coerces nothing. *)
Lemma new_ResumeMetadata_fields
    (a1 a2 a3 a4 a5 a6 a7 a8 a9 a10 a11 a12 a13 : pyval) (m : ResumeMetadata) :
  new_ResumeMetadata a1 a2 a3 a4 a5 a6 a7 a8 a9 a10 a11 a12 a13 = Ok m ->
  a1 = VStr (name m) /\ a2 = VStr (email m)
  /\ a3 = dump_optional_str (phone m) /\ a4 = dump_optional_str (github m)
  /\ a5 = dump_optional_str (linkedin m)
  /\ a6 = VList (VDict <$> experiences m)
  /\ a7 = VList (VDict <$> education m)
  /\ a9 = VDict (technical_skills m)
  /\ a10 = dump_strs (soft_skills m)
  /\ a11 = VList (VDict <$> positions_of_responsibility m)
  /\ a12 = VList (VDict <$> certifications m).
Proof.
  unfold new_ResumeMetadata. intros Hm.
  destruct (as_str a1) as [x1|] eqn:H1; simpl in Hm; [|done].
  destruct (as_str a2) as [x2|] eqn:H2; simpl in Hm; [|done].
  destruct (as_optional as_str a3) as [x3|] eqn:H3; simpl in Hm; [|done].
  destruct (as_optional as_str a4) as [x4|] eqn:H4; simpl in Hm; [|done].
  destruct (as_optional as_str a5) as [x5|] eqn:H5; simpl in Hm; [|done].
  destruct (as_list as_dict a6) as [x6|] eqn:H6; simpl in Hm; [|done].
  destruct (as_list as_dict a7) as [x7|] eqn:H7; simpl in Hm; [|done].
  destruct (as_list as_dict a8) as [x8|] eqn:H8; simpl in Hm; [|done].
  destruct (as_dict a9) as [x9|] eqn:H9; simpl in Hm; [|done].
  destruct (as_list as_str a10) as [x10|] eqn:H10; simpl in Hm; [|done].
  destruct (as_list as_dict a11) as [x11|] eqn:H11; simpl in Hm; [|done].
  destruct (as_list as_dict a12) as [x12|] eqn:H12; simpl in Hm; [|done].
  destruct (as_optional as_dict a13) as [x13|]; simpl in Hm; [|done].
  injection Hm as <-. simpl.
  apply as_str_inv in H1, H2.
  apply as_optional_str_inv in H3, H4, H5.
  apply as_list_dict_inv in H6, H7, H11, H12.
  apply as_dict_inv in H9. apply as_list_str_inv in H10.
  done.
Qed.

(** ** The assembly, read backwards *)

(** The fields of the extracted dictionary that the assembly reads. *)
Record reads : Type := {
  read_experiences : list pyval;
  read_positions : list pyval;
  read_certifications : list pyval;
  read_projects : list pyval;
}.

Lemma create_metadata_fields (state state' : AgentState) :
  create_metadata state = Ok state' ->
  exists (extracted : dict) (meta : ResumeMetadata) (r : reads),
    state !! "extracted_info" = Some (SVal (VDict extracted))
    /\ state' !! "resume_metadata" = Some (SMeta meta)
    /\ (py_iter (dict_get extracted "experiences" (VList []))
        = Ok (read_experiences r)
        /\ traverse format_experience (read_experiences r)
           = Ok (VDict <$> experiences meta))
    /\ (py_iter (dict_get extracted "positions_of_responsibility" (VList []))
        = Ok (read_positions r)
        /\ traverse format_por (read_positions r)
           = Ok (VDict <$> positions_of_responsibility meta))
    /\ (py_iter (dict_get extracted "certifications" (VList []))
        = Ok (read_certifications r)
        /\ traverse format_certification (read_certifications r)
           = Ok (VDict <$> certifications meta))
    /\ (raw_projects state (SVal (VDict extracted)) = Ok (read_projects r)
        /\ traverse format_project (read_projects r)
           = Ok (VDict <$> projects meta))
    /\ (dict_get extracted "name" (VStr "John Doe") = VStr (name meta)
        /\ dict_get extracted "email" (VStr "john@example.com")
           = VStr (email meta)
        /\ dict_get extracted "phone" VNone = dump_optional_str (phone meta)
        /\ dict_get extracted "github" VNone
           = dump_optional_str (github meta)
        /\ dict_get extracted "linkedin" VNone
           = dump_optional_str (linkedin meta)
        /\ dict_get extracted "education" (VList [])
           = VList (VDict <$> education meta)
        /\ dict_get extracted "soft_skills" (VList [])
           = dump_strs (soft_skills meta))
    /\ skills_argument state (SVal (VDict extracted))
       = Ok (VDict (technical_skills meta)).
Proof.
  unfold create_metadata, state_item. intros Hrun.
  destruct (state !! "extracted_info") as [ext|] eqn:Hext; [|done].
  simpl in Hrun.
  apply bind_ok in Hrun as (exps & Hexps & Hrun).
  destruct ext as [[| | |?|extracted]| |]; try done.
  apply bind_ok in Hrun as (exps' & Hexps' & Hrun).
  apply bind_ok in Hrun as (fexps & Hfexps & Hrun).
  apply bind_ok in Hrun as (pors & Hpors & Hrun).
  apply bind_ok in Hrun as (pors' & Hpors' & Hrun).
  apply bind_ok in Hrun as (fpors & Hfpors & Hrun).
  apply bind_ok in Hrun as (certs & Hcerts & Hrun).
  apply bind_ok in Hrun as (certs' & Hcerts' & Hrun).
  apply bind_ok in Hrun as (fcerts & Hfcerts & Hrun).
  apply bind_ok in Hrun as (raw & Hraw & Hrun).
  apply bind_ok in Hrun as (fprojs & Hfprojs & Hrun).
  apply bind_ok in Hrun as (raw_coding & _ & Hrun).
  apply bind_ok in Hrun as (coding & _ & Hrun).
  apply bind_ok in Hrun as (name & Hname & Hrun).
  apply bind_ok in Hrun as (email & Hemail & Hrun).
  apply bind_ok in Hrun as (phone & Hphone & Hrun).
  apply bind_ok in Hrun as (github & Hgithub & Hrun).
  apply bind_ok in Hrun as (linkedin & Hlinkedin & Hrun).
  apply bind_ok in Hrun as (education & Heducation & Hrun).
  apply bind_ok in Hrun as (skills & Hskills & Hrun).
  apply bind_ok in Hrun as (soft & Hsoft & Hrun).
  apply bind_ok in Hrun as (meta & Hmeta & Hrun).
  pose proof (new_ResumeMetadata_inv _ _ _ _ _ _ _ _ _ _ _ _ _ _ Hmeta)
    as [Hprojects _].
  apply new_ResumeMetadata_fields in Hmeta
    as (-> & -> & -> & -> & -> & Hfe & -> & -> & -> & Hfp & Hfc).
  injection Hprojects as ->. injection Hfe as ->. injection Hfp as ->.
  injection Hfc as ->. injection Hrun as <-.
  simpl in Hexps, Hpors, Hcerts, Hname, Hemail, Hphone, Hgithub, Hlinkedin,
    Heducation, Hsoft.
  injection Hexps as <-. injection Hpors as <-. injection Hcerts as <-.
  injection Hname as Hname. injection Hemail as Hemail.
  injection Hphone as Hphone. injection Hgithub as Hgithub.
  injection Hlinkedin as Hlinkedin. injection Heducation as Heducation.
  injection Hsoft as Hsoft.
  exists extracted, meta,
    {| read_experiences := exps'; read_positions := pors';
       read_certifications := certs'; read_projects := raw |}.
  split; [done|]. split.
  { rewrite lookup_insert_ne by done. by rewrite lookup_insert_eq. }
  done.
Qed.

(** ** Fields copied from the extracted dictionary *)

(** X9.  Whenever the assembly returns, the name of the record is the
    value stored under [name] in the extracted dictionary, and is
    ["John Doe"] only when the key is missing (a key that is present with
    [None] or any other non-string makes the construction fail rather
    than fall back to the default); likewise for the e-mail address.  The
    optional contact fields, the education list and the soft skills are
    the extracted values, unchanged. *)
Theorem create_metadata_copies_fields (state state' : AgentState) :
  create_metadata state = Ok state' ->
  exists (extracted : dict) (meta : ResumeMetadata),
    state !! "extracted_info" = Some (SVal (VDict extracted))
    /\ state' !! "resume_metadata" = Some (SMeta meta)
    /\ match dict_lookup extracted (KStr "name") with
       | Some v => v = VStr (name meta)
       | None => name meta = "John Doe"
       end
    /\ match dict_lookup extracted (KStr "email") with
       | Some v => v = VStr (email meta)
       | None => email meta = "john@example.com"
       end
    /\ dict_get extracted "phone" VNone = dump_optional_str (phone meta)
    /\ dict_get extracted "github" VNone = dump_optional_str (github meta)
    /\ dict_get extracted "linkedin" VNone
       = dump_optional_str (linkedin meta)
    /\ dict_get extracted "education" (VList [])
       = VList (VDict <$> education meta)
    /\ dict_get extracted "soft_skills" (VList [])
       = dump_strs (soft_skills meta).
Proof.
  intros (extracted & meta & r & Hext & Hmeta & _ & _ & _ & _
          & (Hname & Hemail & Hphone & Hgithub & Hlinkedin & Hedu & Hsoft)
          & _)%create_metadata_fields.
  exists extracted, meta. repeat (split; [done|]).
  unfold dict_get in Hname, Hemail.
  split; [|split; [|done]].
  - destruct (dict_lookup extracted (KStr "name")); [done|].
    by injection Hname.
  - destruct (dict_lookup extracted (KStr "email")); [done|].
    by injection Hemail.
Qed.

Lemma create_metadata_copies_fields_witness :
  exists (extracted : dict) (meta : ResumeMetadata),
    example_state !! "extracted_info" = Some (SVal (VDict extracted))
    /\ example_assembled !! "resume_metadata" = Some (SMeta meta)
    /\ match dict_lookup extracted (KStr "name") with
       | Some v => v = VStr (name meta)
       | None => name meta = "John Doe"
       end
    /\ match dict_lookup extracted (KStr "email") with
       | Some v => v = VStr (email meta)
       | None => email meta = "john@example.com"
       end
    /\ dict_get extracted "phone" VNone = dump_optional_str (phone meta)
    /\ dict_get extracted "github" VNone = dump_optional_str (github meta)
    /\ dict_get extracted "linkedin" VNone
       = dump_optional_str (linkedin meta)
    /\ dict_get extracted "education" (VList [])
       = VList (VDict <$> education meta)
    /\ dict_get extracted "soft_skills" (VList [])
       = dump_strs (soft_skills meta).
Proof.
  apply (create_metadata_copies_fields example_state example_assembled).
  exact example_assembly.
Defined.

(** ** Technical skills *)

(** X10.  Whenever the assembly returns, the skills of the record are the
    generated skills when those are truthy, which then are a dictionary,
    and otherwise (key missing, [None], empty dictionary, any falsy
    value) the [technical_skills] of the extracted dictionary, or the
    empty dictionary when that key is missing. *)
Theorem skills_precedence (state state' : AgentState) :
  create_metadata state = Ok state' ->
  exists (extracted : dict) (meta : ResumeMetadata),
    state !! "extracted_info" = Some (SVal (VDict extracted))
    /\ state' !! "resume_metadata" = Some (SMeta meta)
    /\ if slot_truthy (state_get state "generated_skills")
       then state !! "generated_skills"
            = Some (SVal (VDict (technical_skills meta)))
            /\ technical_skills meta <> []
       else dict_get extracted "technical_skills" (VDict [])
            = VDict (technical_skills meta).
Proof.
  intros (extracted & meta & r & Hext & Hmeta & _ & _ & _ & _ & _
          & Hskills)%create_metadata_fields.
  exists extracted, meta. repeat (split; [done|]).
  unfold skills_argument, state_get in *.
  destruct (state !! "generated_skills") as [[v| |]|] eqn:Hgen; simpl in *.
  - destruct (truthy v) eqn:Htruthy.
    + injection Hskills as ->. split; [done|].
      by intros Hnil; rewrite Hnil in Htruthy.
    + by injection Hskills.
  - done.
  - destruct (negb _); [done|]. by injection Hskills.
  - by injection Hskills.
Qed.

Lemma skills_precedence_witness :
  exists (extracted : dict) (meta : ResumeMetadata),
    example_state !! "extracted_info" = Some (SVal (VDict extracted))
    /\ example_assembled !! "resume_metadata" = Some (SMeta meta)
    /\ if slot_truthy (state_get example_state "generated_skills")
       then example_state !! "generated_skills"
            = Some (SVal (VDict (technical_skills meta)))
            /\ technical_skills meta <> []
       else dict_get extracted "technical_skills" (VDict [])
            = VDict (technical_skills meta).
Proof.
  apply (skills_precedence example_state example_assembled).
  exact example_assembly.
Defined.

(** ** Entries rebuilt key by key *)

(** The keys an entry is rebuilt from, each with its default. *)
Definition pick (fields : list (string * pyval)) (d : dict) : dict :=
  (fun field => (KStr field.1, dict_get d field.1 field.2)) <$> fields.

Definition experience_fields : list (string * pyval) :=
  [("company", VStr ""); ("role", VStr ""); ("duration", VStr "");
   ("achievements", VList [])].

Definition por_fields : list (string * pyval) :=
  [("organization", VStr ""); ("role", VStr ""); ("duration", VStr "");
   ("location", VStr ""); ("description", VStr "")].

Definition certification_fields : list (string * pyval) :=
  [("name", VStr ""); ("issuer", VStr ""); ("date", VStr "")].

Definition project_fields : list (string * pyval) :=
  [("name", VStr ""); ("technologies", VList []); ("date", VStr "");
   ("achievements", VList [])].

(** An entry of the record against the entry it was made from. *)
Definition rebuilt (fields : list (string * pyval)) (source : pyval)
    (entry : dict) : Prop :=
  exists d : dict, source = VDict d /\ entry = pick fields d.

Lemma traverse_Forall2 {A B} (f : A -> result B) (P : A -> B -> Prop)
    (xs : list A) (ys : list B) :
  (forall x y, f x = Ok y -> P x y) ->
  traverse f xs = Ok ys -> Forall2 P xs ys.
Proof.
  intros Hf. revert ys. induction xs as [|x xs IH]; intros ys Hys.
  - injection Hys as <-. constructor.
  - cbn [traverse] in Hys.
    apply bind_ok in Hys as (y & Hy & Hys).
    apply bind_ok in Hys as (ys' & Hys' & Hys).
    injection Hys as <-. constructor; auto.
Qed.

Lemma Forall2_fmap_VDict (P : pyval -> dict -> Prop) (xs : list pyval)
    (ds : list dict) :
  Forall2 (fun x v => exists d, v = VDict d /\ P x d) xs (VDict <$> ds) ->
  Forall2 P xs ds.
Proof.
  revert xs. induction ds as [|d ds IH]; intros xs Hall.
  - inversion Hall. constructor.
  - rewrite fmap_cons in Hall.
    inversion Hall as [|x v xs' vs (d' & Hd & HP) Hrest]; subst.
    injection Hd as <-. constructor; auto.
Qed.

Lemma format_experience_rebuilt (source v : pyval) :
  format_experience source = Ok v ->
  exists d, v = VDict d /\ rebuilt experience_fields source d.
Proof.
  destruct source as [| | | |d]; try done. intros [= <-].
  eexists. split; [done|]. by exists d.
Qed.

Lemma format_por_rebuilt (source v : pyval) :
  format_por source = Ok v ->
  exists d, v = VDict d /\ rebuilt por_fields source d.
Proof.
  destruct source as [| | | |d]; try done. intros [= <-].
  eexists. split; [done|]. by exists d.
Qed.

Lemma format_certification_rebuilt (source v : pyval) :
  format_certification source = Ok v ->
  exists d, v = VDict d /\ rebuilt certification_fields source d.
Proof.
  destruct source as [| | | |d]; try done. intros [= <-].
  eexists. split; [done|]. by exists d.
Qed.

Lemma format_project_rebuilt (source v : pyval) :
  format_project source = Ok v ->
  exists d, v = VDict d /\ rebuilt project_fields source d.
Proof.
  destruct source as [| | | |d]; try done. intros [= <-].
  eexists. split; [done|]. by exists d.
Qed.

(** X11.  Whenever the assembly returns, the experiences, positions,
    certifications and projects of the record correspond one to one, in
    order, to the entries they were read from; each source entry is a
    dictionary, and each entry of the record holds exactly the fixed keys
    of its kind in the fixed order, a key missing from the source entry
    receiving its default and any other key of the source entry being
    dropped. *)
Theorem create_metadata_rebuilds_entries (state state' : AgentState) :
  create_metadata state = Ok state' ->
  exists (extracted : dict) (meta : ResumeMetadata)
         (exps pors certs projs : list pyval),
    state !! "extracted_info" = Some (SVal (VDict extracted))
    /\ state' !! "resume_metadata" = Some (SMeta meta)
    /\ py_iter (dict_get extracted "experiences" (VList [])) = Ok exps
    /\ py_iter (dict_get extracted "positions_of_responsibility" (VList []))
       = Ok pors
    /\ py_iter (dict_get extracted "certifications" (VList [])) = Ok certs
    /\ raw_projects state (SVal (VDict extracted)) = Ok projs
    /\ Forall2 (rebuilt experience_fields) exps (experiences meta)
    /\ Forall2 (rebuilt por_fields) pors (positions_of_responsibility meta)
    /\ Forall2 (rebuilt certification_fields) certs (certifications meta)
    /\ Forall2 (rebuilt project_fields) projs (projects meta).
Proof.
  intros (extracted & meta & [exps pors certs projs] & Hext & Hmeta
          & [Hexps Hfe] & [Hpors Hfp] & [Hcerts Hfc] & [Hprojs Hfj] & _
         )%create_metadata_fields.
  simpl in *.
  exists extracted, meta, exps, pors, certs, projs.
  repeat (split; [done|]).
  split; [|split; [|split]]; apply Forall2_fmap_VDict.
  - eapply traverse_Forall2; [|exact Hfe]. apply format_experience_rebuilt.
  - eapply traverse_Forall2; [|exact Hfp]. apply format_por_rebuilt.
  - eapply traverse_Forall2; [|exact Hfc].
    apply format_certification_rebuilt.
  - eapply traverse_Forall2; [|exact Hfj]. apply format_project_rebuilt.
Qed.

Lemma create_metadata_rebuilds_entries_witness :
  exists (extracted : dict) (meta : ResumeMetadata)
         (exps pors certs projs : list pyval),
    sparse_state !! "extracted_info" = Some (SVal (VDict extracted))
    /\ sparse_assembled !! "resume_metadata" = Some (SMeta meta)
    /\ py_iter (dict_get extracted "experiences" (VList [])) = Ok exps
    /\ py_iter (dict_get extracted "positions_of_responsibility" (VList []))
       = Ok pors
    /\ py_iter (dict_get extracted "certifications" (VList [])) = Ok certs
    /\ raw_projects sparse_state (SVal (VDict extracted)) = Ok projs
    /\ Forall2 (rebuilt experience_fields) exps (experiences meta)
    /\ Forall2 (rebuilt por_fields) pors (positions_of_responsibility meta)
    /\ Forall2 (rebuilt certification_fields) certs (certifications meta)
    /\ Forall2 (rebuilt project_fields) projs (projects meta).
Proof.
  apply (create_metadata_rebuilds_entries sparse_state sparse_assembled).
  exact sparse_assembly.
Defined.

(** ** Assembly of what the first three stages store *)

(** The record built from an extracted instance, the generated projects
    and the generated skills. *)
Definition assemble (info : ExtractedResumeInfo.t)
    (generated : list Project.t) (skills : dict) : ResumeMetadata :=
  {| name := ExtractedResumeInfo.name info;
     email := ExtractedResumeInfo.email info;
     phone := ExtractedResumeInfo.phone info;
     github := ExtractedResumeInfo.github info;
     linkedin := ExtractedResumeInfo.linkedin info;
     experiences :=
       WorkExperience.model_dump <$> ExtractedResumeInfo.experiences info;
     education :=
       Education.model_dump <$> ExtractedResumeInfo.education info;
     projects :=
       Project.model_dump
         <$> match generated with
             | [] => ExtractedResumeInfo.projects info
             | _ => generated
             end;
     technical_skills :=
       match skills with
       | [] => ExtractedResumeInfo.technical_skills info
       | _ => skills
       end;
     soft_skills := ExtractedResumeInfo.soft_skills info;
     positions_of_responsibility :=
       PositionOfResponsibility.model_dump
         <$> ExtractedResumeInfo.positions_of_responsibility info;
     certifications :=
       Certification.model_dump <$> ExtractedResumeInfo.certifications info;
     coding_stats := platform_map <$> ExtractedResumeInfo.coding_stats info |}.

Lemma traverse_dump {A} (format : pyval -> result pyval)
    (model_dump : A -> dict) (xs : list A) :
  (forall x, format (VDict (model_dump x)) = Ok (VDict (model_dump x))) ->
  traverse format ((fun x => VDict (model_dump x)) <$> xs)
  = Ok (VDict <$> (model_dump <$> xs)).
Proof.
  intros Hformat. induction xs as [|x xs IH]; [done|].
  rewrite !fmap_cons. cbn [traverse]. by rewrite Hformat, IH.
Qed.

Lemma dump_models_fmap {A} (model_dump : A -> dict) (xs : list A) :
  dump_models model_dump xs = VList (VDict <$> (model_dump <$> xs)).
Proof. unfold dump_models. f_equal. by rewrite <- list_fmap_compose. Qed.

Lemma format_experience_dump (x : WorkExperience.t) :
  format_experience (VDict (WorkExperience.model_dump x))
  = Ok (VDict (WorkExperience.model_dump x)).
Proof. by destruct x. Qed.

Lemma format_por_dump (x : PositionOfResponsibility.t) :
  format_por (VDict (PositionOfResponsibility.model_dump x))
  = Ok (VDict (PositionOfResponsibility.model_dump x)).
Proof. by destruct x. Qed.

Lemma format_certification_dump (x : Certification.t) :
  format_certification (VDict (Certification.model_dump x))
  = Ok (VDict (Certification.model_dump x)).
Proof. by destruct x. Qed.

Lemma as_list_dict_dump (ds : list dict) :
  as_list as_dict (VList (VDict <$> ds)) = Some ds.
Proof. simpl. by apply mapM_as_dict. Qed.

Lemma as_list_str_dump (ss : list string) :
  as_list as_str (dump_strs ss) = Some ss.
Proof. unfold dump_strs. simpl. by apply mapM_as_str. Qed.

Lemma as_optional_str_dump (o : option string) :
  as_optional as_str (dump_optional_str o) = Some o.
Proof. by destruct o. Qed.

(** Arguments of the declared types are accepted as they are. *)
Lemma new_ResumeMetadata_typed (m : ResumeMetadata) :
  new_ResumeMetadata (VStr (name m)) (VStr (email m))
    (dump_optional_str (phone m)) (dump_optional_str (github m))
    (dump_optional_str (linkedin m)) (VList (VDict <$> experiences m))
    (VList (VDict <$> education m)) (VList (VDict <$> projects m))
    (VDict (technical_skills m)) (dump_strs (soft_skills m))
    (VList (VDict <$> positions_of_responsibility m))
    (VList (VDict <$> certifications m))
    (match coding_stats m with Some d => VDict d | None => VNone end)
  = Ok m.
Proof.
  unfold new_ResumeMetadata.
  rewrite !as_optional_str_dump, !as_list_dict_dump, as_list_str_dump.
  destruct m as [? ? ? ? ? ? ? ? ? ? ? ? [d|]]; reflexivity.
Qed.

Lemma raw_projects_dump (state : AgentState) (info : ExtractedResumeInfo.t)
    (generated : list Project.t) :
  state !! "generated_projects"
  = Some (SVal (dump_models Project.model_dump generated)) ->
  raw_projects state (SVal (VDict (ExtractedResumeInfo.model_dump info)))
  = Ok ((fun p => VDict (Project.model_dump p))
          <$> match generated with
              | [] => ExtractedResumeInfo.projects info
              | _ => generated
              end).
Proof.
  intros Hgen. unfold raw_projects, state_get, state_item. rewrite Hgen.
  by destruct generated.
Qed.

Lemma skills_argument_dump (state : AgentState) (info : ExtractedResumeInfo.t)
    (skills : dict) :
  state !! "generated_skills" = Some (SVal (VDict skills)) ->
  skills_argument state (SVal (VDict (ExtractedResumeInfo.model_dump info)))
  = Ok (VDict match skills with
              | [] => ExtractedResumeInfo.technical_skills info
              | _ => skills
              end).
Proof.
  intros Hgen. unfold skills_argument, state_get. rewrite Hgen.
  by destruct skills.
Qed.

Lemma normalize_coding_stats_dump (info : ExtractedResumeInfo.t) :
  normalize_coding_stats
    (dict_get (ExtractedResumeInfo.model_dump info) "coding_stats" VNone)
  = Ok (match platform_map <$> ExtractedResumeInfo.coding_stats info with
        | Some d => VDict d
        | None => VNone
        end).
Proof.
  change (dict_get (ExtractedResumeInfo.model_dump info) "coding_stats" VNone)
    with (match ExtractedResumeInfo.coding_stats info with
          | Some cs => dump_models CodingStats.model_dump cs
          | None => VNone
          end).
  destruct (ExtractedResumeInfo.coding_stats info) as [cs|]; [|done].
  unfold dump_models, normalize_coding_stats.
  by rewrite coding_comprehension_dump.
Qed.

(** The assembly of a state that holds what the first three stages
    store. *)
Lemma create_metadata_dumps (state : AgentState)
    (info : ExtractedResumeInfo.t) (generated : list Project.t)
    (skills : dict) :
  state !! "extracted_info"
  = Some (SVal (VDict (ExtractedResumeInfo.model_dump info))) ->
  state !! "generated_projects"
  = Some (SVal (dump_models Project.model_dump generated)) ->
  state !! "generated_skills" = Some (SVal (VDict skills)) ->
  create_metadata state
  = Ok (<["messages" := SMessages [HumanMessage "Created resume metadata"]]>
          (<["resume_metadata" := SMeta (assemble info generated skills)]>
             state)).
Proof.
  intros Hext Hgen Hskills. unfold create_metadata, state_item.
  rewrite Hext. cbn [mbind result_bind].
  rewrite (raw_projects_dump _ _ _ Hgen), (skills_argument_dump _ _ _ Hskills).
  unfold slot_get, val_get. cbn [mbind result_bind].
  rewrite normalize_coding_stats_dump.
  change (dict_get (ExtractedResumeInfo.model_dump info) "experiences"
            (VList []))
    with (dump_models WorkExperience.model_dump
            (ExtractedResumeInfo.experiences info)).
  change (dict_get (ExtractedResumeInfo.model_dump info)
            "positions_of_responsibility" (VList []))
    with (dump_models PositionOfResponsibility.model_dump
            (ExtractedResumeInfo.positions_of_responsibility info)).
  change (dict_get (ExtractedResumeInfo.model_dump info) "certifications"
            (VList []))
    with (dump_models Certification.model_dump
            (ExtractedResumeInfo.certifications info)).
  unfold dump_models. cbn [py_iter mbind result_bind].
  rewrite (traverse_dump _ _ _ format_experience_dump),
    (traverse_dump _ _ _ format_por_dump),
    (traverse_dump _ _ _ format_certification_dump),
    (traverse_dump _ _ _ format_project_dump).
  cbn [mbind result_bind].
  change (dict_get (ExtractedResumeInfo.model_dump info) "name"
            (VStr "John Doe"))
    with (VStr (ExtractedResumeInfo.name info)).
  change (dict_get (ExtractedResumeInfo.model_dump info) "email"
            (VStr "john@example.com"))
    with (VStr (ExtractedResumeInfo.email info)).
  change (dict_get (ExtractedResumeInfo.model_dump info) "phone" VNone)
    with (dump_optional_str (ExtractedResumeInfo.phone info)).
  change (dict_get (ExtractedResumeInfo.model_dump info) "github" VNone)
    with (dump_optional_str (ExtractedResumeInfo.github info)).
  change (dict_get (ExtractedResumeInfo.model_dump info) "linkedin" VNone)
    with (dump_optional_str (ExtractedResumeInfo.linkedin info)).
  change (dict_get (ExtractedResumeInfo.model_dump info) "education"
            (VList []))
    with (dump_models Education.model_dump
            (ExtractedResumeInfo.education info)).
  rewrite dump_models_fmap.
  change (dict_get (ExtractedResumeInfo.model_dump info) "soft_skills"
            (VList []))
    with (dump_strs (ExtractedResumeInfo.soft_skills info)).
  match goal with
  | |- ?m ≫= _ = _ =>
    assert (m = Ok (assemble info generated skills)) as ->
      by exact (new_ResumeMetadata_typed (assemble info generated skills))
  end.
  done.
Qed.

(** X12.  On a state that holds what the first three stages store (the
    dump of an extracted instance, the dumps of the generated projects
    and a skills dictionary) the assembly always returns, and its record
    is made of the dumps themselves: validated entries go through the
    key-by-key rebuilding unchanged, generated projects and skills
    replace the extracted ones unless they are empty, and the coding
    statistics become one dictionary from platform to description. *)
Theorem create_metadata_after_generation (state : AgentState)
    (info : ExtractedResumeInfo.t) (generated : list Project.t)
    (skills : dict) :
  state !! "extracted_info"
  = Some (SVal (VDict (ExtractedResumeInfo.model_dump info))) ->
  state !! "generated_projects"
  = Some (SVal (dump_models Project.model_dump generated)) ->
  state !! "generated_skills" = Some (SVal (VDict skills)) ->
  exists state' : AgentState,
    create_metadata state = Ok state'
    /\ state' !! "resume_metadata"
       = Some (SMeta (assemble info generated skills))
    /\ length (projects (assemble info generated skills))
       = match generated with
         | [] => length (ExtractedResumeInfo.projects info)
         | _ => length generated
         end.
Proof.
  intros Hext Hgen Hskills. eexists. split.
  { by apply create_metadata_dumps. }
  split.
  - rewrite lookup_insert_ne by done. by rewrite lookup_insert_eq.
  - simpl. rewrite length_fmap. by destruct generated.
Qed.

Lemma create_metadata_after_generation_witness :
  exists state' : AgentState,
    create_metadata example_state = Ok state'
    /\ state' !! "resume_metadata" = Some (SMeta example_metadata)
    /\ length (projects example_metadata) = 1.
Proof.
  apply (create_metadata_after_generation example_state example_extracted
           [example_project] [(KStr "Tools", VList [VStr "Git"])]);
    vm_compute; reflexivity.
Defined.

End AssemblyMore.

(* ===================================================================== *)
(** * Which projects the assembly takes                                   *)
(* ===================================================================== *)

Module PrecedenceFacts.
Import Agentstate Main StageFacts AssemblyFacts AssemblyMore.

(** The generated skills of a state of the pipeline: not written yet, or
    the dictionary that [generate_skills] stores. *)
Definition skills_field (state : AgentState) : Prop :=
  state !! "generated_skills" = None
  \/ state !! "generated_skills" = Some (SVal VNone)
  \/ exists skills : dict,
       state !! "generated_skills" = Some (SVal (VDict skills)).

(** The record assembled from an extracted instance with the given
    projects and skills. *)
Definition assembled_with (info : ExtractedResumeInfo.t)
    (chosen : list Project.t) (skills : dict) : ResumeMetadata :=
  {| name := ExtractedResumeInfo.name info;
     email := ExtractedResumeInfo.email info;
     phone := ExtractedResumeInfo.phone info;
     github := ExtractedResumeInfo.github info;
     linkedin := ExtractedResumeInfo.linkedin info;
     experiences :=
       WorkExperience.model_dump <$> ExtractedResumeInfo.experiences info;
     education :=
       Education.model_dump <$> ExtractedResumeInfo.education info;
     projects := Project.model_dump <$> chosen;
     technical_skills := skills;
     soft_skills := ExtractedResumeInfo.soft_skills info;
     positions_of_responsibility :=
       PositionOfResponsibility.model_dump
         <$> ExtractedResumeInfo.positions_of_responsibility info;
     certifications :=
       Certification.model_dump <$> ExtractedResumeInfo.certifications info;
     coding_stats := platform_map <$> ExtractedResumeInfo.coding_stats info |}.

Lemma skills_argument_field (state : AgentState)
    (info : ExtractedResumeInfo.t) :
  skills_field state ->
  exists skills : dict,
    skills_argument state (SVal (VDict (ExtractedResumeInfo.model_dump info)))
    = Ok (VDict skills).
Proof.
  unfold skills_argument, state_get.
  intros [-> | [-> | [skills ->]]]; [by eexists..|].
  destruct skills; by eexists.
Qed.

Lemma raw_projects_absent (state : AgentState)
    (info : ExtractedResumeInfo.t) :
  generated_absent state ->
  raw_projects state (SVal (VDict (ExtractedResumeInfo.model_dump info)))
  = Ok ((fun p => VDict (Project.model_dump p))
          <$> ExtractedResumeInfo.projects info).
Proof.
  unfold raw_projects, state_get. by intros [-> | [-> | ->]].
Qed.

Lemma raw_projects_generated (state : AgentState)
    (info : ExtractedResumeInfo.t) (generated : list Project.t) :
  state !! "generated_projects"
  = Some (SVal (dump_models Project.model_dump generated)) ->
  generated <> [] ->
  raw_projects state (SVal (VDict (ExtractedResumeInfo.model_dump info)))
  = Ok ((fun p => VDict (Project.model_dump p)) <$> generated).
Proof.
  intros Hgen Hne. rewrite (raw_projects_dump _ _ _ Hgen).
  by destruct generated.
Qed.

(** The assembly of an extracted instance, for the projects and the skills
    that the state makes it take. *)
Lemma create_metadata_chosen (state : AgentState)
    (info : ExtractedResumeInfo.t) (chosen : list Project.t) (skills : dict) :
  state !! "extracted_info"
  = Some (SVal (VDict (ExtractedResumeInfo.model_dump info))) ->
  raw_projects state (SVal (VDict (ExtractedResumeInfo.model_dump info)))
  = Ok ((fun p => VDict (Project.model_dump p)) <$> chosen) ->
  skills_argument state (SVal (VDict (ExtractedResumeInfo.model_dump info)))
  = Ok (VDict skills) ->
  create_metadata state
  = Ok (<["messages" := SMessages [HumanMessage "Created resume metadata"]]>
          (<["resume_metadata" := SMeta (assembled_with info chosen skills)]>
             state)).
Proof.
  intros Hext Hraw Hskills. unfold create_metadata, state_item.
  rewrite Hext. cbn [mbind result_bind].
  rewrite Hraw, Hskills.
  unfold slot_get, val_get. cbn [mbind result_bind].
  rewrite normalize_coding_stats_dump.
  change (dict_get (ExtractedResumeInfo.model_dump info) "experiences"
            (VList []))
    with (dump_models WorkExperience.model_dump
            (ExtractedResumeInfo.experiences info)).
  change (dict_get (ExtractedResumeInfo.model_dump info)
            "positions_of_responsibility" (VList []))
    with (dump_models PositionOfResponsibility.model_dump
            (ExtractedResumeInfo.positions_of_responsibility info)).
  change (dict_get (ExtractedResumeInfo.model_dump info) "certifications"
            (VList []))
    with (dump_models Certification.model_dump
            (ExtractedResumeInfo.certifications info)).
  unfold dump_models. cbn [py_iter mbind result_bind].
  rewrite (traverse_dump _ _ _ format_experience_dump),
    (traverse_dump _ _ _ format_por_dump),
    (traverse_dump _ _ _ format_certification_dump),
    (traverse_dump _ _ _ format_project_dump).
  cbn [mbind result_bind].
  change (dict_get (ExtractedResumeInfo.model_dump info) "name"
            (VStr "John Doe"))
    with (VStr (ExtractedResumeInfo.name info)).
  change (dict_get (ExtractedResumeInfo.model_dump info) "email"
            (VStr "john@example.com"))
    with (VStr (ExtractedResumeInfo.email info)).
  change (dict_get (ExtractedResumeInfo.model_dump info) "phone" VNone)
    with (dump_optional_str (ExtractedResumeInfo.phone info)).
  change (dict_get (ExtractedResumeInfo.model_dump info) "github" VNone)
    with (dump_optional_str (ExtractedResumeInfo.github info)).
  change (dict_get (ExtractedResumeInfo.model_dump info) "linkedin" VNone)
    with (dump_optional_str (ExtractedResumeInfo.linkedin info)).
  change (dict_get (ExtractedResumeInfo.model_dump info) "education"
            (VList []))
    with (dump_models Education.model_dump
            (ExtractedResumeInfo.education info)).
  rewrite dump_models_fmap.
  change (dict_get (ExtractedResumeInfo.model_dump info) "soft_skills"
            (VList []))
    with (dump_strs (ExtractedResumeInfo.soft_skills info)).
  match goal with
  | |- ?m ≫= _ = _ =>
    assert (m = Ok (assembled_with info chosen skills)) as ->
      by exact (new_ResumeMetadata_typed (assembled_with info chosen skills))
  end.
  done.
Qed.

(** C4.  On a state of the pipeline (the extracted information is the
    dump of an extracted instance, the generated skills are not written
    yet or a dictionary) the assembly returns, and the projects of its
    record are those of one source only.  When the generated-projects
    field is the non-empty list that [generate_projects] has stored, the
    projects of the record are equal to that list, entry for entry, with
    nothing of the extracted projects merged in or appended.  When the
    field is missing, [None] or the empty list, they are equal to the
    projects of the extracted information. *)
Theorem projects_precedence (state : AgentState)
    (info : ExtractedResumeInfo.t) :
  state !! "extracted_info"
  = Some (SVal (VDict (ExtractedResumeInfo.model_dump info))) ->
  skills_field state ->
  (forall generated : list Project.t,
      state !! "generated_projects"
      = Some (SVal (dump_models Project.model_dump generated)) ->
      generated <> [] ->
      exists (state' : AgentState) (meta : ResumeMetadata),
        create_metadata state = Ok state'
        /\ state' !! "resume_metadata" = Some (SMeta meta)
        /\ state !! "generated_projects"
           = Some (SVal (VList (VDict <$> projects meta)))
        /\ projects meta = Project.model_dump <$> generated)
  /\ (generated_absent state ->
      exists (state' : AgentState) (meta : ResumeMetadata),
        create_metadata state = Ok state'
        /\ state' !! "resume_metadata" = Some (SMeta meta)
        /\ dict_get (ExtractedResumeInfo.model_dump info) "projects" (VList [])
           = VList (VDict <$> projects meta)
        /\ projects meta
           = Project.model_dump <$> ExtractedResumeInfo.projects info).
Proof.
  intros Hext Hfield.
  destruct (skills_argument_field state info Hfield) as [skills Hskills].
  split.
  - intros generated Hgen Hne.
    pose proof (raw_projects_generated _ info _ Hgen Hne) as Hraw.
    eexists _, (assembled_with info generated skills).
    split; [exact (create_metadata_chosen _ _ _ _ Hext Hraw Hskills)|].
    split; [rewrite lookup_insert_ne by done; by rewrite lookup_insert_eq|].
    split; [|done].
    rewrite Hgen. cbn [projects assembled_with].
    by rewrite dump_models_fmap.
  - intros Habsent.
    pose proof (raw_projects_absent _ info Habsent) as Hraw.
    eexists _,
      (assembled_with info (ExtractedResumeInfo.projects info) skills).
    split; [exact (create_metadata_chosen _ _ _ _ Hext Hraw Hskills)|].
    split; [rewrite lookup_insert_ne by done; by rewrite lookup_insert_eq|].
    split; [|done].
    change (dict_get (ExtractedResumeInfo.model_dump info) "projects"
              (VList []))
      with (dump_models Project.model_dump
              (ExtractedResumeInfo.projects info)).
    cbn [projects assembled_with]. by rewrite dump_models_fmap.
Qed.

Lemma projects_precedence_witness :
  (exists (state' : AgentState) (meta : ResumeMetadata),
      create_metadata example_state = Ok state'
      /\ state' !! "resume_metadata" = Some (SMeta meta)
      /\ example_state !! "generated_projects"
         = Some (SVal (VList (VDict <$> projects meta)))
      /\ projects meta = Project.model_dump <$> [example_project])
  /\ (exists (state' : AgentState) (meta : ResumeMetadata),
         create_metadata fallback_state = Ok state'
         /\ state' !! "resume_metadata" = Some (SMeta meta)
         /\ dict_get (ExtractedResumeInfo.model_dump example_extracted)
              "projects" (VList [])
            = VList (VDict <$> projects meta)
         /\ projects meta
            = Project.model_dump
                <$> ExtractedResumeInfo.projects example_extracted).
Proof.
  split.
  - apply (proj1 (projects_precedence example_state example_extracted
                    ltac:(vm_compute; reflexivity)
                    ltac:(right; right; eexists; vm_compute; reflexivity))
             [example_project]);
      [vm_compute; reflexivity | discriminate].
  - apply (proj2 (projects_precedence fallback_state example_extracted
                    ltac:(vm_compute; reflexivity)
                    ltac:(right; right; eexists; vm_compute; reflexivity))).
    right; right. vm_compute; reflexivity.
Defined.

End PrecedenceFacts.

(* ===================================================================== *)
(** * The workflow graph                                                  *)
(* ===================================================================== *)

Module Workflow.
Import Agentstate LatexHandler Main StageFacts.

(** ** [build_graph]

    The five nodes are the stages; the entry point is the extraction and
    each node has one outgoing edge. *)
Inductive target : Type :=
| Node (st : stage)
| END.

Definition entry_point : stage := Extraction.

Definition edge (st : stage) : target :=
  match st with
  | Extraction => Node ProjectGeneration
  | ProjectGeneration => Node SkillsGeneration
  | SkillsGeneration => Node Assembly
  | Assembly => Node Rendering
  | Rendering => END
  end.

(** ** The channels of [StateGraph(AgentState)]

    The graph has one channel per key that [AgentState] declares.  What is
    written to the channels, from the input of a run as from the
    dictionary a node returns, is the entries of the declared keys: an
    entry under any other key is dropped.

    [messages] is declared [Annotated[list, operator.add]]: its channel
    starts from the empty list, and what is written under that key is
    added to what the channel holds.  Every other key keeps the last
    value written to it, and holds nothing before.  The sum is modelled on
    two lists of messages, which is what the channel receives in this
    program (the endpoint passes the empty list and every node returns a
    list of one message); on other operands the model gives no answer. *)
Definition declared : list string :=
  ["resume_text"; "job_description"; "extracted_info"; "generated_projects";
   "generated_skills"; "resume_metadata"; "latex_code"; "messages"].

Definition declared_part (m : AgentState) : AgentState :=
  filter (fun entry => entry.1 ∈ declared) m.

Definition empty_channels : AgentState := {[ "messages" := SMessages [] ]}.

Definition operator_add (a b : slot) : option slot :=
  match a, b with
  | SMessages xs, SMessages ys => Some (SMessages (xs ++ ys))
  | _, _ => None
  end.

Definition apply_update (state update : AgentState) : option AgentState :=
  let update := declared_part update in
  match update !! "messages" with
  | Some new =>
    merged ← operator_add (default (SMessages []) (state !! "messages")) new;
    Some (<["messages" := merged]> (update ∪ state))
  | None => Some (update ∪ state)
  end.

(** ** [graph.invoke]

    The input is written to the channels, then the nodes run one after
    the other along the edges, each on the state the channels hold; an
    exception raised by a node ends the run, and a run that reaches [END]
    returns what the channels hold.  The number of steps is bounded by the
    recursion limit of the library, 25 by default. *)
Section Invoke.
Context `{Runtime} `{ReasoningService}.

Fixpoint steps (limit : nat) (t : target) (state : AgentState)
  : option (result AgentState) :=
  match t, limit with
  | END, _ => Some (Ok state)
  | Node st, S limit' =>
    match run_stage st state with
    | Ok update =>
      state' ← apply_update state update;
      steps limit' (edge st) state'
    | Raise e => Some (Raise e)
    end
  | Node _, O => None
  end.

Definition invoke (input : AgentState) : option (result AgentState) :=
  state ← apply_update empty_channels input;
  steps 25 (Node entry_point) state.

End Invoke.

(** [initial_state] of the [generate_resume] endpoint. *)
Definition initial_state (resume_text job_description : string)
  : AgentState :=
  {[ "resume_text" := SVal (VStr resume_text);
     "job_description" := SVal (VStr job_description);
     "extracted_info" := SVal VNone;
     "generated_projects" := SVal VNone;
     "generated_skills" := SVal VNone;
     "resume_metadata" := SVal VNone;
     "latex_code" := SVal VNone;
     "messages" := SMessages [] ]}.

End Workflow.

Module WorkflowFacts.
Import Agentstate LatexHandler Main RenderFacts StageFacts AssemblyFacts
  AssemblyMore RenderMore Workflow.

(** ** The declared part of a dictionary *)

Lemma declared_part_lookup (m : AgentState) (k : string) :
  declared_part m !! k = if decide (k ∈ declared) then m !! k else None.
Proof.
  unfold declared_part. destruct (decide (k ∈ declared)) as [Hin|Hout].
  - apply option_eq. intros v. rewrite map_lookup_filter_Some.
    split; [by intros [Hv _]|by intros Hv; split].
  - apply map_lookup_filter_None. right. by intros v _.
Qed.

Lemma declared_part_insert (m : AgentState) (k : string) (v : slot) :
  k ∈ declared -> declared_part (<[k := v]> m) = <[k := v]> (declared_part m).
Proof. intros Hin. unfold declared_part. by rewrite map_filter_insert_True. Qed.

Lemma declared_part_idemp (m : AgentState) :
  declared_part (declared_part m) = declared_part m.
Proof.
  apply map_eq. intros k. rewrite !declared_part_lookup.
  by destruct (decide (k ∈ declared)).
Qed.

(** Settles that a key is declared. *)
Ltac is_declared :=
  apply (bool_decide_unpack _); vm_compute; exact I.

(** Settles that a state written through declared keys holds declared
    keys only. *)
Ltac in_schema :=
  repeat match goal with s := _ |- _ => subst s end;
  repeat (rewrite declared_part_insert by is_declared);
  first [ by rewrite declared_part_idemp | congruence ].

(** What the channels hold after a node that returned. *)
Lemma apply_update_stage (state : AgentState) (log : list message)
    (k : string) (v : slot) (msg : message) :
  state !! "messages" = Some (SMessages log) ->
  declared_part state = state ->
  k ∈ declared ->
  apply_update state
    (<["messages" := SMessages [msg]]> (<[k := v]> state))
  = Some (<["messages" := SMessages (log ++ [msg])]> (<[k := v]> state)).
Proof.
  intros Hlog Hstate Hk. unfold apply_update. cbv zeta.
  rewrite !declared_part_insert, Hstate by (done || is_declared).
  rewrite lookup_insert_eq, Hlog. simpl. f_equal.
  rewrite <- !insert_union_l, map_union_idemp.
  by rewrite insert_insert_eq.
Qed.

(** Writing the input to the channels gives its declared part. *)
Lemma apply_update_input (input : AgentState) (log : list message) :
  input !! "messages" = Some (SMessages log) ->
  apply_update empty_channels input = Some (declared_part input).
Proof.
  intros Hlog. unfold apply_update, empty_channels. cbv zeta.
  assert (declared_part input !! "messages" = Some (SMessages log)) as Hpart.
  { rewrite declared_part_lookup. by rewrite decide_True by is_declared. }
  rewrite Hpart, lookup_singleton_eq. simpl. f_equal.
  apply map_eq. intros k. destruct (decide (k = "messages")) as [->|Hk].
  - by rewrite lookup_insert_eq.
  - rewrite lookup_insert_ne by done.
    rewrite lookup_union, lookup_singleton_ne by done.
    by destruct (declared_part input !! k).
Qed.

(** The channels after the input of a run is written. *)
Lemma channels_of_input (input : AgentState) (log : list message)
    (k : string) :
  input !! "messages" = Some (SMessages log) ->
  declared_part input !! "messages" = Some (SMessages log)
  /\ (k ∈ declared -> declared_part input !! k = input !! k).
Proof.
  intros Hlog. rewrite !declared_part_lookup. split.
  - by rewrite decide_True by is_declared.
  - intros Hk. by rewrite decide_True.
Qed.



(** Looks a key up through the writes of a state. *)
Ltac through_inserts :=
  repeat first
    [ rewrite lookup_insert_eq
    | rewrite lookup_insert_ne by done ].

Section Run.
Context `{Runtime} `{ReasoningService}.

(** ** What each of the first three nodes returns *)

Lemma extract_resume_info_inv (state update : AgentState) :
  extract_resume_info state = Ok update ->
  exists (msgs : list message) (info : ExtractedResumeInfo.t),
    extractor_llm msgs = Ok info
    /\ update
       = <["messages" :=
             SMessages [HumanMessage "Extracted information from resume"]]>
           (<["extracted_info" :=
                SVal (VDict (ExtractedResumeInfo.model_dump info))]> state).
Proof.
  unfold extract_resume_info. intros Hrun.
  apply bind_ok in Hrun as (text & _ & Hrun).
  apply bind_ok in Hrun as (info & Hinfo & Hrun).
  injection Hrun as <-. eauto.
Qed.

Lemma generate_projects_inv (state update : AgentState) :
  generate_projects state = Ok update ->
  exists (msgs : list message) (generated : GeneratedProjects.t),
    project_llm msgs = Ok generated
    /\ update
       = <["messages" :=
             SMessages
               [HumanMessage
                  ("Generated "
                   +:+ pretty (length (GeneratedProjects.projects generated))
                   +:+ " relevant projects")]]>
           (<["generated_projects" :=
                SVal (dump_models Project.model_dump
                        (GeneratedProjects.projects generated))]> state).
Proof.
  unfold generate_projects. intros Hrun.
  apply bind_ok in Hrun as (extracted & _ & Hrun).
  apply bind_ok in Hrun as (experiences & _ & Hrun).
  apply bind_ok in Hrun as (summary & _ & Hrun).
  apply bind_ok in Hrun as (description & _ & Hrun).
  apply bind_ok in Hrun as (generated & Hgenerated & Hrun).
  injection Hrun as <-. eauto.
Qed.

Lemma generate_skills_inv (state update : AgentState) :
  generate_skills state = Ok update ->
  exists (msgs : list message) (skills : TechnicalSkills.t),
    skills_llm msgs = Ok skills
    /\ update
       = <["messages" :=
             SMessages [HumanMessage "Generated relevant technical skills"]]>
           (<["generated_skills" :=
                SVal (VDict (TechnicalSkills.skills skills))]> state).
Proof.
  unfold generate_skills. intros Hrun.
  apply bind_ok in Hrun as (description & _ & Hrun).
  apply bind_ok in Hrun as (skills & Hskills & Hrun).
  injection Hrun as <-. eauto.
Qed.

(** ** The state at the end of a run *)

(** The five messages of a run, in the order of the edges. *)
Definition run_log (generated : GeneratedProjects.t) : list message :=
  [ HumanMessage "Extracted information from resume";
    HumanMessage
      ("Generated "
       +:+ pretty (length (GeneratedProjects.projects generated))
       +:+ " relevant projects");
    HumanMessage "Generated relevant technical skills";
    HumanMessage "Created resume metadata";
    HumanMessage "Generated LaTeX code" ].

(** The record a run assembles from the three answers. *)
Definition run_metadata (info : ExtractedResumeInfo.t)
    (generated : GeneratedProjects.t) (skills : TechnicalSkills.t)
  : ResumeMetadata :=
  assemble info (GeneratedProjects.projects generated)
    (TechnicalSkills.skills skills).

Definition run_state (input : AgentState) (log : list message)
    (info : ExtractedResumeInfo.t) (generated : GeneratedProjects.t)
    (skills : TechnicalSkills.t) (document : string) : AgentState :=
  <["messages" := SMessages (log ++ run_log generated)]>
    (<["latex_code" := SVal (VStr document)]>
       (<["resume_metadata" := SMeta (run_metadata info generated skills)]>
          (<["generated_skills" :=
               SVal (VDict (TechnicalSkills.skills skills))]>
             (<["generated_projects" :=
                  SVal (dump_models Project.model_dump
                          (GeneratedProjects.projects generated))]>
                (<["extracted_info" :=
                     SVal (VDict (ExtractedResumeInfo.model_dump info))]>
                   input))))).

(** The state at the end of a run that returns. *)
Lemma invoke_inv (input final : AgentState) (log : list message) :
  input !! "messages" = Some (SMessages log) ->
  invoke input = Some (Ok final) ->
  exists (info : ExtractedResumeInfo.t) (generated : GeneratedProjects.t)
         (skills : TechnicalSkills.t) (document : string),
    ((exists msgs, extractor_llm msgs = Ok info)
     /\ (exists msgs, project_llm msgs = Ok generated)
     /\ (exists msgs, skills_llm msgs = Ok skills))
    /\ render (run_metadata info generated skills) = Ok document
    /\ final
       = run_state (declared_part input) log info generated skills document.
Proof.
  intros Hinput. unfold invoke.
  rewrite (apply_update_input _ _ Hinput).
  destruct (channels_of_input input log "messages" Hinput) as [Hlog _].
  pose proof (declared_part_idemp input) as Hbase.
  generalize dependent (declared_part input). intros base Hlog Hbase.
  cbn [mbind option_bind steps entry_point edge run_stage].
  destruct (extract_resume_info base) as [u1|e] eqn:H1; [|done].
  apply extract_resume_info_inv in H1 as (msgs1 & info & Hinfo & ->).
  rewrite (apply_update_stage _ _ _ _ _ Hlog) by first [is_declared|in_schema].
  cbn [mbind option_bind steps edge run_stage].
  match goal with
  | |- context [generate_projects ?s] => set (s1 := s)
  end.
  assert (s1 !! "messages"
          = Some (SMessages
                    (log ++ [HumanMessage "Extracted information from resume"])))
    as Hlog1 by (subst s1; through_inserts; done).
  destruct (generate_projects s1) as [u2|e] eqn:H2; [|done].
  apply generate_projects_inv in H2 as (msgs2 & generated & Hgenerated & ->).
  rewrite (apply_update_stage _ _ _ _ _ Hlog1)
    by first [is_declared|in_schema].
  cbn [mbind option_bind steps edge run_stage].
  match goal with
  | |- context [generate_skills ?s] => set (s2 := s)
  end.
  assert (exists log2,
             s2 !! "messages" = Some (SMessages log2)
             /\ log2
                = (log ++ [HumanMessage "Extracted information from resume"])
                  ++ [HumanMessage
                        ("Generated "
                         +:+ pretty
                               (length
                                  (GeneratedProjects.projects generated))
                         +:+ " relevant projects")])
    as (log2 & Hlog2 & Hlog2')
    by (eexists; split; [subst s2; through_inserts; done|done]).
  destruct (generate_skills s2) as [u3|e] eqn:H3; [|done].
  apply generate_skills_inv in H3 as (msgs3 & skills & Hskills & ->).
  rewrite (apply_update_stage _ _ _ _ _ Hlog2)
    by first [is_declared|in_schema].
  cbn [mbind option_bind steps edge run_stage].
  match goal with
  | |- context [create_metadata ?s] => set (s3 := s)
  end.
  assert (s3 !! "messages"
          = Some (SMessages
                    (log2
                     ++ [HumanMessage "Generated relevant technical skills"])))
    as Hlog3 by (subst s3; through_inserts; done).
  rewrite (create_metadata_dumps s3 info (GeneratedProjects.projects generated)
             (TechnicalSkills.skills skills))
    by (subst s3 s2 s1; through_inserts; done).
  rewrite (apply_update_stage _ _ _ _ _ Hlog3)
    by first [is_declared|in_schema].
  cbn [mbind option_bind steps edge run_stage].
  match goal with
  | |- context [generate_latex ?s] => set (s4 := s)
  end.
  assert (s4 !! "messages"
          = Some (SMessages
                    ((log2
                      ++ [HumanMessage "Generated relevant technical skills"])
                     ++ [HumanMessage "Created resume metadata"])))
    as Hlog4 by (subst s4; through_inserts; done).
  rewrite (generate_latex_render s4
             (assemble info (GeneratedProjects.projects generated)
                (TechnicalSkills.skills skills)))
    by (subst s4; through_inserts; done).
  destruct (render _) as [document|e] eqn:Hdoc; [|done].
  cbn [mbind result_bind].
  rewrite (apply_update_stage _ _ _ _ _ Hlog4)
    by first [is_declared|in_schema].
  cbn [mbind option_bind steps edge run_stage].
  intros [= <-].
  exists info, generated, skills, document.
  split; [repeat split; eauto|]. split; [done|].
  unfold run_state, run_log, run_metadata. subst s4 s3 s2 s1 log2.
  apply map_eq. intros k.
  destruct (decide (k = "messages")) as [->|Hk].
  { through_inserts. by rewrite <- !(assoc_L (++)). }
  repeat first
    [ rewrite (lookup_insert_ne _ "messages" k) by done
    | match goal with
      | |- context [<[?j := _]> _ !! k] =>
        destruct (decide (k = j)) as [->|?];
          [by through_inserts|rewrite !(lookup_insert_ne _ j k) by done]
      end ].
  done.
Qed.

(** X13.  A run of the graph that returns, on an input whose message log
    is [log]: the three bindings have answered, the record is the
    assembly of their three answers, [latex_code] is its rendering, the
    outputs of the stages are stored under their keys, and the log is the
    input log followed by the five messages in the order of the edges
    (each node returns a list of one message, and the channel adds it to
    the log).  The resume text and the job description are those of the
    input, and the result holds nothing under a key that [AgentState] does
    not declare: such an entry of the input is dropped. *)
Theorem invoke_result (input final : AgentState) (log : list message) :
  input !! "messages" = Some (SMessages log) ->
  invoke input = Some (Ok final) ->
  exists (info : ExtractedResumeInfo.t) (generated : GeneratedProjects.t)
         (skills : TechnicalSkills.t) (document : string),
    ((exists msgs, extractor_llm msgs = Ok info)
     /\ (exists msgs, project_llm msgs = Ok generated)
     /\ (exists msgs, skills_llm msgs = Ok skills))
    /\ render (run_metadata info generated skills) = Ok document
    /\ final !! "extracted_info"
       = Some (SVal (VDict (ExtractedResumeInfo.model_dump info)))
    /\ final !! "generated_projects"
       = Some (SVal (dump_models Project.model_dump
                       (GeneratedProjects.projects generated)))
    /\ final !! "generated_skills"
       = Some (SVal (VDict (TechnicalSkills.skills skills)))
    /\ final !! "resume_metadata"
       = Some (SMeta (run_metadata info generated skills))
    /\ final !! "latex_code" = Some (SVal (VStr document))
    /\ final !! "messages" = Some (SMessages (log ++ run_log generated))
    /\ final !! "resume_text" = input !! "resume_text"
    /\ final !! "job_description" = input !! "job_description"
    /\ forall k : string, k ∉ declared -> final !! k = None.
Proof.
  intros Hlog Hrun.
  destruct (invoke_inv _ _ _ Hlog Hrun)
    as (info & generated & skills & document & Hanswers & Hdoc & ->).
  exists info, generated, skills, document.
  split; [done|]. split; [done|]. unfold run_state.
  repeat (split; [by through_inserts|]).
  split; [|split].
  - through_inserts.
    by apply (channels_of_input input log "resume_text"); [|is_declared].
  - through_inserts.
    by apply (channels_of_input input log "job_description"); [|is_declared].
  - intros k Hk.
    assert (forall j : string, j ∈ declared -> k <> j) as Hne
      by (by intros j Hj ->).
    rewrite !lookup_insert_ne by (apply not_eq_sym, Hne; is_declared).
    rewrite declared_part_lookup. by rewrite decide_False.
Qed.

(** ** Runs that return *)



(** ** What each node needs *)




End Run.

(** ** A run on the example *)

Definition example_input : AgentState :=
  initial_state "Jane Doe, engineer at ACME" "Python developer".

Definition returned (outcome : option (result AgentState)) : bool :=
  match outcome with
  | Some (Ok _) => true
  | _ => false
  end.

Definition example_final : AgentState :=
  match @invoke example_runtime example_service example_input with
  | Some (Ok final) => final
  | _ => ∅
  end.

Lemma example_run :
  @invoke example_runtime example_service example_input
  = Some (Ok example_final).
Proof.
  assert (returned (@invoke example_runtime example_service example_input)
          = true) as Hreturned by (vm_compute; reflexivity).
  unfold example_final.
  by destruct (@invoke example_runtime example_service example_input)
    as [[final|]|].
Qed.

(** The example input with an entry that [AgentState] does not declare. *)
Definition noisy_input : AgentState :=
  <["request_id" := SVal (VInt 7)]> example_input.

Definition noisy_final : AgentState :=
  match @invoke example_runtime example_service noisy_input with
  | Some (Ok final) => final
  | _ => ∅
  end.

Lemma noisy_run :
  @invoke example_runtime example_service noisy_input
  = Some (Ok noisy_final).
Proof.
  assert (returned (@invoke example_runtime example_service noisy_input)
          = true) as Hreturned by (vm_compute; reflexivity).
  unfold noisy_final.
  by destruct (@invoke example_runtime example_service noisy_input)
    as [[final|]|].
Qed.

Lemma invoke_result_witness :
  exists (info : ExtractedResumeInfo.t) (generated : GeneratedProjects.t)
         (skills : TechnicalSkills.t) (document : string),
    ((exists msgs, @extractor_llm example_service msgs = Ok info)
     /\ (exists msgs, @project_llm example_service msgs = Ok generated)
     /\ (exists msgs, @skills_llm example_service msgs = Ok skills))
    /\ @render example_runtime (run_metadata info generated skills)
       = Ok document
    /\ noisy_final !! "extracted_info"
       = Some (SVal (VDict (ExtractedResumeInfo.model_dump info)))
    /\ noisy_final !! "generated_projects"
       = Some (SVal (dump_models Project.model_dump
                       (GeneratedProjects.projects generated)))
    /\ noisy_final !! "generated_skills"
       = Some (SVal (VDict (TechnicalSkills.skills skills)))
    /\ noisy_final !! "resume_metadata"
       = Some (SMeta (run_metadata info generated skills))
    /\ noisy_final !! "latex_code" = Some (SVal (VStr document))
    /\ noisy_final !! "messages"
       = Some (SMessages ([] ++ run_log generated))
    /\ noisy_final !! "resume_text" = noisy_input !! "resume_text"
    /\ noisy_final !! "job_description" = noisy_input !! "job_description"
    /\ forall k : string, k ∉ declared -> noisy_final !! k = None.
Proof.
  apply (@invoke_result example_runtime example_service noisy_input
           noisy_final []).
  - vm_compute; reflexivity.
  - exact noisy_run.
Defined.



End WorkflowFacts.

(* ===================================================================== *)
(** * The retry helper, attempt by attempt                                *)
(* ===================================================================== *)

Module RetryFacts.
Import OnlineCompiler CompilerFacts.

(** The two requests of an attempt that fails. *)
Definition attempt_requests (latex_code : string) (timeout : Z)
  : list request :=
  [post_request latex_code timeout; get_request latex_code timeout].

(** The error of an attempt in which neither outcome delivers. *)
Definition chain_error (o1 o2 : http_outcome) : string :=
  "All compilation services failed: "
  +:+ "YtoTech JSON POST: " +:+ json_error o1
  +:+ "; " +:+ "YtoTech GET: " +:+ get_error o2.

(** What the helper returns once the attempts are used up. *)
Definition report (max_retries : Z) (error : string)
  : result compile_result :=
  Ok (false, None,
      "Compilation failed after " +:+ pretty max_retries
      +:+ " attempts: " +:+ error).

(** The waits of [todo] failing attempts from [attempt] on, in the order
    they are made. *)
Fixpoint naps (todo : nat) (attempt max_retries : Z) : list Z :=
  match todo with
  | O => []
  | S todo' =>
    (if (attempt <? max_retries - 1)%Z then [(2 * (attempt + 1))%Z] else [])
    ++ naps todo' (attempt + 1) max_retries
  end.

(** The first [k] waits, 2, 4, ..., 2k seconds, and the waits between [n]
    attempts. *)
Definition waits (k : nat) : list Z :=
  (fun i => (2 * Z.of_nat (S i))%Z) <$> seq 0 k.

Definition backoff (n : nat) : list Z := waits (n - 1).

(** The world after [k] failed attempts and the given waits. *)
Definition worn (w : world) (latex_code : string) (timeout : Z) (k : nat)
    (naps : list Z) : world :=
  {| net := net w;
     sent := sent w
             ++ concat (replicate k (attempt_requests latex_code timeout));
     slept := reverse naps ++ slept w |}.

Lemma attempt_fails (latex_code : string) (timeout : Z) (w : world) :
  delivers_pdf (net w (length (sent w)) (post_request latex_code timeout))
  = None ->
  delivers_pdf (net w (S (length (sent w))) (get_request latex_code timeout))
  = None ->
  compile_latex_online latex_code timeout w
  = ((false, None,
      chain_error
        (net w (length (sent w)) (post_request latex_code timeout))
        (net w (S (length (sent w))) (get_request latex_code timeout))),
     after w (attempt_requests latex_code timeout)).
Proof.
  intros Hpost Hget. rewrite compile_latex_online_unfold. cbv zeta.
  by rewrite Hpost, Hget.
Qed.

(** One failed attempt of the loop. *)
Lemma retry_loop_failed (todo : nat) (attempt max_retries : Z)
    (latex_code : string) (timeout : Z) (error : option string) (w : world) :
  delivers_pdf (net w (length (sent w)) (post_request latex_code timeout))
  = None ->
  delivers_pdf (net w (S (length (sent w))) (get_request latex_code timeout))
  = None ->
  Second.retry_loop (S todo) attempt max_retries latex_code timeout error w
  = Second.retry_loop todo (attempt + 1) max_retries latex_code timeout
      (Some (chain_error
               (net w (length (sent w)) (post_request latex_code timeout))
               (net w (S (length (sent w)))
                  (get_request latex_code timeout))))
      (worn w latex_code timeout 1 (naps 1 attempt max_retries)).
Proof.
  intros Hpost Hget. cbn [Second.retry_loop]. unfold mbind, io_bind.
  rewrite (attempt_fails _ _ _ Hpost Hget).
  unfold worn, after. cbn [naps replicate concat net sent slept].
  rewrite !app_nil_r.
  by destruct (attempt <? max_retries - 1)%Z.
Qed.

Lemma worn_worn (w : world) (latex_code : string) (timeout : Z)
    (j k : nat) (naps naps' : list Z) :
  worn (worn w latex_code timeout j naps) latex_code timeout k naps'
  = worn w latex_code timeout (j + k) (naps ++ naps').
Proof.
  unfold worn. cbn [net sent slept]. f_equal.
  - by rewrite replicate_add, concat_app, (assoc_L (++)).
  - by rewrite reverse_app, (assoc_L (++)).
Qed.

Lemma worn_sent_length (w : world) (latex_code : string) (timeout : Z)
    (k : nat) (naps : list Z) :
  length (sent (worn w latex_code timeout k naps))
  = length (sent w) + 2 * k.
Proof.
  unfold worn. cbn [sent]. rewrite length_app. f_equal.
  induction k as [|k IH]; [done|].
  cbn [replicate concat]. rewrite length_app, IH. simpl. lia.
Qed.

(** ** A network that never delivers *)

Definition never_delivers (w : world) : Prop :=
  forall (n : nat) (r : request), delivers_pdf (net w n r) = None.

(** The outcome of the loop when every attempt fails. *)
Definition exhausted (todo : nat) (max_retries : Z) (latex_code : string)
    (timeout : Z) (error : option string) (w : world)
  : result compile_result :=
  match todo, error with
  | S todo', _ =>
    report max_retries
      (chain_error
         (net w (length (sent w) + 2 * todo')
            (post_request latex_code timeout))
         (net w (S (length (sent w) + 2 * todo'))
            (get_request latex_code timeout)))
  | O, Some error => report max_retries error
  | O, None => Raise (UnboundLocalError "error")
  end.

Lemma retry_loop_never (todo : nat) (attempt max_retries : Z)
    (latex_code : string) (timeout : Z) (error : option string) (w : world) :
  never_delivers w ->
  Second.retry_loop todo attempt max_retries latex_code timeout error w
  = (exhausted todo max_retries latex_code timeout error w,
     worn w latex_code timeout todo (naps todo attempt max_retries)).
Proof.
  revert attempt error w.
  induction todo as [|todo IH]; intros attempt error w Hnever.
  - unfold worn. cbn [naps replicate concat reverse].
    rewrite app_nil_r. destruct w, error; reflexivity.
  - rewrite retry_loop_failed by apply Hnever.
    rewrite IH by (intros n r; apply Hnever).
    rewrite worn_worn. f_equal.
    + destruct todo as [|todo]; cbn [exhausted].
      * by rewrite Nat.add_0_r.
      * rewrite worn_sent_length. cbn [net worn].
        by replace (length (sent w) + 2 * 1 + 2 * todo)
          with (length (sent w) + 2 * S todo) by lia.
    + cbn [naps plus]. by rewrite app_nil_r.
Qed.

(** The waits of a whole run of the loop. *)
Lemma naps_backoff (todo : nat) (attempt : nat) :
  naps todo (Z.of_nat attempt) (Z.of_nat (attempt + todo))
  = (fun i => (2 * Z.of_nat (S i))%Z) <$> seq attempt (todo - 1).
Proof.
  revert attempt. induction todo as [|todo IH]; intros attempt; [done|].
  cbn [naps].
  replace (Z.of_nat attempt + 1)%Z with (Z.of_nat (S attempt)) by lia.
  replace (attempt + S todo) with (S attempt + todo) by lia.
  rewrite IH. destruct todo as [|todo].
  - rewrite (proj2 (Z.ltb_ge _ _)) by lia. done.
  - rewrite (proj2 (Z.ltb_lt _ _)) by lia.
    replace (S (S todo) - 1) with (S todo) by lia.
    by replace (S todo - 1) with todo by lia.
Qed.

(** X15.  Against a network that never delivers a document, the helper
    with [n = max_retries] makes exactly [n] attempts of two requests
    each, waits 2, 4, ..., 2(n-1) seconds between them (a linear
    schedule, with no wait after the last attempt) and reports the error
    of the last attempt only.  With no attempt to make ([max_retries] zero
    or negative) it raises [UnboundLocalError] and touches nothing. *)
Theorem retry_exhausted (latex_code : string) (max_retries timeout : Z)
    (w : world) :
  never_delivers w ->
  let n := Z.to_nat max_retries in
  Second.compile_latex_with_retry latex_code max_retries timeout w
  = (match n with
     | S n' =>
       report max_retries
         (chain_error
            (net w (length (sent w) + 2 * n')
               (post_request latex_code timeout))
            (net w (S (length (sent w) + 2 * n'))
               (get_request latex_code timeout)))
     | O => Raise (UnboundLocalError "error")
     end,
     {| net := net w;
        sent := sent w
                ++ concat (replicate n (attempt_requests latex_code timeout));
        slept := reverse (backoff n) ++ slept w |}).
Proof.
  intros Hnever n. unfold Second.compile_latex_with_retry.
  rewrite retry_loop_never by done. fold n. f_equal.
  unfold worn. do 2 f_equal. unfold backoff, waits.
  destruct (decide (0 < max_retries)%Z) as [Hpos|Hneg].
  - pose proof (naps_backoff n 0) as Hwaits. cbn [plus] in Hwaits.
    replace (Z.of_nat n) with max_retries in Hwaits by (subst n; lia).
    by rewrite <- Hwaits.
  - by replace n with 0 by (subst n; lia).
Qed.

Definition silent_world : world :=
  {| net := fun n _ =>
       if Nat.even n then Timeout "read timed out"
       else Response 503 [] "";
     sent := [];
     slept := [] |}.

Lemma retry_exhausted_witness :
  Second.compile_latex_with_retry "\documentclass{article}" 4 45 silent_world
  = (report 4
       (chain_error (Timeout "read timed out") (Response 503 [] "")),
     {| net := net silent_world;
        sent := concat (replicate 4
                          (attempt_requests "\documentclass{article}" 45));
        slept := [6; 4; 2]%Z |}).
Proof.
  apply (retry_exhausted "\documentclass{article}" 4 45 silent_world).
  intros n r. simpl. by destruct (Nat.even n).
Defined.

(** ** An attempt that succeeds *)

Lemma retry_loop_succeeded (todo : nat) (attempt max_retries : Z)
    (latex_code : string) (timeout : Z) (error : option string) (w : world)
    (pdf_bytes : option bytes) (message : string) :
  (compile_latex_online latex_code timeout w).1
  = (true, pdf_bytes, message) ->
  Second.retry_loop (S todo) attempt max_retries latex_code timeout error w
  = (Ok (true, pdf_bytes, ""),
     (compile_latex_online latex_code timeout w).2).
Proof.
  intros Hok. cbn [Second.retry_loop]. unfold mbind, io_bind.
  destruct (compile_latex_online latex_code timeout w)
    as [[[success pdf] err] w'].
  by injection Hok as -> -> ->.
Qed.

(** The first [k] attempts get no document. *)
Definition fails_first (k : nat) (w : world) : Prop :=
  forall (i : nat) (r : request),
    i < 2 * k -> delivers_pdf (net w (length (sent w) + i) r) = None.

Lemma retry_loop_skips (k todo : nat) (attempt max_retries : Z)
    (latex_code : string) (timeout : Z) (error : option string) (w : world) :
  fails_first k w ->
  exists error' : option string,
    Second.retry_loop (k + todo) attempt max_retries latex_code timeout
      error w
    = Second.retry_loop todo (attempt + Z.of_nat k) max_retries latex_code
        timeout error'
        (worn w latex_code timeout k (naps k attempt max_retries)).
Proof.
  revert attempt error w.
  induction k as [|k IH]; intros attempt error w Hfails.
  - exists error. rewrite Z.add_0_r. unfold worn.
    cbn [plus naps replicate concat reverse]. rewrite app_nil_r.
    by destruct w.
  - cbn [plus]. rewrite retry_loop_failed.
    2: { rewrite <- (Nat.add_0_r (length (sent w))). apply Hfails. lia. }
    2: { rewrite <- Nat.add_1_r. apply Hfails. lia. }
    edestruct IH as [error' ->].
    { intros i r Hi. rewrite worn_sent_length. cbn [net worn].
      replace (length (sent w) + 2 * 1 + i)
        with (length (sent w) + (2 + i)) by lia.
      apply Hfails. lia. }
    exists error'. rewrite worn_worn.
    replace (attempt + 1 + Z.of_nat k)%Z with (attempt + Z.of_nat (S k))%Z
      by lia.
    cbn [plus naps]. by rewrite app_nil_r.
Qed.

(** The waits of failed attempts that are all followed by another. *)
Lemma naps_below (k attempt : nat) (max_retries : Z) :
  (Z.of_nat (attempt + k) < max_retries)%Z ->
  naps k (Z.of_nat attempt) max_retries
  = (fun i => (2 * Z.of_nat (S i))%Z) <$> seq attempt k.
Proof.
  revert attempt. induction k as [|k IH]; intros attempt Hbelow; [done|].
  cbn [naps seq]. rewrite fmap_cons.
  rewrite (proj2 (Z.ltb_lt _ _)) by lia.
  replace (Z.of_nat attempt + 1)%Z with (Z.of_nat (S attempt)) by lia.
  rewrite IH by lia. done.
Qed.

(** X16.  If the first [k] attempts get no document and the next one
    succeeds, with [k] below [max_retries], the helper returns the
    document of that attempt: it has made [k] failed attempts of two
    requests each, waited 2, 4, ..., 2k seconds, and makes no request and
    no wait after the success. *)
Theorem retry_succeeds_after (k : nat) (latex_code : string)
    (max_retries timeout : Z) (w : world) (pdf_bytes : option bytes)
    (message : string) :
  (Z.of_nat k < max_retries)%Z ->
  fails_first k w ->
  let w' := worn w latex_code timeout k (waits k) in
  (compile_latex_online latex_code timeout w').1
  = (true, pdf_bytes, message) ->
  Second.compile_latex_with_retry latex_code max_retries timeout w
  = (Ok (true, pdf_bytes, ""),
     (compile_latex_online latex_code timeout w').2).
Proof.
  intros Hk Hfails w' Hok. unfold Second.compile_latex_with_retry.
  replace (Z.to_nat max_retries)
    with (k + S (Z.to_nat max_retries - S k)) by lia.
  destruct (retry_loop_skips k (S (Z.to_nat max_retries - S k)) 0
              max_retries latex_code timeout None w Hfails) as [error' ->].
  change 0%Z with (Z.of_nat 0).
  rewrite (naps_below k 0 max_retries) by (simpl; lia).
  by apply (retry_loop_succeeded _ _ _ _ _ _ _ _ message).
Qed.

(** The first attempt fails twice, the second one gets a document at
    once. *)
Definition recovering_world : world :=
  {| net := fun n _ =>
       if Nat.ltb n 2 then Response 503 [] ""
       else Response 200 pdf_body "%PDF-1.5";
     sent := [];
     slept := [] |}.

Lemma retry_succeeds_after_witness :
  Second.compile_latex_with_retry "\documentclass{article}" 3 45
    recovering_world
  = (Ok (true, Some pdf_body, ""),
     {| net := net recovering_world;
        sent := [post_request "\documentclass{article}" 45;
                 get_request "\documentclass{article}" 45;
                 post_request "\documentclass{article}" 45];
        slept := [2%Z] |}).
Proof.
  apply (retry_succeeds_after 1 "\documentclass{article}" 3 45
           recovering_world (Some pdf_body) "").
  - lia.
  - intros i r Hi. destruct i as [|[|i]]; [reflexivity|reflexivity|lia].
  - vm_compute. reflexivity.
Defined.

End RetryFacts.

(* ===================================================================== *)
(** * The API endpoints                                                   *)
(* ===================================================================== *)

Module Endpoints.
Import Agentstate LatexHandler Main StageFacts OnlineCompiler Workflow.

(** ** [POST /api/generate-resume]

    The upload is read through a temporary file by [pdfplumber]; the model
    starts from the texts of the pages as [extract_text] returns them,
    [None] included. *)

(** [resume_text += page.extract_text() + "\n"] over the pages. *)
Fixpoint read_pages (pages : list (option string)) (resume_text : string)
  : result string :=
  match pages with
  | [] => Ok resume_text
  | Some text :: rest => read_pages rest (resume_text +:+ text +:+ nl)
  | None :: _ =>
    Raise (TypeError "unsupported operand type(s) for +: 'NoneType' and 'str'")
  end.

(** [ResumeMetadata.model_dump()]: the fields in declaration order. *)
Definition dump_optional_dict (x : option dict) : pyval :=
  match x with
  | Some d => VDict d
  | None => VNone
  end.

Definition metadata_dump (m : ResumeMetadata) : dict :=
  [ (KStr "name", VStr (name m));
    (KStr "email", VStr (email m));
    (KStr "phone", dump_optional_str (phone m));
    (KStr "github", dump_optional_str (github m));
    (KStr "linkedin", dump_optional_str (linkedin m));
    (KStr "experiences", VList (VDict <$> experiences m));
    (KStr "education", VList (VDict <$> education m));
    (KStr "projects", VList (VDict <$> projects m));
    (KStr "technical_skills", VDict (technical_skills m));
    (KStr "soft_skills", dump_strs (soft_skills m));
    (KStr "positions_of_responsibility",
     VList (VDict <$> positions_of_responsibility m));
    (KStr "certifications", VList (VDict <$> certifications m));
    (KStr "coding_stats", dump_optional_dict (coding_stats m)) ].

(** [len(v)] on a value and on the content of a slot. *)
Definition py_len (v : pyval) : result nat :=
  match v with
  | VList l => Ok (length l)
  | VStr s => Ok (str_len s)
  | VDict d => Ok (length d)
  | VNone => Raise (TypeError "object of type 'NoneType' has no len()")
  | VInt _ => Raise (TypeError "object of type 'int' has no len()")
  end.

Definition slot_len (s : slot) : result nat :=
  match s with
  | SVal v => py_len v
  | SMessages msgs => Ok (length msgs)
  | SMeta _ =>
    Raise (TypeError "object of type 'ResumeMetadata' has no len()")
  end.

(** [len(s.experiences)] and [len(s.projects)]: only the record has the
    attribute. *)
Definition attribute_len (attribute : string)
    (field : ResumeMetadata -> list dict) (s : slot) : result nat :=
  match s with
  | SMeta m => Ok (length (field m))
  | _ => Raise (no_attribute (slot_type_name s) attribute)
  end.

(** [s.model_dump()] *)
Definition slot_model_dump (s : slot) : result pyval :=
  match s with
  | SMeta m => Ok (VDict (metadata_dump m))
  | _ => Raise (no_attribute (slot_type_name s) "model_dump")
  end.

(** A slot as a value of the JSON body: the record and the messages are
    not serializable. *)
Definition json_value (s : slot) : result pyval :=
  match s with
  | SVal v => Ok v
  | SMeta _ =>
    Raise (TypeError "Object of type ResumeMetadata is not JSON serializable")
  | SMessages [] => Ok (VList [])
  | SMessages (SystemMessage _ :: _) =>
    Raise (TypeError "Object of type SystemMessage is not JSON serializable")
  | SMessages (HumanMessage _ :: _) =>
    Raise (TypeError "Object of type HumanMessage is not JSON serializable")
  end.

Record debug : Type := {
  extracted_experiences_count : nat;
  generated_projects_count : nat;
  final_experiences_count : nat;
  final_projects_count : nat;
}.

(** The body of the response: status 200 with the outcome of the run, or
    status 500 with [str(e)] for the exception [e] caught. *)
Inductive resume_response : Type :=
| Generated (metadata : pyval) (latex_code : pyval) (counts : debug)
| Failed (e : exn).

(** What follows [graph.invoke] inside the [try]: the two log lines, then
    the entries of the body, evaluated in the order they are written, then
    the serialization of the body. *)
Definition respond (final_state : AgentState) : result resume_response :=
  logged ← state_item final_state "resume_metadata";
  _ ← attribute_len "experiences" experiences logged;
  logged ← state_item final_state "resume_metadata";
  _ ← attribute_len "projects" projects logged;
  record ← state_item final_state "resume_metadata";
  metadata ← (if slot_truthy record
              then record ← state_item final_state "resume_metadata";
                   slot_model_dump record
              else Ok VNone);
  latex_code ← state_item final_state "latex_code";
  extracted ← state_item final_state "extracted_info";
  extracted_experiences ← slot_get extracted "experiences" (VList []);
  extracted_experiences_count ← py_len extracted_experiences;
  generated ← state_item final_state "generated_projects";
  generated_projects_count ← (if slot_truthy generated
                              then slot_len generated
                              else Ok 0);
  record ← state_item final_state "resume_metadata";
  final_experiences_count ← (if slot_truthy record
                             then record ← state_item final_state
                                             "resume_metadata";
                                  attribute_len "experiences" experiences
                                    record
                             else Ok 0);
  record ← state_item final_state "resume_metadata";
  final_projects_count ← (if slot_truthy record
                          then record ← state_item final_state
                                          "resume_metadata";
                               attribute_len "projects" projects record
                          else Ok 0);
  latex_code ← json_value latex_code;
  Ok (Generated metadata latex_code
        {| extracted_experiences_count := extracted_experiences_count;
           generated_projects_count := generated_projects_count;
           final_experiences_count := final_experiences_count;
           final_projects_count := final_projects_count |}).

Section GenerateResume.
Context `{Runtime} `{ReasoningService}.

Definition generate_resume (pages : list (option string))
    (job_description : string) : option resume_response :=
  match read_pages pages "" with
  | Raise e => Some (Failed e)
  | Ok resume_text =>
    outcome ← invoke (initial_state resume_text job_description);
    Some match outcome ≫= respond with
         | Ok response => response
         | Raise e => Failed e
         end
  end.

End GenerateResume.

(** ** [POST /api/compile-latex] *)

(** The body of the response: status 200 with the document (sent in
    base 64), status 500 with the error of the chain, or status 500 with
    [str(e)] for an exception caught. *)
Inductive compile_response : Type :=
| Compiled (pdf : bytes)
| NotCompiled (error : string)
| Crashed (e : exn).

Definition compile_latex (latex_code : string) : io compile_response :=
  '(success, pdf_bytes, error) ← compile_latex_online latex_code 45;
  mret (if success : bool
        then match pdf_bytes with
             | Some pdf => Compiled pdf
             | None =>
               Crashed
                 (TypeError
                    "a bytes-like object is required, not 'NoneType'")
             end
        else NotCompiled error).

End Endpoints.

Module EndpointFacts.
Import Agentstate LatexHandler Main RenderFacts StageFacts AssemblyFacts
  AssemblyMore RenderMore OnlineCompiler CompilerFacts RetryFacts Workflow
  WorkflowFacts Endpoints.

Section Runs.
Context `{Runtime} `{ReasoningService}.

(** ** Every run has an outcome *)

(** The nodes left to run from a node on. *)
Definition remaining (st : stage) : nat :=
  match st with
  | Extraction => 5
  | ProjectGeneration => 4
  | SkillsGeneration => 3
  | Assembly => 2
  | Rendering => 1
  end.

Lemma steps_defined (limit : nat) (st : stage) (state : AgentState)
    (log : list message) :
  remaining st <= limit ->
  state !! "messages" = Some (SMessages log) ->
  declared_part state = state ->
  is_Some (steps limit (Node st) state).
Proof.
  revert st state log.
  induction limit as [|limit IH]; intros st state log Hlimit Hlog Hstate.
  { destruct st; simpl in Hlimit; lia. }
  cbn [steps].
  destruct (run_stage st state) as [update|e] eqn:Hrun; [|by eexists].
  apply stage_returns_update in Hrun as (v & msg & ->).
  assert (output_field st ∈ declared) as Hfield
    by (destruct st; is_declared).
  rewrite (apply_update_stage _ _ _ _ _ Hlog) by done.
  cbn [mbind option_bind].
  assert (declared_part
            (<["messages" := SMessages (log ++ [msg])]>
               (<[output_field st := v]> state))
          = <["messages" := SMessages (log ++ [msg])]>
              (<[output_field st := v]> state)) as Hstate'.
  { rewrite !declared_part_insert by (done || is_declared).
    by rewrite Hstate. }
  destruct st; cbn [edge];
    first [ eapply IH; [simpl in *; lia|by rewrite lookup_insert_eq|done]
          | destruct limit; by eexists ].
Qed.

Lemma invoke_defined (input : AgentState) (log : list message) :
  input !! "messages" = Some (SMessages log) ->
  is_Some (invoke input).
Proof.
  intros Hlog. unfold invoke. rewrite (apply_update_input _ _ Hlog).
  cbn [mbind option_bind].
  eapply steps_defined;
    [simpl; lia
    |by apply (channels_of_input input log "messages")
    |apply declared_part_idemp].
Qed.

Lemma initial_log (resume_text job_description : string) :
  initial_state resume_text job_description !! "messages"
  = Some (SMessages []).
Proof. vm_compute. reflexivity. Qed.

(** The counts the endpoint reports after a run. *)
Definition run_counts (info : ExtractedResumeInfo.t)
    (generated : GeneratedProjects.t) : debug :=
  {| extracted_experiences_count :=
       length (ExtractedResumeInfo.experiences info);
     generated_projects_count :=
       length (GeneratedProjects.projects generated);
     final_experiences_count :=
       length (ExtractedResumeInfo.experiences info);
     final_projects_count :=
       match GeneratedProjects.projects generated with
       | [] => length (ExtractedResumeInfo.projects info)
       | ps => length ps
       end |}.

Lemma respond_run (input : AgentState) (log : list message)
    (info : ExtractedResumeInfo.t) (generated : GeneratedProjects.t)
    (skills : TechnicalSkills.t) (document : string) :
  respond (run_state input log info generated skills document)
  = Ok (Generated
          (VDict (metadata_dump (run_metadata info generated skills)))
          (VStr document) (run_counts info generated)).
Proof.
  unfold respond, state_item, run_state.
  through_inserts.
  cbn [mbind result_bind attribute_len slot_truthy slot_model_dump
       json_value slot_get val_get].
  change (dict_get (ExtractedResumeInfo.model_dump info) "experiences"
            (VList []))
    with (dump_models WorkExperience.model_dump
            (ExtractedResumeInfo.experiences info)).
  unfold dump_models, run_counts, run_metadata.
  cbn [py_len mbind result_bind truthy].
  rewrite !length_fmap.
  destruct (GeneratedProjects.projects generated) as [|p ps];
    cbn [length Nat.eqb negb slot_len py_len mbind result_bind assemble
         experiences projects];
    by rewrite !length_fmap.
Qed.

(** X17.  The endpoint always answers.  It answers with an error exactly
    when a page has no text or a stage of the run raises, and then with
    that exception: after a run that returns, building the body cannot
    fail.  The body then holds the dump of the assembled record, its
    rendering, and four counts: the final number of experiences is the
    extracted one, and the final number of projects is the generated one
    unless no project was generated, in which case it is the number of
    extracted projects. *)
Theorem generate_resume_response (pages : list (option string))
    (job_description : string) :
  match read_pages pages "" with
  | Raise e => generate_resume pages job_description = Some (Failed e)
  | Ok resume_text =>
    match invoke (initial_state resume_text job_description) with
    | Some (Raise e) =>
      generate_resume pages job_description = Some (Failed e)
    | Some (Ok final) =>
      exists (info : ExtractedResumeInfo.t) (generated : GeneratedProjects.t)
             (skills : TechnicalSkills.t) (document : string),
        final !! "resume_metadata"
        = Some (SMeta (run_metadata info generated skills))
        /\ final !! "latex_code" = Some (SVal (VStr document))
        /\ generate_resume pages job_description
           = Some (Generated
                     (VDict (metadata_dump
                               (run_metadata info generated skills)))
                     (VStr document) (run_counts info generated))
    | None => False
    end
  end.
Proof.
  unfold generate_resume.
  destruct (read_pages pages "") as [resume_text|e]; [|done].
  pose proof (initial_log resume_text job_description) as Hlog.
  destruct (invoke_defined _ _ Hlog) as [outcome Hrun]. rewrite Hrun.
  destruct outcome as [final|e]; [|done].
  destruct (invoke_inv _ _ _ Hlog Hrun)
    as (info & generated & skills & document & _ & _ & ->).
  exists info, generated, skills, document.
  cbn [mbind option_bind result_bind]. rewrite respond_run.
  unfold run_state. split; [by through_inserts|].
  split; [by through_inserts|done].
Qed.

End Runs.

(** ** The compilation endpoint *)

(** X18.  The compilation endpoint makes one attempt, with a timeout of 45
    seconds: it sends the POST request and, only if that delivers no
    document, the GET request; it never waits, never goes through the
    retry helper, and never answers with a caught exception.  It answers
    with the document the first delivering request returned, or else with
    the two errors of the chain. *)
Theorem compile_latex_answer (latex_code : string) (w : world) :
  let o1 := net w (length (sent w)) (post_request latex_code 45) in
  let o2 := net w (S (length (sent w))) (get_request latex_code 45) in
  compile_latex latex_code w
  = match delivers_pdf o1, delivers_pdf o2 with
    | Some pdf, _ => (Compiled pdf, after w [post_request latex_code 45])
    | None, Some pdf =>
      (Compiled pdf, after w (attempt_requests latex_code 45))
    | None, None =>
      (NotCompiled (chain_error o1 o2),
       after w (attempt_requests latex_code 45))
    end.
Proof.
  intros o1 o2. unfold compile_latex, mbind, io_bind.
  rewrite compile_latex_online_unfold. cbv zeta. fold o1 o2.
  destruct (delivers_pdf o1) as [pdf|]; [done|].
  by destruct (delivers_pdf o2) as [pdf|].
Qed.

End EndpointFacts.

(* ===================================================================== *)
(** * What the generation stages read                                     *)
(* ===================================================================== *)

Module GenerationReads.
Import Agentstate LatexHandler Main StageFacts.

Section Reads.
Context `{Runtime} `{ReasoningService}.

(** What a stage writes: its output and its message. *)
Definition written_by (st : stage) (outcome : result AgentState)
  : result (option slot * option slot) :=
  (fun state' => (state' !! output_field st, state' !! "messages"))
    <$> outcome.

(** X21.  The skills are generated from the job description alone: on two
    states with the same job description the stage sends the same
    request, and so writes the same skills and the same message, or
    raises the same exception, whatever else the states hold (the resume
    text and the extracted information included). *)
Theorem generate_skills_reads (state other : AgentState) :
  state !! "job_description" = other !! "job_description" ->
  written_by SkillsGeneration (generate_skills state)
  = written_by SkillsGeneration (generate_skills other).
Proof.
  intros Hsame. unfold written_by, generate_skills, state_item.
  rewrite <- Hsame.
  destruct (state !! "job_description") as [description|]; [|done].
  cbn [mbind result_bind]. destruct (skills_llm _) as [skills|]; [|done].
  cbn [mbind result_bind fmap result_fmap output_field].
  by repeat first
    [ rewrite lookup_insert_eq
    | rewrite lookup_insert_ne by done ].
Qed.

(** X22.  The projects are generated from the job description and the
    extracted experiences alone: on two states with the same job
    description whose extracted dictionaries agree on [experiences], the
    stage sends the same request, and so writes the same projects and the
    same message, or raises the same exception.  The extracted projects,
    skills and education have no part in it. *)
Theorem generate_projects_reads (state other : AgentState)
    (extracted extracted' : dict) :
  state !! "extracted_info" = Some (SVal (VDict extracted)) ->
  other !! "extracted_info" = Some (SVal (VDict extracted')) ->
  dict_get extracted "experiences" (VList [])
  = dict_get extracted' "experiences" (VList []) ->
  state !! "job_description" = other !! "job_description" ->
  written_by ProjectGeneration (generate_projects state)
  = written_by ProjectGeneration (generate_projects other).
Proof.
  intros Hext Hext' Hexperiences Hsame.
  unfold written_by, generate_projects, state_item.
  rewrite Hext, Hext', <- Hsame.
  cbn [mbind result_bind slot_get val_get]. rewrite <- Hexperiences.
  destruct (json_dumps _) as [summary|]; [|done].
  cbn [mbind result_bind].
  destruct (state !! "job_description") as [description|]; [|done].
  cbn [mbind result_bind]. destruct (project_llm _) as [generated|]; [|done].
  cbn [mbind result_bind fmap result_fmap output_field].
  by repeat first
    [ rewrite lookup_insert_eq
    | rewrite lookup_insert_ne by done ].
Qed.

End Reads.

Lemma generate_skills_reads_witness :
  written_by SkillsGeneration
    (@generate_skills RenderFacts.example_runtime example_service
       example_state)
  = written_by SkillsGeneration
      (@generate_skills RenderFacts.example_runtime example_service
         (Workflow.initial_state "Another resume" "Python developer")).
Proof.
  apply (@generate_skills_reads RenderFacts.example_runtime example_service
           example_state
           (Workflow.initial_state "Another resume" "Python developer")).
  vm_compute. reflexivity.
Defined.

(** A state whose extracted dictionary holds the experiences only. *)
Definition experiences_only_state : AgentState :=
  <["extracted_info" :=
      SVal (VDict [(KStr "experiences",
                    dump_models WorkExperience.model_dump
                      (ExtractedResumeInfo.experiences example_extracted))])]>
    example_state.

Lemma generate_projects_reads_witness :
  written_by ProjectGeneration
    (@generate_projects RenderFacts.example_runtime example_service
       example_state)
  = written_by ProjectGeneration
      (@generate_projects RenderFacts.example_runtime example_service
         experiences_only_state).
Proof.
  apply (@generate_projects_reads RenderFacts.example_runtime
           example_service example_state experiences_only_state
           (ExtractedResumeInfo.model_dump example_extracted)
           [(KStr "experiences",
             dump_models WorkExperience.model_dump
               (ExtractedResumeInfo.experiences example_extracted))]);
    vm_compute; reflexivity.
Defined.

End GenerationReads.
